(** * MeshtasticDataHandler: packet normalisation, dispatch and display

    A shallow embedding of [meshtastic_data_handler.py].  Python values are
    an inductive type, a raised exception is an explicit outcome, and the
    handler's methods run in a state-and-exception monad over a world made
    of the storage collaborator's state, the wall clock and a journal of the
    observable calls (log records, validator calls, storage calls).

    What the module imports and does not define is kept apart from the
    handler: [json], [datetime], the text-to-number parsers and
    [type_validation.validate_typed_dict] are the fields of the class
    [PyLib]; the Redis handler passed to [__init__] is the class
    [RedisHandler]. *)

From Stdlib Require Import ZArith List String Ascii Bool Lia DecimalString.
From Stdlib Require DecimalFacts DecimalPos.
From Stdlib Require Import Floats.SpecFloat.
Import ListNotations.
Open Scope string_scope.
Open Scope Z_scope.
Set Warnings "-register-all".

(* ================================================================= *)
(** ** Python values *)

Module Py.

(** The values a decoded packet and a JSON document are made of.  A [dict]
    is an association list in insertion order, keyed by strings as
    [Dict[str, Any]] and JSON have it.  [PObj] is an opaque object that
    only has a text form (the protobuf message under the key ['raw']). *)
Inductive pyval : Type :=
| PNone
| PBool (b : bool)
| PInt (z : Z)
| PFloat (f : spec_float)
| PStr (s : string)
| PList (items : list pyval)
| PDict (entries : list (string * pyval))
| PObj (text : string).

Definition pydict : Type := list (string * pyval).

(** Exception classes, each with its base class.  Every chain of bases
    ends in [BaseException]; the errors of a program derive from
    [Exception], while an interrupt from the keyboard, an exit of the
    interpreter and the cancellation of a task ([asyncio.CancelledError],
    raised at an [await]) derive from [BaseException] alone. *)
Inductive exn_class : Type :=
| BaseException
| Exception
| LookupError
| KeyError
| TypeError
| ValueError
| AttributeError
| ArithmeticError
| OverflowError
| JSONDecodeError
| KeyboardInterrupt
| SystemExit
| CancelledError
| Custom (name : string) (base : exn_class).

Record exn : Type := mk_exn { exn_type : exn_class; exn_arg : string }.

(** The outcome of evaluating an expression or running a statement. *)
Inductive outcome (A : Type) : Type :=
| Returns (a : A)
| Raises (e : exn).
Arguments Returns {A} a.
Arguments Raises {A} e.

Definition raise {A : Type} (c : exn_class) (arg : string) : outcome A :=
  Raises (mk_exn c arg).

Definition obind {A B : Type} (m : outcome A) (k : A -> outcome B) : outcome B :=
  match m with
  | Returns a => k a
  | Raises e => Raises e
  end.

(** Method resolution order of an exception class: the class, then its
    bases up to [BaseException]. *)
Fixpoint mro (c : exn_class) : list exn_class :=
  match c with
  | BaseException => [BaseException]
  | Exception => [Exception; BaseException]
  | LookupError => [LookupError; Exception; BaseException]
  | KeyError => [KeyError; LookupError; Exception; BaseException]
  | TypeError => [TypeError; Exception; BaseException]
  | ValueError => [ValueError; Exception; BaseException]
  | AttributeError => [AttributeError; Exception; BaseException]
  | ArithmeticError => [ArithmeticError; Exception; BaseException]
  | OverflowError => [OverflowError; ArithmeticError; Exception; BaseException]
  | JSONDecodeError => [JSONDecodeError; ValueError; Exception; BaseException]
  | KeyboardInterrupt => [KeyboardInterrupt; BaseException]
  | SystemExit => [SystemExit; BaseException]
  | CancelledError => [CancelledError; BaseException]
  | Custom name base => Custom name base :: mro base
  end.

Fixpoint class_eqb (c d : exn_class) : bool :=
  match c, d with
  | BaseException, BaseException => true
  | Exception, Exception => true
  | LookupError, LookupError => true
  | KeyError, KeyError => true
  | TypeError, TypeError => true
  | ValueError, ValueError => true
  | AttributeError, AttributeError => true
  | ArithmeticError, ArithmeticError => true
  | OverflowError, OverflowError => true
  | JSONDecodeError, JSONDecodeError => true
  | KeyboardInterrupt, KeyboardInterrupt => true
  | SystemExit, SystemExit => true
  | CancelledError, CancelledError => true
  | Custom n b, Custom n' b' => String.eqb n n' && class_eqb b b'
  | _, _ => false
  end.

Definition issubclass (c d : exn_class) : bool :=
  existsb (class_eqb d) (mro c).

(** [isinstance(e, d)], the test an [except d] clause makes. *)
Definition isinstance (e : exn) (d : exn_class) : bool :=
  issubclass (exn_type e) d.

(* ----------------------------------------------------------------- *)
(** *** Dictionaries *)

Fixpoint dict_get (k : string) (d : pydict) : option pyval :=
  match d with
  | [] => None
  | (k', v) :: rest => if String.eqb k k' then Some v else dict_get k rest
  end.

(** [d[k] = v]: replaces the value of an existing key in place, appends a
    new key. *)
Fixpoint dict_set (k : string) (v : pyval) (d : pydict) : pydict :=
  match d with
  | [] => [(k, v)]
  | (k', v') :: rest =>
      if String.eqb k k' then (k, v) :: rest else (k', v') :: dict_set k v rest
  end.

(** [obj[k]] for a string key [k]. *)
Definition getitem (obj : pyval) (k : string) : outcome pyval :=
  match obj with
  | PDict d =>
      match dict_get k d with
      | Some v => Returns v
      | None => raise KeyError k
      end
  | _ => raise TypeError k
  end.

(** [obj.get(k)] and [obj.get(k, default)]. *)
Definition get_default (obj : pyval) (k : string) (default : pyval) : outcome pyval :=
  match obj with
  | PDict d =>
      match dict_get k d with
      | Some v => Returns v
      | None => Returns default
      end
  | _ => raise AttributeError "get"
  end.

Definition get (obj : pyval) (k : string) : outcome pyval :=
  get_default obj k PNone.

(** One element of the sequence given to [dict(...)]: anything that
    iterates to two things, the key and the value.  That is a two-element
    list, a two-character string, or a dictionary of two keys, which
    iterates over its keys.  An entry whose key is hashable but is not a
    string is dropped ([None]): no lookup of this program, all by string
    keys, can reach it. *)
Definition dict_item (item : pyval) : outcome (option (string * pyval)) :=
  match item with
  | PList [PStr k; v] => Returns (Some (k, v))
  | PList [PList _; _] | PList [PDict _; _] => raise TypeError "unhashable type"
  | PList [_; _] => Returns None
  | PStr (String a (String b EmptyString)) =>
      Returns (Some (String a EmptyString, PStr (String b EmptyString)))
  | PDict [(k, _); (k', _)] => Returns (Some (k, PStr k'))
  | PList _ | PStr _ | PDict _ => raise ValueError "dictionary update sequence element"
  | _ => raise TypeError "cannot convert dictionary update sequence element"
  end.

Fixpoint dict_of_items (items : list pyval) (acc : pydict) : outcome pydict :=
  match items with
  | [] => Returns acc
  | item :: rest =>
      obind (dict_item item) (fun kv =>
        match kv with
        | Some (k, v) => dict_of_items rest (dict_set k v acc)
        | None => dict_of_items rest acc
        end)
  end.

(** [dict(obj)]. *)
Definition py_dict (obj : pyval) : outcome pydict :=
  match obj with
  | PDict d => Returns d
  | PList items => dict_of_items items []
  | PStr EmptyString => Returns []
  | PStr _ => raise ValueError "dictionary update sequence element"
  | _ => raise TypeError "object is not iterable"
  end.

(* ----------------------------------------------------------------- *)
(** *** Numbers *)

(** Python's [float] is IEEE 754 binary64. *)
Definition prec : Z := 53.
Definition emax : Z := 1024.

Definition float_of_Z (z : Z) : outcome spec_float :=
  match binary_normalize prec emax z 0 false with
  | S754_infinity _ => raise OverflowError "int too large to convert to float"
  | f => Returns f
  end.

(** [int(f)] truncates towards zero. *)
Definition Z_of_float (f : spec_float) : outcome Z :=
  match f with
  | S754_zero _ => Returns 0
  | S754_finite s m e =>
      let a := if 0 <=? e then Z.shiftl (Z.pos m) e else Z.shiftr (Z.pos m) (- e) in
      Returns (if s then - a else a)
  | S754_infinity _ => raise OverflowError "cannot convert float infinity to integer"
  | S754_nan => raise ValueError "cannot convert float NaN to integer"
  end.

Definition Z_of_bool (b : bool) : Z := if b then 1 else 0.

Definition str_of_Z (z : Z) : string := NilZero.string_of_int (Z.to_int z).

(** [v == z] for an integer literal [z]: numbers compare by value, whatever
    their type; nothing else equals a number. *)
Definition eq_int (v : pyval) (z : Z) : bool :=
  match v with
  | PInt z' => z' =? z
  | PBool b => Z_of_bool b =? z
  | PFloat (S754_zero _) => z =? 0
  | PFloat (S754_finite s m e) =>
      let a := if s then Z.neg m else Z.pos m in
      if 0 <=? e then Z.shiftl a e =? z
      else (Z.shiftl z (- e) =? a)
  | _ => false
  end.

(** [v == s] for a string literal [s]. *)
Definition eq_str (v : pyval) (s : string) : bool :=
  match v with
  | PStr t => String.eqb t s
  | _ => false
  end.

(** Truth value, as [if v:] tests it. *)
Definition truthy (v : pyval) : bool :=
  match v with
  | PNone => false
  | PBool b => b
  | PInt z => negb (z =? 0)
  | PFloat (S754_zero _) => false
  | PFloat _ => true
  | PStr s => match s with EmptyString => false | _ => true end
  | PList l => match l with [] => false | _ => true end
  | PDict d => match d with [] => false | _ => true end
  | PObj _ => true
  end.

End Py.
Export Py.

(* ================================================================= *)
(** ** What the module imports *)

(** The names imported from [meshtastic_types] that the handler passes to
    the validator. *)
Inductive typed_dict : Type :=
| Metrics | UserInfo | NodeInfo | TextMessage | DeviceTelemetry | NetworkTelemetry.

(** Library functions the handler calls.  [int_of_str] and [float_of_str]
    are [int] and [float] on a string ([None]: the text is not a number,
    [ValueError]); [repr] is the text form of floats and containers;
    [isoformat n] is [datetime.now().isoformat()] at the [n]-th reading of
    the clock; [validate_typed_dict] returns or raises. *)
Class PyLib : Type := {
  int_of_str : string -> option Z;
  float_of_str : string -> option spec_float;
  repr : pyval -> string;
  json_dumps : pyval -> outcome string;
  json_loads : string -> outcome pyval;
  isoformat : nat -> string;
  validate_typed_dict : pyval -> typed_dict -> outcome unit
}.

(** The storage collaborator, [self.redis]: each method takes the
    collaborator's state and returns its next state with the call's
    outcome. *)
Class RedisHandler (R : Type) : Type := {
  store_node : string -> R -> outcome unit * R;
  store_message : string -> R -> outcome unit * R;
  load_nodes : Z -> R -> outcome (list string) * R;
  load_messages : Z -> R -> outcome (list string) * R
}.

Section Builtins.
Context {L : PyLib}.

(** [int(v)]. *)
Definition py_int (v : pyval) : outcome Z :=
  match v with
  | PInt z => Returns z
  | PBool b => Returns (Z_of_bool b)
  | PFloat f => Z_of_float f
  | PStr s =>
      match int_of_str s with
      | Some z => Returns z
      | None => raise ValueError "invalid literal for int()"
      end
  | _ => raise TypeError "int() argument"
  end.

(** [float(v)]. *)
Definition py_float (v : pyval) : outcome spec_float :=
  match v with
  | PFloat f => Returns f
  | PInt z => float_of_Z z
  | PBool b => float_of_Z (Z_of_bool b)
  | PStr s =>
      match float_of_str s with
      | Some f => Returns f
      | None => raise ValueError "could not convert string to float"
      end
  | _ => raise TypeError "float() argument"
  end.

(** [str(v)]. *)
Definition py_str (v : pyval) : string :=
  match v with
  | PStr s => s
  | PNone => "None"
  | PBool true => "True"
  | PBool false => "False"
  | PInt z => str_of_Z z
  | PObj text => text
  | _ => repr v
  end.

(** [int(e)], [float(e)] and [str(e)] around an expression [e] that may
    itself raise. *)
Definition int_ (e : outcome pyval) : outcome pyval :=
  obind e (fun v => obind (py_int v) (fun z => Returns (PInt z))).

Definition float_ (e : outcome pyval) : outcome pyval :=
  obind e (fun v => obind (py_float v) (fun f => Returns (PFloat f))).

Definition str_ (e : outcome pyval) : outcome pyval :=
  obind e (fun v => Returns (PStr (py_str v))).

End Builtins.

(* ================================================================= *)
(** ** The world and the monad of the handler's methods *)

Inductive level : Type := DEBUG | INFO | WARNING | ERROR.

(** A log message before formatting: the literal parts of the f-string and
    the values placed in it. *)
Inductive piece : Type :=
| Lit (s : string)
| Val (v : pyval)
| Exc (e : exn).

(** What the handler does to its surroundings, in the order it does it. *)
Inductive event : Type :=
| Log (lvl : level) (msg : list piece) (exc_info : bool)
| Validate (record : pyval) (shape : typed_dict) (verdict : outcome unit)
| StoreNode (payload : string)
| StoreMessage (payload : string)
| LoadNodes (limit : Z)
| LoadMessages (limit : Z).

Record world (R : Type) : Type := mk_world {
  storage : R;
  clock : nat;
  journal : list event
}.
Arguments mk_world {R} _ _ _.
Arguments storage {R} _.
Arguments clock {R} _.
Arguments journal {R} _.

Definition M (R A : Type) : Type := world R -> outcome A * world R.

Definition ret {R A : Type} (a : A) : M R A := fun w => (Returns a, w).

Definition bind {R A B : Type} (m : M R A) (k : A -> M R B) : M R B :=
  fun w =>
    match m w with
    | (Returns a, w') => k a w'
    | (Raises e, w') => (Raises e, w')
    end.

Definition lift {R A : Type} (o : outcome A) : M R A := fun w => (o, w).

(** [raise] inside an [except ... as e] clause. *)
Definition reraise {R A : Type} (e : exn) : M R A := fun w => (Raises e, w).

(** [try: body except c1 as e: h1 except c2 as e: h2 ...]: the first clause
    whose class the exception is an instance of handles it; with no such
    clause the exception goes on to the caller.  An exception raised by a
    handler is not looked up again. *)
Definition try_except {R A : Type} (body : M R A)
    (clauses : list (exn_class * (exn -> M R A))) : M R A :=
  fun w =>
    match body w with
    | (Returns a, w') => (Returns a, w')
    | (Raises e, w') =>
        match find (fun cl => isinstance e (fst cl)) clauses with
        | Some (_, handler) => handler e w'
        | None => (Raises e, w')
        end
    end.

Definition emit {R : Type} (ev : event) : M R unit :=
  fun w => (Returns tt, mk_world (storage w) (clock w) (journal w ++ [ev])).

Declare Scope py_scope.
Delimit Scope py_scope with py.
Notation "x <- m ;; k" := (bind m (fun x => k))
  (at level 61, m at next level, right associativity) : py_scope.
Notation "m ;; k" := (bind m (fun _ => k))
  (at level 61, right associativity) : py_scope.
Notation "'let!' x := e 'in' k" := (obind e (fun x => k))
  (at level 10, x name, e at level 100, k at level 200) : py_scope.
Open Scope py_scope.

(* ================================================================= *)
(** ** class MeshtasticDataHandler *)

Section Handler.
Context {L : PyLib} {R : Type} {RH : RedisHandler R}.

(** [self.logger.debug], [.info], [.warning], [.error]. *)
Definition logger (lvl : level) (msg : list piece) (exc_info : bool) : M R unit :=
  emit (Log lvl msg exc_info).

(** [datetime.now().isoformat()]: reads the clock, which moves on. *)
Definition now_isoformat : M R pyval :=
  fun w => (Returns (PStr (isoformat (clock w))),
            mk_world (storage w) (S (clock w)) (journal w)).

(** A call of [validate_typed_dict(record, shape)], journalled with its
    verdict. *)
Definition validate (record : pyval) (shape : typed_dict) : M R unit :=
  emit (Validate record shape (validate_typed_dict record shape)) ;;
  lift (validate_typed_dict record shape).

(** [await self.redis.store_node(payload)] and its three siblings: the call
    is journalled, then the collaborator runs. *)
Definition redis_call {A : Type} (ev : event) (call : R -> outcome A * R) : M R A :=
  emit ev ;;
  (fun w =>
     let (res, r') := call (storage w) in
     (res, mk_world r' (clock w) (journal w))).

Definition redis_store_node (payload : string) : M R unit :=
  redis_call (StoreNode payload) (store_node payload).

Definition redis_store_message (payload : string) : M R unit :=
  redis_call (StoreMessage payload) (store_message payload).

Definition redis_load_nodes (limit : Z) : M R (list string) :=
  redis_call (LoadNodes limit) (load_nodes limit).

Definition redis_load_messages (limit : Z) : M R (list string) :=
  redis_call (LoadMessages limit) (load_messages limit).

(** [_extract_metrics(packet)] touches nothing but its argument. *)
Definition _extract_metrics (packet : pyval) : outcome pyval :=
  let! rx_time := getitem packet "rxTime" in
  let! rx_snr := get packet "rxSnr" in
  let! rx_rssi := get packet "rxRssi" in
  let! hop_limit := get_default packet "hopLimit" (PInt 3) in
  Returns (PDict [("rx_time", rx_time);
                  ("rx_snr", rx_snr);
                  ("rx_rssi", rx_rssi);
                  ("hop_limit", hop_limit)]).

(** The metrics embedded by [_process_nodeinfo] and [_process_textmessage],
    the same four lines in both. *)
Definition embedded_metrics (packet : pyval) : outcome pyval :=
  let! rx_time := int_ (getitem packet "rxTime") in
  let! rx_snr := float_ (get_default packet "rxSnr" (PInt 0)) in
  let! rx_rssi := int_ (get_default packet "rxRssi" (PInt 0)) in
  let! hop_limit := int_ (get_default packet "hopLimit" (PInt 3)) in
  Returns (PDict [("rx_time", rx_time);
                  ("rx_snr", rx_snr);
                  ("rx_rssi", rx_rssi);
                  ("hop_limit", hop_limit)]).

Definition _process_nodeinfo (packet : pyval) : M R pyval :=
  try_except
    (user_info <- lift (let! decoded := getitem packet "decoded" in
                        let! user := getitem decoded "user" in
                        let! d := py_dict user in
                        Returns (PDict d)) ;;
     timestamp <- now_isoformat ;;
     from_num <- lift (int_ (getitem packet "from")) ;;
     from_id <- lift (str_ (getitem packet "fromId")) ;;
     id <- lift (str_ (getitem user_info "id")) ;;
     long_name <- lift (str_ (getitem user_info "longName")) ;;
     short_name <- lift (str_ (getitem user_info "shortName")) ;;
     macaddr <- lift (str_ (getitem user_info "macaddr")) ;;
     hw_model <- lift (str_ (getitem user_info "hwModel")) ;;
     user_raw <- lift (str_ (getitem user_info "raw")) ;;
     metrics <- lift (embedded_metrics packet) ;;
     raw <- lift (str_ (getitem packet "raw")) ;;
     let node_info :=
       PDict [("type", PStr "nodeinfo");
              ("timestamp", timestamp);
              ("from_num", from_num);
              ("from_id", from_id);
              ("user", PDict [("id", id);
                              ("long_name", long_name);
                              ("short_name", short_name);
                              ("macaddr", macaddr);
                              ("hw_model", hw_model);
                              ("raw", user_raw)]);
              ("metrics", metrics);
              ("raw", raw)] in
     validate node_info NodeInfo ;;
     logger DEBUG [Lit "Validated node_info structure: "; Val node_info] false ;;
     ret node_info)
    [(ValueError, fun e =>
        logger ERROR [Lit "Node info validation failed: "; Exc e] false ;;
        reraise e);
     (Exception, fun e =>
        logger ERROR [Lit "Error processing node info: "; Exc e] true ;;
        reraise e)].

Definition _process_textmessage (packet : pyval) : M R pyval :=
  try_except
    (timestamp <- now_isoformat ;;
     from_num <- lift (int_ (getitem packet "from")) ;;
     from_id <- lift (str_ (getitem packet "fromId")) ;;
     to_num <- lift (int_ (getitem packet "to")) ;;
     to_id <- lift (str_ (getitem packet "toId")) ;;
     text <- lift (str_ (let! decoded := getitem packet "decoded" in
                         getitem decoded "text")) ;;
     metrics <- lift (embedded_metrics packet) ;;
     raw <- lift (str_ (getitem packet "raw")) ;;
     let text_message :=
       PDict [("type", PStr "text");
              ("timestamp", timestamp);
              ("from_num", from_num);
              ("from_id", from_id);
              ("to_num", to_num);
              ("to_id", to_id);
              ("text", text);
              ("metrics", metrics);
              ("raw", raw)] in
     validate text_message TextMessage ;;
     logger DEBUG [Lit "Validated text_message structure: "; Val text_message] false ;;
     ret text_message)
    [(Exception, fun e =>
        logger ERROR [Lit "Error processing text message: "; Exc e] true ;;
        reraise e)].

Definition _process_device_telemetry (packet : pyval) : M R pyval :=
  try_except
    (telemetry <- lift (let! decoded := getitem packet "decoded" in
                        getitem decoded "telemetry") ;;
     timestamp <- now_isoformat ;;
     from_num <- lift (int_ (getitem packet "from")) ;;
     from_id <- lift (str_ (getitem packet "fromId")) ;;
     battery_level <- lift (int_ (let! dm := getitem telemetry "deviceMetrics" in
                                  getitem dm "batteryLevel")) ;;
     voltage <- lift (float_ (let! dm := getitem telemetry "deviceMetrics" in
                              getitem dm "voltage")) ;;
     channel_utilization <-
       lift (float_ (let! dm := getitem telemetry "deviceMetrics" in
                     get_default dm "channelUtilization" (PFloat (S754_zero false)))) ;;
     air_util_tx <- lift (float_ (let! dm := getitem telemetry "deviceMetrics" in
                                  getitem dm "airUtilTx")) ;;
     uptime_seconds <- lift (int_ (let! dm := getitem telemetry "deviceMetrics" in
                                   getitem dm "uptimeSeconds")) ;;
     metrics <- lift (_extract_metrics packet) ;;
     raw <- lift (str_ (getitem packet "raw")) ;;
     let device_telemetry :=
       PDict [("type", PStr "device_telemetry");
              ("timestamp", timestamp);
              ("from_num", from_num);
              ("from_id", from_id);
              ("device_metrics", PDict [("battery_level", battery_level);
                                        ("voltage", voltage);
                                        ("channel_utilization", channel_utilization);
                                        ("air_util_tx", air_util_tx);
                                        ("uptime_seconds", uptime_seconds)]);
              ("metrics", metrics);
              ("raw", raw)] in
     validate device_telemetry DeviceTelemetry ;;
     logger DEBUG [Lit "Validated device telemetry structure: "; Val device_telemetry] false ;;
     ret device_telemetry)
    [(Exception, fun e =>
        logger ERROR [Lit "Error processing device telemetry: "; Exc e] true ;;
        reraise e)].

(** The suite of the [try] statement of [process_packet]. *)
Definition process_packet_try (packet : pyval) (packet_type : string) : M R unit :=
  logger DEBUG [Lit "Processing "; Val (PStr packet_type); Lit " packet"] false ;;
  portnum <- lift (let! decoded := getitem packet "decoded" in
                   getitem decoded "portnum") ;;
  if eq_str portnum "NODEINFO_APP" then
    processed <- _process_nodeinfo packet ;;
    payload <- lift (json_dumps processed) ;;
    redis_store_node payload ;;
    from_id <- lift (getitem processed "from_id") ;;
    logger INFO [Lit "Stored node info for "; Val from_id] false ;;
    timestamp <- lift (getitem processed "timestamp") ;;
    from_id <- lift (getitem processed "from_id") ;;
    long_name <- lift (let! user := getitem processed "user" in
                       getitem user "long_name") ;;
    logger INFO [Lit "["; Val timestamp; Lit "] Node "; Val from_id;
                 Lit ": "; Val long_name] false
  else if eq_str portnum "TEXT_MESSAGE_APP" then
    processed <- _process_textmessage packet ;;
    payload <- lift (json_dumps processed) ;;
    redis_store_message payload ;;
    from_id <- lift (getitem processed "from_id") ;;
    logger INFO [Lit "Stored text message from "; Val from_id] false ;;
    timestamp <- lift (getitem processed "timestamp") ;;
    from_id <- lift (getitem processed "from_id") ;;
    to_id <- lift (getitem processed "to_id") ;;
    text <- lift (getitem processed "text") ;;
    logger INFO [Lit "["; Val timestamp; Lit "] "; Val from_id;
                 Lit " -> "; Val to_id; Lit ": "; Val text] false
  else
    logger WARNING [Lit "Unknown packet type: "; Val portnum] false.

Definition process_packet (packet : pyval) (packet_type : string) : M R unit :=
  try_except
    (process_packet_try packet packet_type)
    [(Exception, fun e =>
        logger ERROR [Lit "Error processing "; Val (PStr packet_type);
                      Lit " packet: "; Exc e] true)].

Definition format_message_for_display (json_str : string) : M R pyval :=
  try_except
    (data <- lift (json_loads json_str) ;;
     timestamp <- lift (getitem data "timestamp") ;;
     from_id <- lift (getitem data "from_id") ;;
     to_id <- lift (getitem data "to_id") ;;
     text <- lift (getitem data "text") ;;
     ret (PDict [("timestamp", timestamp);
                 ("from", from_id);
                 ("to", to_id);
                 ("text", text)]))
    [(JSONDecodeError, fun e =>
        logger ERROR [Lit "Error decoding message JSON: "; Exc e] false ;;
        ret PNone)].

Definition format_node_for_display (json_str : string) : M R pyval :=
  try_except
    (data <- lift (json_loads json_str) ;;
     timestamp <- lift (getitem data "timestamp") ;;
     from_id <- lift (getitem data "from_id") ;;
     long_name <- lift (let! user := getitem data "user" in
                        getitem user "long_name") ;;
     ret (PDict [("timestamp", timestamp);
                 ("id", from_id);
                 ("name", long_name)]))
    [(JSONDecodeError, fun e =>
        logger ERROR [Lit "Error decoding node JSON: "; Exc e] false ;;
        ret PNone)].

(** The [for] loop shared by the two listing methods: format each item,
    keep the results that are true. *)
Fixpoint format_each (format : string -> M R pyval) (items : list string)
    (formatted : list pyval) : M R (list pyval) :=
  match items with
  | [] => ret formatted
  | item :: rest =>
      fmt <- format item ;;
      format_each format rest (if truthy fmt then formatted ++ [fmt] else formatted)
  end.

Definition get_formatted_messages (limit : Z) : M R (list pyval) :=
  logger DEBUG [Lit "Retrieving formatted messages"] false ;;
  messages <- redis_load_messages limit ;;
  logger DEBUG [Lit "Found "; Val (PInt (Z.of_nat (List.length messages))); Lit " messages"] false ;;
  format_each format_message_for_display messages [].

Definition get_formatted_nodes (limit : Z) : M R (list pyval) :=
  logger DEBUG [Lit "Retrieving formatted nodes"] false ;;
  nodes <- redis_load_nodes limit ;;
  logger DEBUG [Lit "Found "; Val (PInt (Z.of_nat (List.length nodes))); Lit " nodes"] false ;;
  format_each format_node_for_display nodes [].

End Handler.

(* ================================================================= *)
(** ** An executable library: CPython's text forms

    One concrete [PyLib], written after CPython's behaviour on texts whose
    characters are below code point 256, and one in-memory [RedisHandler].
    The theorems below hold for every library and every collaborator,
    except where they speak of the text that [json] writes and reads, which
    is the [json] of this module; the two run the handler on concrete
    packets. *)

Module CPython.

Definition code (c : ascii) : Z := Z.of_N (N_of_ascii c).

Definition chars (s : string) : list ascii := list_ascii_of_string s.
Definition text (cs : list ascii) : string := string_of_list_ascii cs.

(** [str.isspace] on one character. *)
Definition is_space (c : ascii) : bool :=
  let n := code c in
  ((9 <=? n) && (n <=? 13)) || ((28 <=? n) && (n <=? 32)) || (n =? 133) || (n =? 160).

Definition is_digit (c : ascii) : bool :=
  let n := code c in (48 <=? n) && (n <=? 57).

Fixpoint lstrip (cs : list ascii) : list ascii :=
  match cs with
  | c :: rest => if is_space c then lstrip rest else cs
  | [] => []
  end.

Definition strip (cs : list ascii) : list ascii :=
  rev (lstrip (rev (lstrip cs))).

(** A run of decimal digits in which single underscores may separate
    digits: the value read after [acc], the number of digits read after
    [n], and the rest of the text. *)
Fixpoint digits (cs : list ascii) (acc : Z) (n : nat) : Z * nat * list ascii :=
  match cs with
  | c :: rest =>
      if is_digit c then digits rest (10 * acc + (code c - 48)) (S n)
      else if Ascii.eqb c "_" then
        match n, rest with
        | S _, d :: _ => if is_digit d then digits rest acc n else (acc, n, cs)
        | _, _ => (acc, n, cs)
        end
      else (acc, n, cs)
  | [] => (acc, n, [])
  end.

(** An optional sign: [true] for a minus. *)
Definition sign (cs : list ascii) : bool * list ascii :=
  match cs with
  | c :: rest =>
      if Ascii.eqb c "-" then (true, rest)
      else if Ascii.eqb c "+" then (false, rest)
      else (false, cs)
  | [] => (false, [])
  end.

(** The integer that a text denotes in base ten, whatever its length. *)
Definition read_int (s : string) : option Z :=
  let (neg, cs) := sign (strip (chars s)) in
  match digits cs 0 0 with
  | (v, S _, []) => Some (if neg then - v else v)
  | _ => None
  end.

(** The most digits the interpreter converts between [int] and [str]
    ([sys.int_info.default_max_str_digits]): beyond it the conversion is a
    [ValueError], in both directions. *)
Definition max_str_digits : nat := 4300.

(** The number of digits of a text that denotes an integer. *)
Definition count_digits (s : string) : nat :=
  let (_, cs) := sign (strip (chars s)) in
  snd (fst (digits cs 0 0)).

(** [int(s)] in base ten. *)
Definition parse_int (s : string) : option Z :=
  if (max_str_digits <? count_digits s)%nat then None else read_int s.

(** The binary64 nearest to [num / den] (ties to even), for [num >= 0] and
    [den > 0]: the quotient is taken with at least 64 bits and one more
    bit recording whether anything was left over. *)
Definition round_ratio (neg : bool) (num den : Z) : spec_float :=
  if num =? 0 then S754_zero neg
  else
    let s := Z.max 0 (66 + Z.log2 den - Z.log2 num) in
    let q := Z.shiftl num s / den in
    let sticky := if Z.shiftl num s mod den =? 0 then 0 else 1 in
    let q' := 2 * q + sticky in
    binary_normalize prec emax (if neg then - q' else q') (- (s + 1)) neg.

(** The binary64 nearest to [m * 10 ^ e], for [m >= 0]. *)
Definition round_decimal (neg : bool) (m e : Z) : spec_float :=
  if 0 <=? e then round_ratio neg (m * 10 ^ e) 1
  else round_ratio neg m (10 ^ (- e)).

Definition lower (c : ascii) : ascii :=
  let n := code c in
  if (65 <=? n) && (n <=? 90) then ascii_of_N (Z.to_N (n + 32)) else c.

(** [float(s)]. *)
Definition parse_float (s : string) : option spec_float :=
  let (neg, cs) := sign (strip (chars s)) in
  let word := text (map lower cs) in
  if String.eqb word "inf" || String.eqb word "infinity" then Some (S754_infinity neg)
  else if String.eqb word "nan" then Some S754_nan
  else
    let '(ip, ni, r1) := digits cs 0 0 in
    let '(fp, nf, r2) :=
      match r1 with
      | c :: r => if Ascii.eqb c "." then digits r 0 0 else (0, O, r1)
      | [] => (0, O, r1)
      end in
    match (ni + nf)%nat with
    | O => None
    | S _ =>
        let mant := ip * 10 ^ Z.of_nat nf + fp in
        match r2 with
        | [] => Some (round_decimal neg mant (- Z.of_nat nf))
        | c :: r =>
            if Ascii.eqb (lower c) "e" then
              let (eneg, r3) := sign r in
              match digits r3 0 0 with
              | (ev, S _, []) =>
                  Some (round_decimal neg mant
                          ((if eneg then - ev else ev) - Z.of_nat nf))
              | _ => None
              end
            else None
        end
    end.

(** [x < 10 ^ k] for the positive rational [x = num / den]. *)
Definition below_pow10 (num den k : Z) : bool :=
  if 0 <=? k then num <? den * 10 ^ k else num * 10 ^ (- k) <? den.

Fixpoint raise_exp (fuel : nat) (num den k : Z) : Z :=
  match fuel with
  | O => k
  | S fuel' => if below_pow10 num den k then k else raise_exp fuel' num den (k + 1)
  end.

(** The position of the decimal point of [num / den]: the [k] with
    [10 ^ (k - 1) <= num / den < 10 ^ k]. *)
Definition decimal_point (num den : Z) : Z :=
  raise_exp 8 num den ((Z.log2 num - Z.log2 den) * 30103 / 100000 - 2).

(** [num / den] to the nearest integer, ties to even. *)
Definition round_half_even (num den : Z) : Z :=
  let q := num / den in
  let r := num mod den in
  match 2 * r ?= den with
  | Lt => q
  | Gt => q + 1
  | Eq => if Z.even q then q else q + 1
  end.

(** The integer nearest to [num / den * 10 ^ (n - k)]: the first [n]
    significant digits. *)
Definition leading_digits (num den k n : Z) : Z :=
  if 0 <=? n - k then round_half_even (num * 10 ^ (n - k)) den
  else round_half_even num (den * 10 ^ (k - n)).

(** The fewest digits that read back as [x = m * 2 ^ e], tried from one
    digit up; seventeen always do. *)
Fixpoint shortest (fuel : nat) (m : positive) (e : Z) (num den k n : Z) : Z * Z :=
  let d := leading_digits num den k n in
  match fuel with
  | O => (d, n)
  | S fuel' =>
      match round_decimal false d (k - n) with
      | S754_finite _ m' e' =>
          if (Pos.eqb m m' && (e =? e'))%bool then (d, n)
          else shortest fuel' m e num den k (n + 1)
      | _ => shortest fuel' m e num den k (n + 1)
      end
  end.

Fixpoint drop_zeros (rev_ds : list ascii) : list ascii :=
  match rev_ds with
  | c :: ((_ :: _) as rest) => if Ascii.eqb c "0" then drop_zeros rest else rev_ds
  | _ => rev_ds
  end.

Definition zeros (n : Z) : list ascii := repeat "0"%char (Z.to_nat n).

(** The digits [all] of a positive float laid out with the decimal point
    after the first [decpt] of them: trailing zeros dropped, scientific
    notation from sixteen digits before the point or four zeros after
    it. *)
Definition layout (all : list ascii) (decpt : Z) : list ascii :=
  let ds := rev (drop_zeros (rev all)) in
  let len := Z.of_nat (List.length ds) in
  if (decpt <=? -4) || (16 <? decpt) then
    let x := decpt - 1 in
    let mant :=
      match ds with
      | c :: (_ :: _) as rest => c :: "."%char :: rest
      | _ => ds
      end in
    let ex := chars (str_of_Z (Z.abs x)) in
    mant ++ ["e"%char; if x <? 0 then "-"%char else "+"%char]
         ++ (if Z.abs x <? 10 then "0"%char :: ex else ex)
  else if decpt <=? 0 then
    chars "0." ++ zeros (- decpt) ++ ds
  else if len <=? decpt then
    ds ++ zeros (decpt - len) ++ chars ".0"
  else
    firstn (Z.to_nat decpt) ds ++ "."%char :: skipn (Z.to_nat decpt) ds.

(** [repr] of a positive finite float.  The leading digits [d] of a
    positive number are at least 1. *)
Definition finite_repr (m : positive) (e : Z) : list ascii :=
  let num := if 0 <=? e then Z.shiftl (Z.pos m) e else Z.pos m in
  let den := if 0 <=? e then 1 else Z.shiftl 1 (- e) in
  let k := decimal_point num den in
  let (d, n) := shortest 16 m e num den k 1 in
  let all := chars (str_of_Z (Z.max 1 d)) in
  layout all (k + (Z.of_nat (List.length all) - n)).

(** [repr(f)] for a float. *)
Definition float_repr (f : spec_float) : string :=
  match f with
  | S754_zero false => "0.0"
  | S754_zero true => "-0.0"
  | S754_infinity false => "inf"
  | S754_infinity true => "-inf"
  | S754_nan => "nan"
  | S754_finite s m e =>
      text ((if s then ["-"%char] else []) ++ finite_repr m e)
  end.

Definition hex_digit (n : Z) : ascii :=
  ascii_of_N (Z.to_N (if n <? 10 then 48 + n else 87 + n)).

(** [str.isprintable] on one character below code point 256. *)
Definition is_printable (c : ascii) : bool :=
  let n := code c in
  ((32 <=? n) && (n <=? 126)) || ((161 <=? n) && negb (n =? 173)).

Definition has (c : ascii) (cs : list ascii) : bool := existsb (Ascii.eqb c) cs.

Definition dquote : ascii := ascii_of_N 34.
Definition backslash : ascii := ascii_of_N 92.

(** [repr(s)] for a string: single quotes unless the text has one and no
    double quote. *)
Definition str_repr (s : string) : string :=
  let cs := chars s in
  let quote := if has "'"%char cs && negb (has dquote cs) then dquote else "'"%char in
  let escape (c : ascii) : list ascii :=
    let n := code c in
    if Ascii.eqb c quote || Ascii.eqb c backslash then [backslash; c]
    else if n =? 9 then [backslash; "t"%char]
    else if n =? 10 then [backslash; "n"%char]
    else if n =? 13 then [backslash; "r"%char]
    else if is_printable c then [c]
    else [backslash; "x"%char; hex_digit (n / 16); hex_digit (n mod 16)] in
  text (quote :: flat_map escape cs ++ [quote])%list.

Definition join (sep : string) (parts : list string) : string :=
  String.concat sep parts.

(** [repr(v)]. *)
Fixpoint py_repr (v : pyval) : string :=
  match v with
  | PNone => "None"
  | PBool true => "True"
  | PBool false => "False"
  | PInt z => str_of_Z z
  | PFloat f => float_repr f
  | PStr s => str_repr s
  | PObj t => t
  | PList items =>
      "[" ++ join ", " (map py_repr items) ++ "]"
  | PDict entries =>
      "{" ++ join ", " (map (fun kv => str_repr (fst kv) ++ ": " ++ py_repr (snd kv)) entries)
          ++ "}"
  end.

(* ----------------------------------------------------------------- *)
(** *** json.dumps, with its default options *)

(** A string between double quotes, every character outside the printable
    ASCII range escaped ([ensure_ascii]). *)
Definition json_escape (c : ascii) : list ascii :=
  let n := code c in
  if Ascii.eqb c dquote || Ascii.eqb c backslash then [backslash; c]
  else if n =? 8 then [backslash; "b"%char]
  else if n =? 9 then [backslash; "t"%char]
  else if n =? 10 then [backslash; "n"%char]
  else if n =? 12 then [backslash; "f"%char]
  else if n =? 13 then [backslash; "r"%char]
  else if (32 <=? n) && (n <=? 126) then [c]
  else [backslash; "u"%char; "0"%char; "0"%char;
        hex_digit (n / 16); hex_digit (n mod 16)].

Definition json_string (s : string) : string :=
  text (dquote :: flat_map json_escape (chars s) ++ [dquote])%list.

Definition json_float (f : spec_float) : string :=
  match f with
  | S754_nan => "NaN"
  | S754_infinity false => "Infinity"
  | S754_infinity true => "-Infinity"
  | _ => float_repr f
  end.

(** An integer, unless it has more digits than the interpreter converts. *)
Definition json_int (z : Z) : outcome string :=
  if (max_str_digits <? count_digits (str_of_Z z))%nat
  then raise ValueError "Exceeds the limit (4300 digits) for integer string conversion"
  else Returns (str_of_Z z).

Fixpoint dumps (v : pyval) : outcome string :=
  match v with
  | PNone => Returns "null"
  | PBool true => Returns "true"
  | PBool false => Returns "false"
  | PInt z => json_int z
  | PFloat f => Returns (json_float f)
  | PStr s => Returns (json_string s)
  | PObj _ => raise TypeError "Object is not JSON serializable"
  | PList items =>
      let fix each (l : list pyval) : outcome (list string) :=
        match l with
        | [] => Returns []
        | x :: rest =>
            let! sx := dumps x in
            let! srest := each rest in
            Returns (sx :: srest)
        end in
      let! parts := each items in
      Returns ("[" ++ join ", " parts ++ "]")
  | PDict entries =>
      let fix each (l : list (string * pyval)) : outcome (list string) :=
        match l with
        | [] => Returns []
        | (k, x) :: rest =>
            let! sx := dumps x in
            let! srest := each rest in
            Returns ((json_string k ++ ": " ++ sx) :: srest)
        end in
      let! parts := each entries in
      Returns ("{" ++ join ", " parts ++ "}")
  end.

(* ----------------------------------------------------------------- *)
(** *** json.loads *)

(** The result of reading a prefix of the text.  [Exceeds] marks an
    integer of more digits than the interpreter converts, at which the
    reader stops with a [ValueError]; [TooDeep] marks an array or object
    nested deeper than the interpreter's recursion limit allows, at which
    it stops with a [RecursionError]; [Beyond] marks a document that names
    a character from code point 256 on, which the strings of this
    development do not hold. *)
Inductive parsed (A : Type) : Type :=
| Ok (a : A) (rest : list ascii)
| Bad (msg : string)
| Exceeds
| TooDeep
| Beyond.
Arguments Ok {A} a rest.
Arguments Bad {A} msg.
Arguments Exceeds {A}.
Arguments TooDeep {A}.
Arguments Beyond {A}.

Definition is_ws (c : ascii) : bool :=
  let n := code c in (n =? 32) || (n =? 9) || (n =? 10) || (n =? 13).

Fixpoint skip_ws (cs : list ascii) : list ascii :=
  match cs with
  | c :: rest => if is_ws c then skip_ws rest else cs
  | [] => []
  end.

Fixpoint starts_with (word cs : list ascii) : option (list ascii) :=
  match word, cs with
  | [], _ => Some cs
  | w :: word', c :: cs' => if Ascii.eqb w c then starts_with word' cs' else None
  | _ :: _, [] => None
  end.

Definition hex_value (c : ascii) : option Z :=
  let n := code c in
  if (48 <=? n) && (n <=? 57) then Some (n - 48)
  else if (97 <=? n) && (n <=? 102) then Some (n - 87)
  else if (65 <=? n) && (n <=? 70) then Some (n - 55)
  else None.

(** The four hexadecimal digits after [\u]. *)
Definition hex4 (cs : list ascii) : option (Z * list ascii) :=
  match cs with
  | a :: b :: c :: d :: rest =>
      match hex_value a, hex_value b, hex_value c, hex_value d with
      | Some x, Some y, Some z, Some w => Some (((x * 16 + y) * 16 + z) * 16 + w, rest)
      | _, _, _, _ => None
      end
  | _ => None
  end.

(** The body of a string, after its opening quote, up to the closing one. *)
Fixpoint scan_string (fuel : nat) (cs : list ascii) (acc : list ascii) : parsed string :=
  match fuel with
  | O => Bad "Unterminated string"
  | S fuel' =>
      match cs with
      | [] => Bad "Unterminated string"
      | c :: rest =>
          if Ascii.eqb c dquote then Ok (text (rev acc)) rest
          else if code c <? 32 then Bad "Invalid control character"
          else if Ascii.eqb c backslash then
            match rest with
            | [] => Bad "Unterminated string"
            | e :: rest' =>
                let simple (x : Z) := scan_string fuel' rest' (ascii_of_N (Z.to_N x) :: acc) in
                if Ascii.eqb e dquote then simple 34
                else if Ascii.eqb e backslash then simple 92
                else if Ascii.eqb e "/" then simple 47
                else if Ascii.eqb e "b" then simple 8
                else if Ascii.eqb e "f" then simple 12
                else if Ascii.eqb e "n" then simple 10
                else if Ascii.eqb e "r" then simple 13
                else if Ascii.eqb e "t" then simple 9
                else if Ascii.eqb e "u" then
                  match hex4 rest' with
                  | Some (n, rest'') =>
                      if n <? 256 then scan_string fuel' rest'' (ascii_of_N (Z.to_N n) :: acc)
                      else Beyond
                  | None => Bad "Invalid \uXXXX escape"
                  end
                else Bad "Invalid \escape"
            end
          else scan_string fuel' rest (c :: acc)
      end
  end.

Fixpoint take_digits (cs : list ascii) : list ascii * list ascii :=
  match cs with
  | c :: rest =>
      if is_digit c then let (ds, r) := take_digits rest in (c :: ds, r) else ([], cs)
  | [] => ([], [])
  end.

(** The integer part of a number: a zero, or a run of digits that does not
    start with zero. *)
Definition int_part (cs : list ascii) : option (list ascii * list ascii) :=
  match cs with
  | c :: r =>
      if Ascii.eqb c "0" then Some (["0"%char], r)
      else if is_digit c then let (ds, r') := take_digits r in Some (c :: ds, r')
      else None
  | [] => None
  end.

(** The fraction, if there is one: a point and at least one digit. *)
Definition frac_part (cs : list ascii) : list ascii * list ascii :=
  match cs with
  | c :: r =>
      if Ascii.eqb c "." then
        match take_digits r with
        | ([], _) => ([], cs)
        | (ds, r') => ("."%char :: ds, r')
        end
      else ([], cs)
  | [] => ([], cs)
  end.

(** The exponent, if there is one: e or E, an optional sign, at least one
    digit. *)
Definition expo_part (cs : list ascii) : list ascii * list ascii :=
  match cs with
  | c :: r =>
      if Ascii.eqb (lower c) "e" then
        let (sg, r') :=
          match r with
          | x :: r'' =>
              if Ascii.eqb x "-" || Ascii.eqb x "+" then ([x], r'') else ([], r)
          | [] => ([], r)
          end in
        match take_digits r' with
        | ([], _) => ([], cs)
        | (ds, r'') => ((c :: sg ++ ds)%list, r'')
        end
      else ([], cs)
  | [] => ([], cs)
  end.

(** A number: an optional minus, the integer part, an optional fraction
    and an optional exponent.  An integer when it has neither fraction nor
    exponent, a float otherwise.  With [limit], an integer of more than
    [max_str_digits] digits is not converted ([None] in the place of the
    number); without, integers of any length are read. *)
Definition scan_number (limit : bool) (cs : list ascii)
    : option (option pyval * list ascii) :=
  let (minus, r0) :=
    match cs with
    | c :: r => if Ascii.eqb c "-" then (["-"%char], r) else ([], cs)
    | [] => ([], cs)
    end in
  match int_part r0 with
  | None => None
  | Some (ip, r1) =>
      let (frac, r2) := frac_part r1 in
      let (expo, r3) := expo_part r2 in
      match frac, expo with
      | [], [] =>
          if limit && (max_str_digits <? List.length ip)%nat then Some (None, r3)
          else
            match read_int (text (minus ++ ip)) with
            | Some z => Some (Some (PInt z), r3)
            | None => None
            end
      | _, _ =>
          match parse_float (text (minus ++ ip ++ frac ++ expo)) with
          | Some f => Some (Some (PFloat f), r3)
          | None => None
          end
      end
  end%list.

Definition keyword (limit : bool) (cs : list ascii) : parsed pyval :=
  let try (word : string) (v : pyval) (otherwise : parsed pyval) :=
    match starts_with (chars word) cs with
    | Some rest => Ok v rest
    | None => otherwise
    end in
  try "null" PNone
   (try "true" (PBool true)
     (try "false" (PBool false)
       (match scan_number limit cs with
        | Some (Some v, r) => Ok v r
        | Some (None, _) => Exceeds
        | None =>
            try "NaN" (PFloat S754_nan)
             (try "Infinity" (PFloat (S754_infinity false))
               (try "-Infinity" (PFloat (S754_infinity true))
                  (Bad "Expecting value")))
        end))).

(** A value, with [depth] more levels of arrays and objects allowed when
    [limit] is set. *)
Fixpoint parse_value (limit : bool) (depth fuel : nat) (cs : list ascii)
    : parsed pyval :=
  match fuel with
  | O => Bad "Expecting value"
  | S fuel' =>
      match cs with
      | [] => Bad "Expecting value"
      | c :: rest =>
          if Ascii.eqb c dquote then
            match scan_string (List.length rest) rest [] with
            | Ok s r => Ok (PStr s) r
            | Bad msg => Bad msg
            | Exceeds => Exceeds
            | TooDeep => TooDeep
            | Beyond => Beyond
            end
          else if Ascii.eqb c "{" then
            if limit && (depth =? 0)%nat then TooDeep
            else
              match skip_ws rest with
              | x :: r => if Ascii.eqb x "}" then Ok (PDict []) r
                          else parse_members limit (pred depth) fuel' (x :: r) []
              | [] => Bad "Expecting property name enclosed in double quotes"
              end
          else if Ascii.eqb c "[" then
            if limit && (depth =? 0)%nat then TooDeep
            else
              match skip_ws rest with
              | x :: r => if Ascii.eqb x "]" then Ok (PList []) r
                          else parse_elements limit (pred depth) fuel' (x :: r) []
              | [] => Bad "Expecting value"
              end
          else keyword limit cs
      end
  end

with parse_elements (limit : bool) (depth fuel : nat) (cs : list ascii)
    (acc : list pyval)
    : parsed pyval :=
  match fuel with
  | O => Bad "Expecting value"
  | S fuel' =>
      match parse_value limit depth fuel' cs with
      | Ok v r =>
          match skip_ws r with
          | x :: r' =>
              if Ascii.eqb x "," then parse_elements limit depth fuel' (skip_ws r') (acc ++ [v])
              else if Ascii.eqb x "]" then Ok (PList (acc ++ [v])) r'
              else Bad "Expecting ',' delimiter"
          | [] => Bad "Expecting ',' delimiter"
          end
      | Bad msg => Bad msg
      | Exceeds => Exceeds
      | TooDeep => TooDeep
      | Beyond => Beyond
      end
  end

with parse_members (limit : bool) (depth fuel : nat) (cs : list ascii) (acc : pydict)
    : parsed pyval :=
  match fuel with
  | O => Bad "Expecting value"
  | S fuel' =>
      match cs with
      | q :: body =>
          if Ascii.eqb q dquote then
            match scan_string (List.length body) body [] with
            | Ok k r =>
                match skip_ws r with
                | colon :: r' =>
                    if Ascii.eqb colon ":" then
                      match parse_value limit depth fuel' (skip_ws r') with
                      | Ok v r'' =>
                          match skip_ws r'' with
                          | x :: r3 =>
                              if Ascii.eqb x "," then
                                parse_members limit depth fuel' (skip_ws r3) (dict_set k v acc)
                              else if Ascii.eqb x "}" then Ok (PDict (dict_set k v acc)) r3
                              else Bad "Expecting ',' delimiter"
                          | [] => Bad "Expecting ',' delimiter"
                          end
                      | Bad msg => Bad msg
                      | Exceeds => Exceeds
                      | TooDeep => TooDeep
                      | Beyond => Beyond
                      end
                    else Bad "Expecting ':' delimiter"
                | [] => Bad "Expecting ':' delimiter"
                end
            | Bad msg => Bad msg
            | Exceeds => Exceeds
            | TooDeep => TooDeep
            | Beyond => Beyond
            end
          else Bad "Expecting property name enclosed in double quotes"
      | [] => Bad "Expecting property name enclosed in double quotes"
      end
  end.

(** The nesting of arrays and objects that the interpreter's recursion
    limit leaves to the reader: [sys.getrecursionlimit()], 1000 unless it
    is set, less what the frames of the callers take of it, which is not
    counted here. *)
Definition max_depth : nat := 1000.

(** The whole text read as one document: as the interpreter does with
    [limit], which stops at an integer that is too long and at a nesting
    that is too deep; by the grammar alone without. *)
Definition read (limit : bool) (s : string) : parsed pyval :=
  let cs := skip_ws (chars s) in
  match parse_value limit max_depth (2 * List.length cs + 2) cs with
  | Ok v rest =>
      match skip_ws rest with
      | [] => Ok v []
      | _ :: _ => Bad "Extra data"
      end
  | other => other
  end.

(** [json.loads(s)].  The exceptions have CPython's classes; their
    messages are CPython's without the position of the fault, the number
    of digits found and the kind of value that was being decoded. *)
Definition loads (s : string) : outcome pyval :=
  match read true s with
  | Ok v _ => Returns v
  | Bad msg => raise JSONDecodeError msg
  | Exceeds =>
      raise ValueError "Exceeds the limit (4300 digits) for integer string conversion"
  | TooDeep =>
      raise (Custom "RecursionError" (Custom "RuntimeError" Exception))
            "maximum recursion depth exceeded while decoding a JSON document"
  | Beyond => raise (Custom "BeyondLatin1" Exception) "character from code point 256 on"
  end.


End CPython.

(* ----------------------------------------------------------------- *)
(** *** The validator and the record shapes *)

Module Schema.

(** What a shape asks of one field. *)
Inductive kind : Type :=
| KInt
| KFloat
| KStr
| KLiteral (allowed : list string)
| KRecord (fields : list (string * (bool * kind))).

Definition field : Type := (string * (bool * kind))%type.

Definition required (name : string) (k : kind) : field := (name, (true, k)).
Definition optional (name : string) (k : kind) : field := (name, (false, k)).

(** Modelled from the spec: the record shapes of [meshtastic_types], which
    is not among the sources; the fields and their types are those of the
    data model (section 3). *)
Definition shape_of (t : typed_dict) : list field :=
  let metrics :=
    [required "rx_time" KInt; optional "rx_snr" KFloat;
     optional "rx_rssi" KInt; required "hop_limit" KInt] in
  let user :=
    [required "id" KStr; required "long_name" KStr; required "short_name" KStr;
     required "macaddr" KStr; required "hw_model" KStr; required "raw" KStr] in
  match t with
  | Metrics => metrics
  | UserInfo => user
  | NodeInfo =>
      [required "type" (KLiteral ["nodeinfo"]); required "timestamp" KStr;
       required "from_num" KInt; required "from_id" KStr;
       required "user" (KRecord user); required "metrics" (KRecord metrics);
       required "raw" KStr]
  | TextMessage =>
      [required "type" (KLiteral ["text"]); required "timestamp" KStr;
       required "from_num" KInt; required "from_id" KStr;
       required "to_num" KInt; required "to_id" KStr; required "text" KStr;
       required "metrics" (KRecord metrics); required "raw" KStr]
  | DeviceTelemetry =>
      [required "type" (KLiteral ["device_telemetry"]); required "timestamp" KStr;
       required "from_num" KInt; required "from_id" KStr;
       required "device_metrics"
         (KRecord [required "battery_level" KInt; required "voltage" KFloat;
                   required "channel_utilization" KFloat;
                   required "air_util_tx" KFloat; required "uptime_seconds" KInt]);
       required "metrics" (KRecord metrics); required "raw" KStr]
  | NetworkTelemetry =>
      [required "type" KStr; required "timestamp" KStr; required "raw" KStr]
  end.

(** The first field of [v] that breaks [k], if any ([path] names the
    field being looked at). *)
Fixpoint offence (k : kind) (path : string) (v : pyval) : option string :=
  match k, v with
  | KInt, PInt _ => None
  | KFloat, PFloat _ => None
  | KStr, PStr _ => None
  | KLiteral allowed, PStr s => if existsb (String.eqb s) allowed then None else Some path
  | KRecord fields, PDict d =>
      let fix each (fs : list field) : option string :=
        match fs with
        | [] => None
        | (name, (req, k')) :: rest =>
            match dict_get name d with
            | None => if req then Some name else each rest
            | Some PNone => if req then Some name else each rest
            | Some x =>
                match offence k' name x with
                | Some bad => Some bad
                | None => each rest
                end
            end
        end in
      each fields
  | _, _ => Some path
  end.

(** Modelled from the spec: [type_validation.validate_typed_dict], not
    among the sources.  The check of section 4.1: a required field absent,
    or a present field of another type than the shape declares, raises a
    validation error naming the field; an optional field may be absent or
    [None]; nested shapes are checked field by field; a literal field must
    hold one of its values.  Nothing is changed. *)
Definition validate_typed_dict (record : pyval) (t : typed_dict) : outcome unit :=
  match offence (KRecord (shape_of t)) "record" record with
  | None => Returns tt
  | Some bad => raise (Custom "SchemaValidationError" ValueError) bad
  end.

End Schema.

(** The library the examples run on.  The clock reads [T0], [T1], ... *)
Definition cpython : PyLib := {|
  int_of_str := CPython.parse_int;
  float_of_str := CPython.parse_float;
  repr := CPython.py_repr;
  json_dumps := CPython.dumps;
  json_loads := CPython.loads;
  isoformat := fun n => "T" ++ str_of_Z (Z.of_nat n);
  validate_typed_dict := Schema.validate_typed_dict
|}.

(** A collaborator that keeps what it is given, in memory. *)
Module MemoryRedis.

Record db : Type := mk_db { nodes : list string; messages : list string }.

Definition empty : db := mk_db [] [].

Definition limited (limit : Z) (l : list string) : list string :=
  if limit <? 0 then l else firstn (Z.to_nat limit) l.

Definition handler : RedisHandler db := {|
  store_node := fun s r => (Returns tt, mk_db (nodes r ++ [s]) (messages r));
  store_message := fun s r => (Returns tt, mk_db (nodes r) (messages r ++ [s]));
  load_nodes := fun limit r => (Returns (limited limit (nodes r)), r);
  load_messages := fun limit r => (Returns (limited limit (messages r)), r)
|}.

(** A collaborator whose writes fail. *)
Definition failing : RedisHandler db := {|
  store_node := fun _ r => (raise (Custom "ConnectionError" Exception) "store_node", r);
  store_message := fun _ r => (raise (Custom "ConnectionError" Exception) "store_message", r);
  load_nodes := fun limit r => (Returns (limited limit (nodes r)), r);
  load_messages := fun limit r => (Returns (limited limit (messages r)), r)
|}.

End MemoryRedis.

(** The empty world the examples start from. *)
Definition world0 : world MemoryRedis.db := mk_world MemoryRedis.empty O [].

(** A text message as the radio interface hands it over, without [rxSnr]
    and [rxRssi]. *)
Definition text_packet : pyval :=
  PDict [("from", PInt 305419896);
         ("to", PInt 4294967295);
         ("decoded", PDict [("portnum", PStr "TEXT_MESSAGE_APP");
                            ("text", PStr "hello mesh")]);
         ("id", PInt 77);
         ("rxTime", PInt 1700000000);
         ("hopLimit", PInt 2);
         ("raw", PObj "from: 305419896 to: 4294967295");
         ("fromId", PStr "!12345678");
         ("toId", PStr "^all")].

(** A node announcement, without [rxSnr] and [rxRssi]. *)
Definition node_packet : pyval :=
  PDict [("from", PInt 305419896);
         ("to", PInt 4294967295);
         ("decoded", PDict [("portnum", PStr "NODEINFO_APP");
                            ("user", PDict [("id", PStr "!12345678");
                                            ("longName", PStr "Base Camp");
                                            ("shortName", PStr "BC");
                                            ("macaddr", PStr "qrvM3e7/");
                                            ("hwModel", PStr "TBEAM");
                                            ("raw", PObj "id: !12345678")])]);
         ("rxTime", PInt 1700000000);
         ("raw", PObj "from: 305419896");
         ("fromId", PStr "!12345678");
         ("toId", PStr "^all")].

(* ================================================================= *)
(** ** The normalisers seen as functions of the packet

    Each normaliser builds its record in one dictionary display, reads the
    clock once and calls the validator once.  The definitions below are
    that display as a function of the packet and of the timestamp read;
    [_process_textmessage_run] and its siblings prove that the methods
    above compute exactly this. *)

Section Views.
Context {L : PyLib} {R : Type}.

(** The world after the clock was read once. *)
Definition tick (w : world R) : world R :=
  mk_world (storage w) (S (clock w)) (journal w).

(** The world after the events [evs] were journalled. *)
Definition journalled (w : world R) (evs : list event) : world R :=
  mk_world (storage w) (clock w) (journal w ++ evs).

Definition text_message_of (packet timestamp : pyval) : outcome pyval :=
  let! from_num := int_ (getitem packet "from") in
  let! from_id := str_ (getitem packet "fromId") in
  let! to_num := int_ (getitem packet "to") in
  let! to_id := str_ (getitem packet "toId") in
  let! text := str_ (let! decoded := getitem packet "decoded" in
                     getitem decoded "text") in
  let! metrics := embedded_metrics packet in
  let! raw := str_ (getitem packet "raw") in
  Returns (PDict [("type", PStr "text");
                  ("timestamp", timestamp);
                  ("from_num", from_num);
                  ("from_id", from_id);
                  ("to_num", to_num);
                  ("to_id", to_id);
                  ("text", text);
                  ("metrics", metrics);
                  ("raw", raw)]).

(** [dict(packet['decoded']['user'])]. *)
Definition user_info_of (packet : pyval) : outcome pyval :=
  let! decoded := getitem packet "decoded" in
  let! user := getitem decoded "user" in
  let! d := py_dict user in
  Returns (PDict d).

Definition node_info_of (packet user_info timestamp : pyval) : outcome pyval :=
  let! from_num := int_ (getitem packet "from") in
  let! from_id := str_ (getitem packet "fromId") in
  let! id := str_ (getitem user_info "id") in
  let! long_name := str_ (getitem user_info "longName") in
  let! short_name := str_ (getitem user_info "shortName") in
  let! macaddr := str_ (getitem user_info "macaddr") in
  let! hw_model := str_ (getitem user_info "hwModel") in
  let! user_raw := str_ (getitem user_info "raw") in
  let! metrics := embedded_metrics packet in
  let! raw := str_ (getitem packet "raw") in
  Returns (PDict [("type", PStr "nodeinfo");
                  ("timestamp", timestamp);
                  ("from_num", from_num);
                  ("from_id", from_id);
                  ("user", PDict [("id", id);
                                  ("long_name", long_name);
                                  ("short_name", short_name);
                                  ("macaddr", macaddr);
                                  ("hw_model", hw_model);
                                  ("raw", user_raw)]);
                  ("metrics", metrics);
                  ("raw", raw)]).

(** [packet['decoded']['telemetry']]. *)
Definition telemetry_of (packet : pyval) : outcome pyval :=
  let! decoded := getitem packet "decoded" in
  getitem decoded "telemetry".

Definition device_metric (telemetry : pyval) (key : string) : outcome pyval :=
  let! dm := getitem telemetry "deviceMetrics" in
  getitem dm key.

Definition device_telemetry_of (packet telemetry timestamp : pyval) : outcome pyval :=
  let! from_num := int_ (getitem packet "from") in
  let! from_id := str_ (getitem packet "fromId") in
  let! battery_level := int_ (device_metric telemetry "batteryLevel") in
  let! voltage := float_ (device_metric telemetry "voltage") in
  let! channel_utilization :=
    float_ (let! dm := getitem telemetry "deviceMetrics" in
            get_default dm "channelUtilization" (PFloat (S754_zero false))) in
  let! air_util_tx := float_ (device_metric telemetry "airUtilTx") in
  let! uptime_seconds := int_ (device_metric telemetry "uptimeSeconds") in
  let! metrics := _extract_metrics packet in
  let! raw := str_ (getitem packet "raw") in
  Returns (PDict [("type", PStr "device_telemetry");
                  ("timestamp", timestamp);
                  ("from_num", from_num);
                  ("from_id", from_id);
                  ("device_metrics", PDict [("battery_level", battery_level);
                                            ("voltage", voltage);
                                            ("channel_utilization", channel_utilization);
                                            ("air_util_tx", air_util_tx);
                                            ("uptime_seconds", uptime_seconds)]);
                  ("metrics", metrics);
                  ("raw", raw)]).

(** What the [except] clauses of a normaliser journal before re-raising. *)
Definition text_failure (e : exn) : event :=
  Log ERROR [Lit "Error processing text message: "; Exc e] true.

Definition node_failure (e : exn) : event :=
  if isinstance e ValueError
  then Log ERROR [Lit "Node info validation failed: "; Exc e] false
  else Log ERROR [Lit "Error processing node info: "; Exc e] true.

Definition telemetry_failure (e : exn) : event :=
  Log ERROR [Lit "Error processing device telemetry: "; Exc e] true.

(** What the [except] clauses of a normaliser journal for the exception
    [e]: the error record when [e] is an instance of [Exception], nothing
    when it is not, for then no clause takes it. *)
Definition caught (failure : exn -> event) (e : exn) : list event :=
  if isinstance e Exception then [failure e] else [].

(** Build, validate, log: the common tail of the three normalisers, from
    the built record (or the exception that stopped the display). *)
Definition checked (built : outcome pyval) (shape : typed_dict)
    (success : string) (failure : exn -> event) (w : world R)
    : outcome pyval * world R :=
  match built with
  | Raises e => (Raises e, journalled w (caught failure e))
  | Returns record =>
      match validate_typed_dict record shape with
      | Returns _ =>
          (Returns record,
           journalled w [Validate record shape (validate_typed_dict record shape);
                         Log DEBUG [Lit success; Val record] false])
      | Raises e =>
          (Raises e,
           journalled w (Validate record shape (validate_typed_dict record shape)
                         :: caught failure e))
      end
  end.

(** An expression that raises nothing but instances of [Exception]. *)
Definition raises_errors {A : Type} (o : outcome A) : Prop :=
  forall e, o = Raises e -> isinstance e Exception = true.

(** A call of one of the two storage writes. *)
Definition is_store (ev : event) : bool :=
  match ev with
  | StoreNode _ | StoreMessage _ => true
  | _ => false
  end.

(** A storage write is justified by the events [before] it when it
    carries the serialisation of a record that the validator accepts and
    was called on among them, under the shape of that write.  Other events
    need no justification. *)
Definition store_justified (before : list event) (ev : event) : Prop :=
  match ev with
  | StoreNode payload =>
      exists record,
        json_dumps record = Returns payload /\
        validate_typed_dict record NodeInfo = Returns tt /\
        In (Validate record NodeInfo (Returns tt)) before
  | StoreMessage payload =>
      exists record,
        json_dumps record = Returns payload /\
        validate_typed_dict record TextMessage = Returns tt /\
        In (Validate record TextMessage (Returns tt)) before
  | _ => True
  end.

(** Every storage write journalled in [evs] is justified by the events of
    [evs] before it. *)
Definition stores_validated (evs : list event) : Prop :=
  forall before ev after,
    evs = (before ++ ev :: after)%list -> store_justified before ev.

(** The same, checked one event at a time after the events [seen]. *)
Fixpoint stores_validated_after (seen evs : list event) : Prop :=
  match evs with
  | [] => True
  | ev :: rest =>
      store_justified seen ev /\ stores_validated_after (seen ++ [ev])%list rest
  end.

(** The first of [keys] that the dictionary [d] does not have. *)
Definition first_missing (keys : list string) (d : pydict) : option string :=
  find (fun k => match dict_get k d with None => true | Some _ => false end) keys.

(** The first field that [format_node_for_display] looks up and the
    dictionary [d] does not have, the user's ['long_name'] last. *)
Definition node_missing (d : pydict) : option string :=
  match first_missing ["timestamp"; "from_id"; "user"] d with
  | Some k => Some k
  | None =>
      match dict_get "user" d with
      | Some (PDict user) => first_missing ["long_name"] user
      | _ => None
      end
  end.

(** The error record that [process_packet] journals for a caught exception. *)
Definition packet_failure (packet_type : string) (e : exn) : event :=
  Log ERROR [Lit "Error processing "; Val (PStr packet_type); Lit " packet: "; Exc e] true.

End Views.

(** The packet [p] with [k] set to [v]. *)
Definition with_field (k : string) (v : pyval) (p : pyval) : pyval :=
  match p with
  | PDict d => PDict (dict_set k v d)
  | _ => p
  end.


(** The node announcement without its long name. *)
Definition nameless_packet : pyval :=
  with_field "decoded"
    (PDict [("portnum", PStr "NODEINFO_APP");
            ("user", PDict [("id", PStr "!12345678");
                            ("shortName", PStr "BC");
                            ("macaddr", PStr "qrvM3e7/");
                            ("hwModel", PStr "TBEAM");
                            ("raw", PObj "id: !12345678")])])
    node_packet.

(** A packet of a kind the dispatcher does not know. *)
Definition waypoint_packet : pyval :=
  with_field "decoded" (PDict [("portnum", PStr "WAYPOINT_APP")]) text_packet.

(** A telemetry packet that carries its numbers as text. *)
Definition telemetry_packet : pyval :=
  PDict [("from", PStr "305419896");
         ("decoded", PDict [("portnum", PStr "TELEMETRY_APP");
                            ("telemetry",
                             PDict [("deviceMetrics",
                                     PDict [("batteryLevel", PStr "87");
                                            ("voltage", PStr "4.1");
                                            ("airUtilTx", PFloat (S754_zero false));
                                            ("uptimeSeconds", PInt 3600)])])]);
         ("rxTime", PInt 1700000000);
         ("raw", PObj "from: 305419896");
         ("fromId", PStr "!12345678")].

(** The fields of a packet that is a dictionary. *)
Definition fields_of (p : pyval) : pydict :=
  match p with
  | PDict d => d
  | _ => []
  end.

(** The record that [_process_textmessage] makes of [text_packet] when the
    clock reads [T0], and its stored form. *)
Definition text_record : pyval :=
  PDict [("type", PStr "text");
         ("timestamp", PStr "T0");
         ("from_num", PInt 305419896);
         ("from_id", PStr "!12345678");
         ("to_num", PInt 4294967295);
         ("to_id", PStr "^all");
         ("text", PStr "hello mesh");
         ("metrics", PDict [("rx_time", PInt 1700000000);
                            ("rx_snr", PFloat (S754_zero false));
                            ("rx_rssi", PInt 0);
                            ("hop_limit", PInt 2)]);
         ("raw", PStr "from: 305419896 to: 4294967295")].

Definition stored_text : string :=
  match CPython.dumps text_record with
  | Returns s => s
  | Raises _ => EmptyString
  end.

(** A store that holds the text message and, after it, an empty object. *)
Definition world1 : world MemoryRedis.db :=
  mk_world (MemoryRedis.mk_db ["{}"] [stored_text; "{}"]) O [].

(** The record that [_process_nodeinfo] makes of [node_packet] when the
    clock reads [T0], and its stored form. *)
Definition node_record : pyval :=
  PDict [("type", PStr "nodeinfo");
         ("timestamp", PStr "T0");
         ("from_num", PInt 305419896);
         ("from_id", PStr "!12345678");
         ("user", PDict [("id", PStr "!12345678");
                         ("long_name", PStr "Base Camp");
                         ("short_name", PStr "BC");
                         ("macaddr", PStr "qrvM3e7/");
                         ("hw_model", PStr "TBEAM");
                         ("raw", PStr "id: !12345678")]);
         ("metrics", PDict [("rx_time", PInt 1700000000);
                            ("rx_snr", PFloat (S754_zero false));
                            ("rx_rssi", PInt 0);
                            ("hop_limit", PInt 3)]);
         ("raw", PStr "from: 305419896")].

Definition stored_node : string :=
  match CPython.dumps node_record with
  | Returns s => s
  | Raises _ => EmptyString
  end.

(** A store in which a damaged item sits among the good ones. *)
Definition world2 : world MemoryRedis.db :=
  mk_world (MemoryRedis.mk_db [stored_node; "{not json"]
                              [stored_text; "{not json"; stored_text]) O [].

(** A collaborator that cannot be read. *)
Definition unreadable : RedisHandler MemoryRedis.db := {|
  store_node := fun s r => (Returns tt, r);
  store_message := fun s r => (Returns tt, r);
  load_nodes := fun _ r => (raise (Custom "ConnectionError" Exception) "load_nodes", r);
  load_messages := fun _ r =>
    (raise (Custom "ConnectionError" Exception) "load_messages", r)
|}.

(** A collaborator whose task is cancelled while it waits for the store:
    the [await] of a write raises [asyncio.CancelledError]. *)
Definition cancelled : RedisHandler MemoryRedis.db := {|
  store_node := fun _ r => (raise CancelledError "store_node", r);
  store_message := fun _ r => (raise CancelledError "store_message", r);
  load_nodes := fun limit r => (Returns (MemoryRedis.limited limit (MemoryRedis.nodes r)), r);
  load_messages := fun limit r =>
    (Returns (MemoryRedis.limited limit (MemoryRedis.messages r)), r)
|}.

(** The text message with a signal-to-noise ratio that is there but
    [None]. *)
Definition null_signal_packet : pyval := with_field "rxSnr" PNone text_packet.

(** The node announcement with a sender number that is not a number. *)
Definition unreadable_sender_packet : pyval :=
  with_field "from" (PStr "abc") node_packet.

(** A node announcement without sender number. *)
Definition senderless_packet : pyval :=
  PDict [("decoded", PDict [("portnum", PStr "NODEINFO_APP");
                            ("user", PDict [("id", PStr "!12345678")])]);
         ("fromId", PStr "!12345678")].

(** A text message that is nothing but its discriminator. *)
Definition bare_text_packet : pyval :=
  PDict [("decoded", PDict [("portnum", PStr "TEXT_MESSAGE_APP")])].

(** A packet without [decoded]. *)
Definition undecoded_packet : pyval := PDict [("from", PInt 305419896)].

(** A JSON string that names a character from code point 256 on. *)
Definition beyond_item : string :=
  String CPython.dquote ("\u0100" ++ String CPython.dquote EmptyString).

(* ================================================================= *)
(** ** Vocabulary for the behaviour of the methods *)

Section Vocabulary.
Context {L : PyLib} {R : Type}.

(** A log record, as opposed to a call of the validator or of the storage
    collaborator. *)
Definition is_log (ev : event) : bool :=
  match ev with
  | Log _ _ _ => true
  | _ => false
  end.

(** The calls journalled in [evs]: what is left when the log records are
    taken out. *)
Definition calls (evs : list event) : list event :=
  filter (fun ev => negb (is_log ev)) evs.

(** Two worlds that differ at most in their log records. *)
Definition same_calls (w w' : world R) : Prop :=
  storage w = storage w' /\
  clock w = clock w' /\
  calls (journal w) = calls (journal w').

(** Two computations that, from worlds differing at most in their log
    records, end with the same outcome in worlds differing at most in
    their log records. *)
Definition log_blind {A : Type} (m m' : M R A) : Prop :=
  forall w w', same_calls w w' ->
    fst (m w) = fst (m' w') /\ same_calls (snd (m w)) (snd (m' w')).

Definition is_int (v : pyval) : bool :=
  match v with PInt _ => true | _ => false end.

Definition is_float (v : pyval) : bool :=
  match v with PFloat _ => true | _ => false end.

Definition is_str (v : pyval) : bool :=
  match v with PStr _ => true | _ => false end.

(** The dictionary [record] has the key [k], with a value that passes the
    test [p]. *)
Definition has_type (record : pyval) (k : string) (p : pyval -> bool) : Prop :=
  exists v, getitem record k = Returns v /\ p v = true.

(** What [format_message_for_display] shows of a stored item when it shows
    something: the four fields of the object the item parses to. *)
Definition shown_message (item : string) : option pyval :=
  match json_loads item with
  | Returns (PDict d) =>
      match dict_get "timestamp" d, dict_get "from_id" d,
            dict_get "to_id" d, dict_get "text" d with
      | Some timestamp, Some from_id, Some to_id, Some text =>
          Some (PDict [("timestamp", timestamp); ("from", from_id);
                       ("to", to_id); ("text", text)])
      | _, _, _, _ => None
      end
  | _ => None
  end.

(** The same for [format_node_for_display]. *)
Definition shown_node (item : string) : option pyval :=
  match json_loads item with
  | Returns (PDict d) =>
      match dict_get "timestamp" d, dict_get "from_id" d, dict_get "user" d with
      | Some timestamp, Some from_id, Some (PDict user) =>
          match dict_get "long_name" user with
          | Some long_name =>
              Some (PDict [("timestamp", timestamp); ("id", from_id);
                           ("name", long_name)])
          | None => None
          end
      | _, _, _ => None
      end
  | _ => None
  end.

(** The number under [target] in [record] was read from the text that
    [source] holds under [k], when it holds a text there: the text reads
    as a number, and the record has that number. *)
Definition reads_int (source : pydict) (k : string) (record : pyval) (target : string)
    : Prop :=
  forall s, dict_get k source = Some (PStr s) ->
    exists z, int_of_str s = Some z /\ getitem record target = Returns (PInt z).

Definition reads_float (source : pydict) (k : string) (record : pyval) (target : string)
    : Prop :=
  forall s, dict_get k source = Some (PStr s) ->
    exists f, float_of_str s = Some f /\ getitem record target = Returns (PFloat f).

(** An item that [json.loads] rejects with a [JSONDecodeError]. *)
Definition malformed (item : string) : Prop :=
  exists e, json_loads item = Raises e /\ isinstance e JSONDecodeError = true.

(** The items of a listing that are shown, in their order. *)
Definition shown_items (shown : string -> option pyval) (items : list string)
    : list pyval :=
  flat_map (fun item => match shown item with Some v => [v] | None => [] end) items.

End Vocabulary.

(* ================================================================= *)
(** ** Vocabulary for the text forms of [json]

    What the theorems on [CPython.dumps] and [CPython.loads] speak of: the
    texts of numbers, the members of an object, and a text that is read
    as a value. *)

Module Codec.
Import CPython.
Local Open Scope list_scope.

















End Codec.




(* ================================================================= *)
(** * Properties *)

Local Open Scope list_scope.

(** ** Exception classes *)

Section Exceptions.
Context {L : PyLib}.

Lemma ValueError_mro (c : exn_class) :
  existsb (class_eqb ValueError) (mro c) = true ->
  existsb (class_eqb Exception) (mro c) = true.
Proof.
  induction c; simpl; auto; discriminate.
Qed.

(** What an [except ValueError] clause takes, an [except Exception] clause
    takes too. *)
Lemma ValueError_is_Exception (e : exn) :
  isinstance e ValueError = true -> isinstance e Exception = true.
Proof.
  unfold isinstance, issubclass. apply ValueError_mro.
Qed.

(** The clause, if any, that takes [e] in [except ValueError ... except
    Exception ...]. *)
Lemma caught_node_failure (e : exn) :
  caught node_failure e =
  if isinstance e ValueError
  then [Log ERROR [Lit "Node info validation failed: "; Exc e] false]
  else if isinstance e Exception
       then [Log ERROR [Lit "Error processing node info: "; Exc e] true]
       else [].
Proof.
  unfold caught, node_failure.
  destruct (isinstance e ValueError) eqn:V.
  - now rewrite (ValueError_is_Exception e V).
  - reflexivity.
Qed.

(** *** The built-in operations raise errors only *)

Lemma raises_errors_returns {A : Type} (a : A) : raises_errors (Returns a).
Proof. intros e. discriminate. Qed.

Lemma raises_errors_raise {A : Type} (c : exn_class) (arg : string) :
  issubclass c Exception = true -> raises_errors (@raise A c arg).
Proof. intros H e [= <-]. exact H. Qed.

Lemma raises_errors_obind {A B : Type} (o : outcome A) (k : A -> outcome B) :
  raises_errors o -> (forall a, raises_errors (k a)) -> raises_errors (obind o k).
Proof.
  intros Ho Hk e. destruct o as [a|e']; simpl.
  - apply Hk.
  - intros [= <-]. now apply Ho.
Qed.

Lemma raises_errors_getitem (obj : pyval) (k : string) : raises_errors (getitem obj k).
Proof.
  unfold getitem. destruct obj; try (now apply raises_errors_raise).
  destruct (dict_get k entries);
    [apply raises_errors_returns | now apply raises_errors_raise].
Qed.

Lemma raises_errors_get_default (obj : pyval) (k : string) (default : pyval) :
  raises_errors (get_default obj k default).
Proof.
  unfold get_default. destruct obj; try (now apply raises_errors_raise).
  destruct (dict_get k entries); apply raises_errors_returns.
Qed.

Lemma raises_errors_dict_item (item : pyval) : raises_errors (dict_item item).
Proof.
  intros e H. unfold dict_item in H.
  repeat match type of H with
         | match ?x with _ => _ end = _ => destruct x
         end;
    try discriminate; injection H as <-; reflexivity.
Qed.

Lemma raises_errors_dict_of_items (items : list pyval) (acc : pydict) :
  raises_errors (dict_of_items items acc).
Proof.
  revert acc. induction items as [|item rest IH]; intros acc; simpl.
  - apply raises_errors_returns.
  - apply raises_errors_obind; [apply raises_errors_dict_item|].
    intros [[k v]|]; apply IH.
Qed.

Lemma raises_errors_py_dict (obj : pyval) : raises_errors (py_dict obj).
Proof.
  unfold py_dict. destruct obj; try (now apply raises_errors_raise).
  - destruct s; [apply raises_errors_returns | now apply raises_errors_raise].
  - apply raises_errors_dict_of_items.
  - apply raises_errors_returns.
Qed.

Lemma raises_errors_float_of_Z (z : Z) : raises_errors (float_of_Z z).
Proof.
  unfold float_of_Z.
  destruct (binary_normalize prec emax z 0 false);
    try apply raises_errors_returns; now apply raises_errors_raise.
Qed.

Lemma raises_errors_py_int (v : pyval) : raises_errors (py_int v).
Proof.
  unfold py_int. destruct v; try (now apply raises_errors_raise);
    try apply raises_errors_returns.
  - destruct f; simpl; try apply raises_errors_returns; now apply raises_errors_raise.
  - destruct (int_of_str s); [apply raises_errors_returns | now apply raises_errors_raise].
Qed.

Lemma raises_errors_py_float (v : pyval) : raises_errors (py_float v).
Proof.
  unfold py_float. destruct v; try (now apply raises_errors_raise);
    try apply raises_errors_returns; try apply raises_errors_float_of_Z.
  destruct (float_of_str s); [apply raises_errors_returns | now apply raises_errors_raise].
Qed.

Lemma raises_errors_int_ (o : outcome pyval) : raises_errors o -> raises_errors (int_ o).
Proof.
  intros H. unfold int_. apply raises_errors_obind; [exact H|].
  intros v. apply raises_errors_obind; [apply raises_errors_py_int|].
  intros z. apply raises_errors_returns.
Qed.

Lemma raises_errors_float_ (o : outcome pyval) : raises_errors o -> raises_errors (float_ o).
Proof.
  intros H. unfold float_. apply raises_errors_obind; [exact H|].
  intros v. apply raises_errors_obind; [apply raises_errors_py_float|].
  intros z. apply raises_errors_returns.
Qed.

Lemma raises_errors_str_ (o : outcome pyval) : raises_errors o -> raises_errors (str_ o).
Proof.
  intros H. unfold str_. apply raises_errors_obind; [exact H|].
  intros v. apply raises_errors_returns.
Qed.

(** A display made of built-in operations raises errors only. *)
Ltac errors_only :=
  repeat first
    [ apply raises_errors_returns
    | apply raises_errors_getitem
    | apply raises_errors_get_default
    | apply raises_errors_py_dict
    | apply raises_errors_int_
    | apply raises_errors_float_
    | apply raises_errors_str_
    | apply raises_errors_obind; [ | intros ? ] ].

Lemma raises_errors_nested (obj : pyval) (k k' : string) :
  raises_errors (let! inner := getitem obj k in getitem inner k').
Proof. errors_only. Qed.

Lemma raises_errors__extract_metrics (packet : pyval) :
  raises_errors (_extract_metrics packet).
Proof. unfold _extract_metrics, get. errors_only. Qed.

Lemma raises_errors_embedded_metrics (packet : pyval) :
  raises_errors (embedded_metrics packet).
Proof. unfold embedded_metrics. errors_only. Qed.

Lemma raises_errors_text_message_of (packet timestamp : pyval) :
  raises_errors (text_message_of packet timestamp).
Proof.
  unfold text_message_of. errors_only.
Qed.

Lemma raises_errors_user_info_of (packet : pyval) : raises_errors (user_info_of packet).
Proof. unfold user_info_of. errors_only. Qed.

Lemma raises_errors_node_info_of (packet user_info timestamp : pyval) :
  raises_errors (node_info_of packet user_info timestamp).
Proof.
  unfold node_info_of. errors_only.
Qed.

Lemma raises_errors_telemetry_of (packet : pyval) : raises_errors (telemetry_of packet).
Proof. unfold telemetry_of. errors_only. Qed.

Lemma raises_errors_device_telemetry_of (packet telemetry timestamp : pyval) :
  raises_errors (device_telemetry_of packet telemetry timestamp).
Proof.
  unfold device_telemetry_of, device_metric. errors_only.
Qed.

End Exceptions.

(** ** [json.loads] on what [json.dumps] wrote *)

Module CodecFacts.
Import CPython.
Import Codec.

(** *** Strings *)










(** *** Digits and integers *)























(** *** The text of a float *)





(** *** Numbers read as values *)











(** *** The layout of [repr] *)









(** *** Objects *)














(** *** The text message, written and read back *)



(** *** The limits of the interpreter *)



(** With the limits off, the depth left does not matter. *)
Lemma parse_any_depth (fuel : nat) :
  (forall depth depth' cs,
     parse_value false depth fuel cs = parse_value false depth' fuel cs) /\
  (forall depth depth' cs acc,
     parse_elements false depth fuel cs acc = parse_elements false depth' fuel cs acc) /\
  (forall depth depth' cs acc,
     parse_members false depth fuel cs acc = parse_members false depth' fuel cs acc).
Proof.
  induction fuel as [|fuel (IHv & IHe & IHm)]; [repeat split; reflexivity|].
  repeat split.
  - intros depth depth' cs. cbn [parse_value andb]. destruct cs as [|c rest]; [reflexivity|].
    destruct (Ascii.eqb c dquote); [reflexivity|].
    destruct (Ascii.eqb c "{").
    { destruct (skip_ws rest) as [|x r]; [reflexivity|].
      destruct (Ascii.eqb x "}"); [reflexivity | apply IHm]. }
    destruct (Ascii.eqb c "[").
    { destruct (skip_ws rest) as [|x r]; [reflexivity|].
      destruct (Ascii.eqb x "]"); [reflexivity | apply IHe]. }
    reflexivity.
  - intros depth depth' cs acc. cbn [parse_elements].
    rewrite (IHv depth depth').
    destruct (parse_value false depth' fuel cs) as [v r|msg| | |]; try reflexivity.
    destruct (skip_ws r) as [|x r']; [reflexivity|].
    destruct (Ascii.eqb x ","); [apply IHe | reflexivity].
  - intros depth depth' cs acc. cbn [parse_members]. destruct cs as [|q body]; [reflexivity|].
    destruct (Ascii.eqb q dquote); [|reflexivity].
    destruct (scan_string (List.length body) body []) as [k r|msg| | |]; try reflexivity.
    destruct (skip_ws r) as [|colon r']; [reflexivity|].
    destruct (Ascii.eqb colon ":"); [|reflexivity].
    rewrite (IHv depth depth').
    destruct (parse_value false depth' fuel (skip_ws r')) as [v r''|msg| | |];
      try reflexivity.
    destruct (skip_ws r'') as [|x r3]; [reflexivity|].
    destruct (Ascii.eqb x ","); [apply IHm | reflexivity].
Qed.





End CodecFacts.

Section Runs.
Context {L : PyLib} {R : Type} {RH : RedisHandler R}.

(** *** The normalisers as functions of the packet *)

(** One step of a run: the next expression returns or raises. *)
Ltac run_step :=
  match goal with
  | |- context [match ?o with Returns _ => _ | Raises _ => _ end] =>
      match o with
      | validate_typed_dict _ _ => fail 1
      | _ => destruct o eqn:?; simpl
      end
  end.

(** The end of a run that raised: the clauses are tried in order. *)
Ltac caught_case :=
  simpl;
  match goal with
  | |- context [isinstance ?e ValueError] =>
      let V := fresh "V" in
      destruct (isinstance e ValueError) eqn:V;
      [ rewrite (ValueError_is_Exception e V) | destruct (isinstance e Exception) ]
  | |- context [isinstance ?e Exception] => destruct (isinstance e Exception)
  end; simpl; rewrite <- ?app_assoc, ?app_nil_r;
  first [ reflexivity
        | match goal with
          | w : world _ |- _ => destruct w; simpl; rewrite ?app_nil_r; reflexivity
          end ].

Lemma _process_textmessage_run (packet : pyval) (w : world R) :
  _process_textmessage packet w =
  checked (text_message_of packet (PStr (isoformat (clock w)))) TextMessage
          "Validated text_message structure: " text_failure (tick w).
Proof.
  unfold _process_textmessage, text_message_of, checked, caught, try_except, bind, lift,
    now_isoformat, validate, logger, emit, reraise, ret, tick, journalled, text_failure.
  simpl.
  repeat (run_step; [ | caught_case]).
  destruct (validate_typed_dict _ _) eqn:V; simpl.
  - now rewrite <- app_assoc.
  - caught_case.
Qed.

Lemma _process_nodeinfo_run (packet : pyval) (w : world R) :
  _process_nodeinfo packet w =
  match user_info_of packet with
  | Raises e => (Raises e, journalled w (caught node_failure e))
  | Returns user_info =>
      checked (node_info_of packet user_info (PStr (isoformat (clock w)))) NodeInfo
              "Validated node_info structure: " node_failure (tick w)
  end.
Proof.
  unfold _process_nodeinfo, user_info_of, node_info_of, checked, caught, try_except,
    bind, lift, now_isoformat, validate, logger, emit, reraise, ret, tick, journalled,
    node_failure.
  simpl.
  destruct (getitem packet "decoded") as [decoded|e]; simpl.
  2: { caught_case. }
  destruct (getitem decoded "user") as [user|e]; simpl.
  2: { caught_case. }
  destruct (py_dict user) as [d|e]; simpl.
  2: { caught_case. }
  repeat (run_step; [ | caught_case]).
  destruct (validate_typed_dict _ _) eqn:V; simpl.
  - now rewrite <- app_assoc.
  - caught_case.
Qed.

Lemma _process_device_telemetry_run (packet : pyval) (w : world R) :
  _process_device_telemetry packet w =
  match telemetry_of packet with
  | Raises e => (Raises e, journalled w (caught telemetry_failure e))
  | Returns telemetry =>
      checked (device_telemetry_of packet telemetry (PStr (isoformat (clock w))))
              DeviceTelemetry "Validated device telemetry structure: "
              telemetry_failure (tick w)
  end.
Proof.
  unfold _process_device_telemetry, telemetry_of, device_telemetry_of, device_metric,
    checked, caught, try_except, bind, lift,
    now_isoformat, validate, logger, emit, reraise, ret, tick, journalled, telemetry_failure.
  simpl.
  destruct (getitem packet "decoded") as [decoded|e]; simpl.
  2: { caught_case. }
  destruct (getitem decoded "telemetry") as [telemetry|e]; simpl.
  2: { caught_case. }
  repeat (run_step; [ | caught_case]).
  destruct (validate_typed_dict _ _) eqn:V; simpl.
  - now rewrite <- app_assoc.
  - caught_case.
Qed.


(** *** What a run leaves in the journal *)

Lemma stores_validated_after_app (seen a b : list event) :
  stores_validated_after seen (a ++ b) <->
  stores_validated_after seen a /\ stores_validated_after (seen ++ a) b.
Proof.
  revert seen. induction a as [|ev a IH]; intros seen; simpl.
  - rewrite app_nil_r. tauto.
  - rewrite IH, <- app_assoc. simpl. tauto.
Qed.

Lemma stores_validated_after_quiet (seen evs : list event) :
  existsb is_store evs = false -> stores_validated_after seen evs.
Proof.
  revert seen. induction evs as [|ev evs IH]; intros seen H; simpl; auto.
  simpl in H. apply orb_false_iff in H as [Hev Hevs]. split; auto.
  destruct ev; simpl in *; auto; discriminate.
Qed.

Lemma stores_validated_after_sound (seen evs : list event) :
  stores_validated_after seen evs ->
  forall before ev after,
    evs = before ++ ev :: after -> store_justified (seen ++ before) ev.
Proof.
  revert seen. induction evs as [|x evs IH]; intros seen H before ev after E.
  - destruct before; discriminate.
  - destruct H as [Hx Hrest]. destruct before as [|b before]; simpl in E.
    + injection E as -> ->. now rewrite app_nil_r.
    + injection E as -> ->.
      replace (seen ++ b :: before) with ((seen ++ [b]) ++ before)
        by now rewrite <- app_assoc.
      eapply IH; eauto.
Qed.

Lemma stores_validated_intro (evs : list event) :
  stores_validated_after [] evs -> stores_validated evs.
Proof.
  intros H before ev after E.
  exact (stores_validated_after_sound [] evs H before ev after E).
Qed.

Lemma caught_quiet (failure : exn -> event) (e : exn) :
  (forall e, is_store (failure e) = false) ->
  existsb is_store (caught failure e) = false.
Proof.
  intros quiet. unfold caught. destruct (isinstance e Exception); simpl; auto.
  now rewrite quiet.
Qed.

(** The common tail of the normalisers writes nothing, and returns only
    what the validator accepted. *)
Lemma checked_effects (built : outcome pyval) (shape : typed_dict) (success : string)
    (failure : exn -> event) (w : world R) :
  (forall e, is_store (failure e) = false) ->
  exists new,
    snd (checked built shape success failure w) = journalled w new /\
    existsb is_store new = false /\
    forall record, fst (checked built shape success failure w) = Returns record ->
      built = Returns record /\
      validate_typed_dict record shape = Returns tt /\
      In (Validate record shape (Returns tt)) new.
Proof.
  intros quiet. unfold checked.
  destruct built as [record|e].
  - destruct (validate_typed_dict record shape) as [[]|e] eqn:V.
    + eexists; split; [reflexivity|]. split; [reflexivity|].
      simpl. intros r [= <-]. rewrite V. auto.
    + eexists; split; [reflexivity|]. split.
      * simpl. now apply caught_quiet.
      * simpl. discriminate.
  - eexists; split; [reflexivity|]. split.
    + now apply caught_quiet.
    + simpl. discriminate.
Qed.

Lemma node_failure_quiet (e : exn) : is_store (node_failure e) = false.
Proof. unfold node_failure. now destruct (isinstance e ValueError). Qed.

Lemma _process_nodeinfo_effects (packet : pyval) (w : world R) :
  exists new,
    storage (snd (_process_nodeinfo packet w)) = storage w /\
    journal (snd (_process_nodeinfo packet w)) = journal w ++ new /\
    existsb is_store new = false /\
    forall record, fst (_process_nodeinfo packet w) = Returns record ->
      validate_typed_dict record NodeInfo = Returns tt /\
      In (Validate record NodeInfo (Returns tt)) new.
Proof.
  rewrite _process_nodeinfo_run.
  destruct (user_info_of packet) as [u|e].
  - destruct (checked_effects (node_info_of packet u (PStr (isoformat (clock w))))
                NodeInfo "Validated node_info structure: " node_failure (tick w)
                node_failure_quiet) as (new & Hw & Hq & Hr).
    exists new. rewrite Hw. simpl. repeat split; auto; apply Hr; auto.
  - exists (caught node_failure e). simpl.
    rewrite (caught_quiet node_failure e node_failure_quiet).
    repeat split; auto; discriminate.
Qed.

Lemma _process_textmessage_effects (packet : pyval) (w : world R) :
  exists new,
    storage (snd (_process_textmessage packet w)) = storage w /\
    journal (snd (_process_textmessage packet w)) = journal w ++ new /\
    existsb is_store new = false /\
    forall record, fst (_process_textmessage packet w) = Returns record ->
      validate_typed_dict record TextMessage = Returns tt /\
      In (Validate record TextMessage (Returns tt)) new.
Proof.
  rewrite _process_textmessage_run.
  destruct (checked_effects (text_message_of packet (PStr (isoformat (clock w))))
              TextMessage "Validated text_message structure: " text_failure (tick w)
              (fun _ => eq_refl)) as (new & Hw & Hq & Hr).
  exists new. rewrite Hw. simpl. repeat split; auto; apply Hr; auto.
Qed.


Arguments _process_nodeinfo : simpl never.
Arguments _process_textmessage : simpl never.

Lemma existsb_is_store_app (a b : list event) :
  existsb is_store (a ++ b) = existsb is_store a || existsb is_store b.
Proof. apply existsb_app. Qed.

(** A run that wrote nothing: the new events are quiet and the storage is
    the one the run started from. *)
Ltac quiet_run Hj Hs Hq :=
  eexists; split;
  [ simpl; rewrite ?Hj, <- ?app_assoc; reflexivity
  | split;
    [ apply stores_validated_after_quiet; simpl;
      rewrite ?existsb_is_store_app, ?Hq; reflexivity
    | intros _; simpl; auto ] ].

(** A run that wrote once, after the events [new] of the normaliser that
    returned [r]. *)
Ltac stored_run Hj Hq Hr r D :=
  eexists; split;
  [ simpl; rewrite ?Hj, <- ?app_assoc; reflexivity
  | split;
    [ simpl; split; [exact I|];
      apply stores_validated_after_app; split;
      [ apply stores_validated_after_quiet; exact Hq
      | simpl; split;
        [ exists r; split; [exact D|]; split;
          [ apply (Hr r eq_refl) | right; apply (Hr r eq_refl) ]
        | repeat split ] ]
    | simpl; rewrite existsb_is_store_app; simpl;
      rewrite orb_true_r; discriminate ] ].

Lemma process_packet_try_effects (packet : pyval) (packet_type : string) (w : world R) :
  exists new,
    journal (snd (process_packet_try packet packet_type w)) = journal w ++ new /\
    stores_validated_after [] new /\
    (existsb is_store new = false ->
     storage (snd (process_packet_try packet packet_type w)) = storage w).
Proof.
  unfold process_packet_try, redis_store_node, redis_store_message, redis_call,
    bind, lift, logger, emit.
  simpl.
  destruct (let! decoded := getitem packet "decoded" in getitem decoded "portnum")
    as [portnum|e]; simpl.
  2: { eexists; split; [reflexivity|]. simpl. auto. }
  destruct (eq_str portnum "NODEINFO_APP"); [|destruct (eq_str portnum "TEXT_MESSAGE_APP")].
  - match goal with |- context [_process_nodeinfo packet ?w0] =>
      destruct (_process_nodeinfo_effects packet w0) as (new & Hs & Hj & Hq & Hr);
      destruct (_process_nodeinfo packet w0) as [[r|e] w1] eqn:E end; simpl in *.
    2: { quiet_run Hj Hs Hq. }
    destruct (json_dumps r) as [payload|e] eqn:D; simpl.
    2: { quiet_run Hj Hs Hq. }
    destruct (store_node payload (storage w1)) as [[[]|e] r'] eqn:S; simpl.
    2: { stored_run Hj Hq Hr r D. }
    repeat (run_step; [ | stored_run Hj Hq Hr r D ]).
    stored_run Hj Hq Hr r D.
  - match goal with |- context [_process_textmessage packet ?w0] =>
      destruct (_process_textmessage_effects packet w0) as (new & Hs & Hj & Hq & Hr);
      destruct (_process_textmessage packet w0) as [[r|e] w1] eqn:E end; simpl in *.
    2: { quiet_run Hj Hs Hq. }
    destruct (json_dumps r) as [payload|e] eqn:D; simpl.
    2: { quiet_run Hj Hs Hq. }
    destruct (store_message payload (storage w1)) as [[[]|e] r'] eqn:S; simpl.
    2: { stored_run Hj Hq Hr r D. }
    repeat (run_step; [ | stored_run Hj Hq Hr r D ]).
    stored_run Hj Hq Hr r D.
  - eexists; split; [simpl; rewrite <- app_assoc; reflexivity|].
    simpl. auto.
Qed.


(** *** Reading a built record back *)

Lemma int__inv (o : outcome pyval) (x : pyval) :
  int_ o = Returns x ->
  exists v z, o = Returns v /\ py_int v = Returns z /\ x = PInt z.
Proof.
  unfold int_. destruct o as [v|]; simpl; [|discriminate].
  destruct (py_int v) as [z|] eqn:E; simpl; [|discriminate].
  intros [= <-]. exists v, z. auto.
Qed.

Lemma float__inv (o : outcome pyval) (x : pyval) :
  float_ o = Returns x ->
  exists v f, o = Returns v /\ py_float v = Returns f /\ x = PFloat f.
Proof.
  unfold float_. destruct o as [v|]; simpl; [|discriminate].
  destruct (py_float v) as [f|] eqn:E; simpl; [|discriminate].
  intros [= <-]. exists v, f. auto.
Qed.

Lemma str__inv (o : outcome pyval) (x : pyval) :
  str_ o = Returns x -> exists v, o = Returns v /\ x = PStr (py_str v).
Proof.
  unfold str_. destruct o as [v|]; simpl; [|discriminate].
  intros [= <-]. exists v. auto.
Qed.

Lemma getitem_present (d : pydict) (k : string) (v : pyval) :
  getitem (PDict d) k = Returns v -> dict_get k d = Some v.
Proof.
  unfold getitem. destruct (dict_get k d); [intros [= ->]; reflexivity | discriminate].
Qed.

Lemma getitem_absent (d : pydict) (k : string) :
  dict_get k d = None -> getitem (PDict d) k = raise KeyError k.
Proof. unfold getitem. now intros ->. Qed.

(** One step of a display that returned: its next expression returned
    too. *)
Ltac inv_step H :=
  match type of H with
  | obind ?o _ = Returns _ =>
      let x := fresh "x" in
      let E := fresh "E" in
      destruct o as [x|] eqn:E; [cbn [obind] in H | discriminate H]
  end.

Lemma embedded_metrics_inv (packet metrics : pyval) :
  embedded_metrics packet = Returns metrics ->
  exists rx_time rx_snr rx_rssi hop_limit,
    int_ (getitem packet "rxTime") = Returns rx_time /\
    float_ (get_default packet "rxSnr" (PInt 0)) = Returns rx_snr /\
    int_ (get_default packet "rxRssi" (PInt 0)) = Returns rx_rssi /\
    int_ (get_default packet "hopLimit" (PInt 3)) = Returns hop_limit /\
    metrics = PDict [("rx_time", rx_time); ("rx_snr", rx_snr);
                     ("rx_rssi", rx_rssi); ("hop_limit", hop_limit)].
Proof.
  intros H. unfold embedded_metrics in H. repeat inv_step H.
  injection H as <-. eauto 10.
Qed.

Lemma text_message_of_inv (packet timestamp record : pyval) :
  text_message_of packet timestamp = Returns record ->
  exists from_num from_id to_num to_id text metrics raw,
    int_ (getitem packet "from") = Returns from_num /\
    str_ (getitem packet "fromId") = Returns from_id /\
    int_ (getitem packet "to") = Returns to_num /\
    str_ (getitem packet "toId") = Returns to_id /\
    str_ (let! decoded := getitem packet "decoded" in getitem decoded "text")
      = Returns text /\
    embedded_metrics packet = Returns metrics /\
    str_ (getitem packet "raw") = Returns raw /\
    record = PDict [("type", PStr "text"); ("timestamp", timestamp);
                    ("from_num", from_num); ("from_id", from_id);
                    ("to_num", to_num); ("to_id", to_id); ("text", text);
                    ("metrics", metrics); ("raw", raw)].
Proof.
  intros H. unfold text_message_of in H. repeat inv_step H.
  injection H as <-. do 7 eexists. repeat split; eassumption.
Qed.

Lemma node_info_of_inv (packet user_info timestamp record : pyval) :
  node_info_of packet user_info timestamp = Returns record ->
  exists from_num from_id id long_name short_name macaddr hw_model user_raw metrics raw,
    int_ (getitem packet "from") = Returns from_num /\
    str_ (getitem packet "fromId") = Returns from_id /\
    str_ (getitem user_info "id") = Returns id /\
    str_ (getitem user_info "longName") = Returns long_name /\
    str_ (getitem user_info "shortName") = Returns short_name /\
    str_ (getitem user_info "macaddr") = Returns macaddr /\
    str_ (getitem user_info "hwModel") = Returns hw_model /\
    str_ (getitem user_info "raw") = Returns user_raw /\
    embedded_metrics packet = Returns metrics /\
    str_ (getitem packet "raw") = Returns raw /\
    record = PDict [("type", PStr "nodeinfo"); ("timestamp", timestamp);
                    ("from_num", from_num); ("from_id", from_id);
                    ("user", PDict [("id", id); ("long_name", long_name);
                                    ("short_name", short_name); ("macaddr", macaddr);
                                    ("hw_model", hw_model); ("raw", user_raw)]);
                    ("metrics", metrics); ("raw", raw)].
Proof.
  intros H. unfold node_info_of in H. repeat inv_step H.
  injection H as <-. do 10 eexists. repeat split; eassumption.
Qed.

Lemma device_telemetry_of_inv (packet telemetry timestamp record : pyval) :
  device_telemetry_of packet telemetry timestamp = Returns record ->
  exists from_num from_id battery_level voltage channel_utilization air_util_tx
         uptime_seconds metrics raw,
    int_ (getitem packet "from") = Returns from_num /\
    str_ (getitem packet "fromId") = Returns from_id /\
    int_ (device_metric telemetry "batteryLevel") = Returns battery_level /\
    float_ (device_metric telemetry "voltage") = Returns voltage /\
    float_ (let! dm := getitem telemetry "deviceMetrics" in
            get_default dm "channelUtilization" (PFloat (S754_zero false)))
      = Returns channel_utilization /\
    float_ (device_metric telemetry "airUtilTx") = Returns air_util_tx /\
    int_ (device_metric telemetry "uptimeSeconds") = Returns uptime_seconds /\
    _extract_metrics packet = Returns metrics /\
    str_ (getitem packet "raw") = Returns raw /\
    record = PDict [("type", PStr "device_telemetry"); ("timestamp", timestamp);
                    ("from_num", from_num); ("from_id", from_id);
                    ("device_metrics",
                     PDict [("battery_level", battery_level); ("voltage", voltage);
                            ("channel_utilization", channel_utilization);
                            ("air_util_tx", air_util_tx);
                            ("uptime_seconds", uptime_seconds)]);
                    ("metrics", metrics); ("raw", raw)].
Proof.
  intros H. unfold device_telemetry_of in H. repeat inv_step H.
  injection H as <-. do 9 eexists. repeat split; eassumption.
Qed.

Lemma user_info_of_dict (packet user_info : pyval) :
  user_info_of packet = Returns user_info -> exists d, user_info = PDict d.
Proof.
  intros H. unfold user_info_of in H. repeat inv_step H.
  injection H as <-. eauto.
Qed.

(** What a normaliser returns is what its display built, stamped with the
    clock reading of the call, and what the validator accepted. *)
Lemma _process_textmessage_returns (packet record : pyval) (w w' : world R) :
  _process_textmessage packet w = (Returns record, w') ->
  text_message_of packet (PStr (isoformat (clock w))) = Returns record /\
  validate_typed_dict record TextMessage = Returns tt.
Proof.
  rewrite _process_textmessage_run. intros H.
  destruct (checked_effects (text_message_of packet (PStr (isoformat (clock w))))
              TextMessage "Validated text_message structure: " text_failure (tick w)
              (fun _ => eq_refl)) as (new & _ & _ & Hr).
  rewrite H in Hr. destruct (Hr record eq_refl) as (Hb & Hv & _). auto.
Qed.

Lemma _process_nodeinfo_returns (packet record : pyval) (w w' : world R) :
  _process_nodeinfo packet w = (Returns record, w') ->
  exists user_info,
    user_info_of packet = Returns user_info /\
    node_info_of packet user_info (PStr (isoformat (clock w))) = Returns record /\
    validate_typed_dict record NodeInfo = Returns tt.
Proof.
  rewrite _process_nodeinfo_run. intros H.
  destruct (user_info_of packet) as [u|e]; [|discriminate].
  destruct (checked_effects (node_info_of packet u (PStr (isoformat (clock w))))
              NodeInfo "Validated node_info structure: " node_failure (tick w)
              node_failure_quiet) as (new & _ & _ & Hr).
  rewrite H in Hr. destruct (Hr record eq_refl) as (Hb & Hv & _). eauto.
Qed.

Lemma _process_device_telemetry_returns (packet record : pyval) (w w' : world R) :
  _process_device_telemetry packet w = (Returns record, w') ->
  exists telemetry,
    telemetry_of packet = Returns telemetry /\
    device_telemetry_of packet telemetry (PStr (isoformat (clock w))) = Returns record /\
    validate_typed_dict record DeviceTelemetry = Returns tt.
Proof.
  rewrite _process_device_telemetry_run. intros H.
  destruct (telemetry_of packet) as [t|e]; [|discriminate].
  destruct (checked_effects (device_telemetry_of packet t (PStr (isoformat (clock w))))
              DeviceTelemetry "Validated device telemetry structure: "
              telemetry_failure (tick w) (fun _ => eq_refl)) as (new & _ & _ & Hr).
  rewrite H in Hr. destruct (Hr record eq_refl) as (Hb & Hv & _). eauto.
Qed.

(* ----------------------------------------------------------------- *)
(** *** The dispatcher *)

(** The [except Exception] clause of [process_packet] takes the
    exceptions of the suite that are instances of [Exception], and its
    handler only journals; any other exception goes on to the caller. *)
Lemma process_packet_run (packet : pyval) (packet_type : string) (w : world R) :
  process_packet packet packet_type w =
  match process_packet_try packet packet_type w with
  | (Returns _, w') => (Returns tt, w')
  | (Raises e, w') =>
      if isinstance e Exception
      then (Returns tt, journalled w' [packet_failure packet_type e])
      else (Raises e, w')
  end.
Proof.
  unfold process_packet, try_except.
  destruct (process_packet_try packet packet_type w) as [[[]|e] w'].
  - reflexivity.
  - simpl. destruct (isinstance e Exception); reflexivity.
Qed.

(** C1.  [process_packet] lets no instance of [Exception] out, whatever
    step of its [try] suite raises it (reading the discriminator,
    normalising, serialising, storing): when the suite returns, so does the
    method, in the same world; when the suite raises an instance of
    [Exception], the method journals the error with its traceback and
    returns; an exception that is not an instance of [Exception] goes
    through the method untouched, so whatever the method raises is no
    instance of [Exception] and was raised by the suite. *)
Theorem process_packet_swallows (packet : pyval) (packet_type : string) (w : world R) :
  process_packet packet packet_type w =
  match process_packet_try packet packet_type w with
  | (Returns _, w') => (Returns tt, w')
  | (Raises e, w') =>
      if isinstance e Exception
      then (Returns tt, journalled w' [packet_failure packet_type e])
      else (Raises e, w')
  end /\
  (forall e w',
     process_packet_try packet packet_type w = (Raises e, w') ->
     isinstance e Exception = true ->
     process_packet packet packet_type w
     = (Returns tt, journalled w' [packet_failure packet_type e])) /\
  (forall e w',
     process_packet packet packet_type w = (Raises e, w') ->
     isinstance e Exception = false /\
     process_packet_try packet packet_type w = (Raises e, w')).
Proof.
  rewrite process_packet_run.
  destruct (process_packet_try packet packet_type w) as [[[]|e] w'].
  - repeat split; try discriminate.
  - split; [reflexivity|]. split.
    + intros e0 w0 [= <- <-] ->. reflexivity.
    + intros e0 w0. destruct (isinstance e Exception) eqn:E; [discriminate|].
      intros [= <- <-]. auto.
Qed.

(** C2.  Whatever [process_packet] adds to the journal, every storage
    write in it carries the serialisation of a record on which
    [validate_typed_dict] was called before, under the shape of that write,
    and returned without raising. *)
Theorem process_packet_stores_validated (packet : pyval) (packet_type : string)
    (w : world R) :
  exists new,
    journal (snd (process_packet packet packet_type w)) = journal w ++ new /\
    stores_validated new.
Proof.
  destruct (process_packet_try_effects packet packet_type w) as (new & Hj & Hv & Hs).
  rewrite process_packet_run.
  destruct (process_packet_try packet packet_type w) as [[[]|e] w']; simpl in *.
  - exists new. split; [exact Hj|]. now apply stores_validated_intro.
  - destruct (isinstance e Exception); simpl.
    + exists (new ++ [packet_failure packet_type e]). split.
      * now rewrite Hj, <- app_assoc.
      * apply stores_validated_intro, stores_validated_after_app. split; [exact Hv|].
        simpl. auto.
    + exists new. split; [exact Hj|]. now apply stores_validated_intro.
Qed.

(** C6.  A packet whose discriminator is neither ['NODEINFO_APP'] nor
    ['TEXT_MESSAGE_APP'] is logged and skipped: [process_packet] returns,
    the journal gains the two log records and nothing else, no storage
    method is called and the storage and the clock are as before. *)
Theorem process_packet_unknown_portnum (packet : pyval) (packet_type : string)
    (w : world R) (decoded portnum : pyval) :
  getitem packet "decoded" = Returns decoded ->
  getitem decoded "portnum" = Returns portnum ->
  portnum <> PStr "NODEINFO_APP" ->
  portnum <> PStr "TEXT_MESSAGE_APP" ->
  process_packet packet packet_type w =
  (Returns tt,
   journalled w
     [Log DEBUG [Lit "Processing "; Val (PStr packet_type); Lit " packet"] false;
      Log WARNING [Lit "Unknown packet type: "; Val portnum] false]).
Proof.
  intros Hd Hp Hn Ht.
  assert (other : forall s, portnum <> PStr s -> eq_str portnum s = false).
  { intros s H. destruct portnum; simpl; auto.
    destruct (String.eqb s0 s) eqn:E; auto.
    apply String.eqb_eq in E. congruence. }
  rewrite process_packet_run.
  unfold process_packet_try, bind, lift, logger, emit. simpl.
  rewrite Hd. simpl. rewrite Hp. simpl.
  rewrite (other _ Hn), (other _ Ht). simpl.
  unfold journalled. simpl. now rewrite <- app_assoc.
Qed.

Lemma quiet_no_store (evs : list event) :
  existsb is_store evs = false ->
  forall payload, ~ In (StoreNode payload) evs /\ ~ In (StoreMessage payload) evs.
Proof.
  intros H payload. split; intros Hin;
    (assert (existsb is_store evs = true) as Ht
       by (apply existsb_exists; eexists; split; [exact Hin | reflexivity]));
    congruence.
Qed.

(** Without a long name the node display cannot be built: a lookup fails,
    with an error. *)
Lemma nameless_raises (packet : pyval) (w : world R) :
  (forall d, user_info_of packet = Returns (PDict d) -> dict_get "longName" d = None) ->
  exists e, fst (_process_nodeinfo packet w) = Raises e /\
            isinstance e Exception = true.
Proof.
  intros lacks. rewrite _process_nodeinfo_run.
  destruct (user_info_of packet) as [u|e] eqn:Hu.
  - destruct (node_info_of packet u (PStr (isoformat (clock w)))) as [record|e] eqn:Hb.
    + exfalso.
      destruct (user_info_of_dict _ _ Hu) as [d ->].
      apply node_info_of_inv in Hb
        as (? & ? & ? & long_name & ? & ? & ? & ? & ? & ? & _ & _ & _ & Hl & _).
      apply str__inv in Hl as (v & Hv & _).
      apply getitem_present in Hv. rewrite (lacks d eq_refl) in Hv. discriminate.
    + exists e. split; [reflexivity|]. exact (raises_errors_node_info_of _ _ _ e Hb).
  - exists e. split; [reflexivity|]. exact (raises_errors_user_info_of _ e Hu).
Qed.

(** C5.  When [dict(packet['decoded']['user'])] has no ['longName'] (or
    cannot be built at all), [_process_nodeinfo] raises; and when the
    discriminator of such a packet is ['NODEINFO_APP'], [process_packet]
    returns with the storage as it was and with no call of [store_node] or
    [store_message] in what it journalled. *)
Theorem nameless_nodeinfo_not_stored (packet : pyval) (packet_type : string)
    (w : world R) :
  (forall d, user_info_of packet = Returns (PDict d) -> dict_get "longName" d = None) ->
  (exists e w', _process_nodeinfo packet w = (Raises e, w')) /\
  (forall decoded,
     getitem packet "decoded" = Returns decoded ->
     getitem decoded "portnum" = Returns (PStr "NODEINFO_APP") ->
     exists new,
       fst (process_packet packet packet_type w) = Returns tt /\
       storage (snd (process_packet packet packet_type w)) = storage w /\
       journal (snd (process_packet packet packet_type w)) = journal w ++ new /\
       forall payload, ~ In (StoreNode payload) new /\ ~ In (StoreMessage payload) new).
Proof.
  intros lacks. split.
  - destruct (nameless_raises packet w lacks) as (e & He & _).
    destruct (_process_nodeinfo packet w) as [o w'] eqn:E. simpl in He. subst o. eauto.
  - intros decoded Hd Hp.
    rewrite process_packet_run.
    unfold process_packet_try, bind, lift, logger, emit. simpl.
    rewrite Hd. simpl. rewrite Hp. simpl.
    match goal with |- context [_process_nodeinfo packet ?w0] =>
      destruct (nameless_raises packet w0 lacks) as (e & He & Herr);
      destruct (_process_nodeinfo_effects packet w0) as (new & Hs & Hj & Hq & _);
      destruct (_process_nodeinfo packet w0) as [o w1] eqn:E end.
    simpl in *. subst o. simpl. rewrite Herr. simpl.
    eexists. split; [reflexivity|]. split; [exact Hs|]. split.
    + rewrite Hj, <- !app_assoc. reflexivity.
    + apply quiet_no_store. simpl. rewrite existsb_is_store_app, Hq. reflexivity.
Qed.

(* ----------------------------------------------------------------- *)
(** *** The embedded metrics *)

Lemma embedded_metrics_zero (d : pydict) (metrics : pyval) :
  dict_get "rxSnr" d = None ->
  dict_get "rxRssi" d = None ->
  embedded_metrics (PDict d) = Returns metrics ->
  getitem metrics "rx_snr" = Returns (PFloat (S754_zero false)) /\
  getitem metrics "rx_rssi" = Returns (PInt 0).
Proof.
  intros Hsnr Hrssi H.
  apply embedded_metrics_inv in H as (rx_time & rx_snr & rx_rssi & hop & _ & Hf & Hi & _ & ->).
  unfold get_default in Hf, Hi. rewrite Hsnr in Hf. rewrite Hrssi in Hi.
  cbv in Hf, Hi. injection Hf as <-. injection Hi as <-. split; reflexivity.
Qed.

(** C4.  On a packet without ['rxSnr'] and ['rxRssi'] whose required
    fields are present, whose numeric fields [int] can read and whose
    record the validator accepts, [_process_textmessage] returns the record
    shown, with [metrics.rx_snr] equal to [float(0)], the float zero, and
    [metrics.rx_rssi] equal to 0; and so does [_process_nodeinfo], on a
    packet whose [decoded.user] has its six fields, with the same two
    values in the metrics of the node record.  Whatever else the packet
    holds, the record that [_process_textmessage] returns has these two
    values, and so has the record that [_process_nodeinfo] returns; both
    equal the integer 0; while the metrics that [_extract_metrics] returns
    for the same packet hold [None] in both. *)
Theorem embedded_metrics_default_to_zero (d : pydict) (w : world R) :
  dict_get "rxSnr" d = None ->
  dict_get "rxRssi" d = None ->
  (forall v_from v_fromId v_to v_toId decoded v_text v_rxTime v_raw
          from_num to_num rx_time hop_limit,
     dict_get "from" d = Some v_from -> py_int v_from = Returns from_num ->
     dict_get "fromId" d = Some v_fromId ->
     dict_get "to" d = Some v_to -> py_int v_to = Returns to_num ->
     dict_get "toId" d = Some v_toId ->
     dict_get "decoded" d = Some decoded -> getitem decoded "text" = Returns v_text ->
     dict_get "rxTime" d = Some v_rxTime -> py_int v_rxTime = Returns rx_time ->
     py_int (match dict_get "hopLimit" d with Some v => v | None => PInt 3 end)
       = Returns hop_limit ->
     dict_get "raw" d = Some v_raw ->
     let record :=
       PDict [("type", PStr "text");
              ("timestamp", PStr (isoformat (clock w)));
              ("from_num", PInt from_num);
              ("from_id", PStr (py_str v_fromId));
              ("to_num", PInt to_num);
              ("to_id", PStr (py_str v_toId));
              ("text", PStr (py_str v_text));
              ("metrics", PDict [("rx_time", PInt rx_time);
                                 ("rx_snr", PFloat (S754_zero false));
                                 ("rx_rssi", PInt 0);
                                 ("hop_limit", PInt hop_limit)]);
              ("raw", PStr (py_str v_raw))] in
     validate_typed_dict record TextMessage = Returns tt ->
     fst (_process_textmessage (PDict d) w) = Returns record) /\
  (forall v_from v_fromId decoded user u v_id v_longName v_shortName v_macaddr
          v_hwModel v_user_raw v_rxTime v_raw from_num rx_time hop_limit,
     dict_get "from" d = Some v_from -> py_int v_from = Returns from_num ->
     dict_get "fromId" d = Some v_fromId ->
     dict_get "decoded" d = Some decoded -> getitem decoded "user" = Returns user ->
     py_dict user = Returns u ->
     dict_get "id" u = Some v_id ->
     dict_get "longName" u = Some v_longName ->
     dict_get "shortName" u = Some v_shortName ->
     dict_get "macaddr" u = Some v_macaddr ->
     dict_get "hwModel" u = Some v_hwModel ->
     dict_get "raw" u = Some v_user_raw ->
     dict_get "rxTime" d = Some v_rxTime -> py_int v_rxTime = Returns rx_time ->
     py_int (match dict_get "hopLimit" d with Some v => v | None => PInt 3 end)
       = Returns hop_limit ->
     dict_get "raw" d = Some v_raw ->
     let record :=
       PDict [("type", PStr "nodeinfo");
              ("timestamp", PStr (isoformat (clock w)));
              ("from_num", PInt from_num);
              ("from_id", PStr (py_str v_fromId));
              ("user", PDict [("id", PStr (py_str v_id));
                              ("long_name", PStr (py_str v_longName));
                              ("short_name", PStr (py_str v_shortName));
                              ("macaddr", PStr (py_str v_macaddr));
                              ("hw_model", PStr (py_str v_hwModel));
                              ("raw", PStr (py_str v_user_raw))]);
              ("metrics", PDict [("rx_time", PInt rx_time);
                                 ("rx_snr", PFloat (S754_zero false));
                                 ("rx_rssi", PInt 0);
                                 ("hop_limit", PInt hop_limit)]);
              ("raw", PStr (py_str v_raw))] in
     validate_typed_dict record NodeInfo = Returns tt ->
     fst (_process_nodeinfo (PDict d) w) = Returns record) /\
  (forall record w', _process_textmessage (PDict d) w = (Returns record, w') ->
     exists metrics,
       getitem record "metrics" = Returns metrics /\
       getitem metrics "rx_snr" = Returns (PFloat (S754_zero false)) /\
       getitem metrics "rx_rssi" = Returns (PInt 0)) /\
  (forall record w', _process_nodeinfo (PDict d) w = (Returns record, w') ->
     exists metrics,
       getitem record "metrics" = Returns metrics /\
       getitem metrics "rx_snr" = Returns (PFloat (S754_zero false)) /\
       getitem metrics "rx_rssi" = Returns (PInt 0)) /\
  eq_int (PFloat (S754_zero false)) 0 = true /\
  eq_int (PInt 0) 0 = true /\
  (forall metrics, _extract_metrics (PDict d) = Returns metrics ->
     getitem metrics "rx_snr" = Returns PNone /\
     getitem metrics "rx_rssi" = Returns PNone).
Proof.
  intros Hsnr Hrssi.
  assert (Hmetrics : forall v_rxTime rx_time hop_limit,
            dict_get "rxTime" d = Some v_rxTime -> py_int v_rxTime = Returns rx_time ->
            py_int (match dict_get "hopLimit" d with Some v => v | None => PInt 3 end)
              = Returns hop_limit ->
            embedded_metrics (PDict d)
            = Returns (PDict [("rx_time", PInt rx_time);
                              ("rx_snr", PFloat (S754_zero false));
                              ("rx_rssi", PInt 0);
                              ("hop_limit", PInt hop_limit)])).
  { intros v_rxTime rx_time hop_limit Hrx Irx Ihop.
    unfold embedded_metrics, int_, float_, getitem, get_default.
    rewrite Hrx, Hsnr, Hrssi. cbn [obind]. rewrite Irx. cbn [obind].
    destruct (dict_get "hopLimit" d); cbn [obind]; rewrite Ihop; reflexivity. }
  split; [|split; [|repeat split; try reflexivity]].
  - intros v_from v_fromId v_to v_toId decoded v_text v_rxTime v_raw
           from_num to_num rx_time hop_limit
           Hfrom Ifrom HfromId Hto Ito HtoId Hdec Htext Hrx Irx Ihop Hraw record Hvalid.
    rewrite _process_textmessage_run.
    assert (Hb : text_message_of (PDict d) (PStr (isoformat (clock w))) = Returns record).
    { unfold text_message_of.
      rewrite (Hmetrics v_rxTime rx_time hop_limit Hrx Irx Ihop).
      unfold int_, str_, getitem.
      rewrite Hfrom, HfromId, Hto, HtoId, Hdec, Hraw. cbn [obind].
      rewrite Ifrom, Ito. cbn [obind].
      fold (getitem decoded "text"). rewrite Htext. reflexivity. }
    unfold checked. rewrite Hb, Hvalid. reflexivity.
  - intros v_from v_fromId decoded user u v_id v_longName v_shortName v_macaddr
           v_hwModel v_user_raw v_rxTime v_raw from_num rx_time hop_limit
           Hfrom Ifrom HfromId Hdec Huser Hu Hid Hlong Hshort Hmac Hhw Huraw
           Hrx Irx Ihop Hraw record Hvalid.
    rewrite _process_nodeinfo_run.
    assert (Hui : user_info_of (PDict d) = Returns (PDict u)).
    { unfold user_info_of, getitem at 1. rewrite Hdec. cbn [obind].
      rewrite Huser. cbn [obind]. rewrite Hu. reflexivity. }
    assert (Hb : node_info_of (PDict d) (PDict u) (PStr (isoformat (clock w)))
                 = Returns record).
    { unfold node_info_of.
      rewrite (Hmetrics v_rxTime rx_time hop_limit Hrx Irx Ihop).
      unfold int_, str_, getitem.
      rewrite Hfrom, HfromId, Hid, Hlong, Hshort, Hmac, Hhw, Huraw, Hraw. cbn [obind].
      rewrite Ifrom. reflexivity. }
    rewrite Hui. unfold checked. rewrite Hb, Hvalid. reflexivity.
  - intros record w' H.
    apply _process_textmessage_returns in H as [Hb _].
    apply text_message_of_inv in Hb
      as (? & ? & ? & ? & ? & metrics & ? & _ & _ & _ & _ & _ & Hm & _ & ->).
    exists metrics. split; [reflexivity|].
    now apply embedded_metrics_zero with (d := d).
  - intros record w' H.
    apply _process_nodeinfo_returns in H as (u & _ & Hb & _).
    apply node_info_of_inv in Hb
      as (? & ? & ? & ? & ? & ? & ? & ? & metrics & ? &
          _ & _ & _ & _ & _ & _ & _ & _ & Hm & _ & ->).
    exists metrics. split; [reflexivity|].
    now apply embedded_metrics_zero with (d := d).
  - unfold _extract_metrics, get, get_default in H. rewrite Hsnr, Hrssi in H.
    repeat inv_step H. injection H as <-. reflexivity.
  - unfold _extract_metrics, get, get_default in H. rewrite Hsnr, Hrssi in H.
    repeat inv_step H. injection H as <-. reflexivity.
Qed.

(* ----------------------------------------------------------------- *)
(** *** The generic metrics *)

(** C3.  [_extract_metrics] on the packet [{'rxTime': 100}] gives
    [rx_time] 100, [rx_snr] and [rx_rssi] [None] and [hop_limit] 3.  For
    every packet: without ['rxTime'] the lookup raises ([KeyError] on a
    dictionary) and so does the method; with it the method returns,
    whatever else the packet has, the value of ['rxTime'] as it is,
    ['rxSnr'] and ['rxRssi'] or [None], and ['hopLimit'] or 3. *)
Theorem _extract_metrics_defaults (d : pydict) :
  _extract_metrics (PDict [("rxTime", PInt 100)]) =
    Returns (PDict [("rx_time", PInt 100); ("rx_snr", PNone);
                    ("rx_rssi", PNone); ("hop_limit", PInt 3)]) /\
  (dict_get "rxTime" d = None ->
   _extract_metrics (PDict d) = raise KeyError "rxTime") /\
  (forall rx_time, dict_get "rxTime" d = Some rx_time ->
   _extract_metrics (PDict d) =
     Returns (PDict [("rx_time", rx_time);
                     ("rx_snr", match dict_get "rxSnr" d with
                                | Some v => v | None => PNone end);
                     ("rx_rssi", match dict_get "rxRssi" d with
                                 | Some v => v | None => PNone end);
                     ("hop_limit", match dict_get "hopLimit" d with
                                   | Some v => v | None => PInt 3 end)])).
Proof.
  split; [reflexivity|]. split.
  - intros H. unfold _extract_metrics. simpl. now rewrite H.
  - intros rx_time H. unfold _extract_metrics, get. simpl. rewrite H. simpl.
    destruct (dict_get "rxSnr" d), (dict_get "rxRssi" d), (dict_get "hopLimit" d);
      reflexivity.
Qed.

(* ----------------------------------------------------------------- *)
(** *** Coercion *)

Lemma int__present (d : pydict) (k : string) (x : pyval) :
  int_ (getitem (PDict d) k) = Returns x -> dict_get k d <> None.
Proof.
  intros H. apply int__inv in H as (v & _ & H & _).
  apply getitem_present in H. congruence.
Qed.

Lemma str__present (d : pydict) (k : string) (x : pyval) :
  str_ (getitem (PDict d) k) = Returns x -> dict_get k d <> None.
Proof.
  intros H. apply str__inv in H as (v & H & _).
  apply getitem_present in H. congruence.
Qed.

Lemma obind_present {B : Type} (d : pydict) (k : string) (f : pyval -> outcome B) (b : B) :
  obind (getitem (PDict d) k) f = Returns b -> dict_get k d <> None.
Proof.
  unfold getitem. destruct (dict_get k d); [congruence | discriminate].
Qed.

Lemma embedded_metrics_fields (packet metrics : pyval) :
  embedded_metrics packet = Returns metrics ->
  getitem metrics "rx_time" = int_ (getitem packet "rxTime") /\
  getitem metrics "rx_snr" = float_ (get_default packet "rxSnr" (PInt 0)) /\
  getitem metrics "rx_rssi" = int_ (get_default packet "rxRssi" (PInt 0)) /\
  getitem metrics "hop_limit" = int_ (get_default packet "hopLimit" (PInt 3)).
Proof.
  intros H.
  apply embedded_metrics_inv in H as (? & ? & ? & ? & -> & -> & -> & -> & ->).
  repeat split.
Qed.

(** A run is a return or a raise. *)
Lemma returns_or_raises {A : Type} (run : outcome A * world R) :
  (forall a w', run <> (Returns a, w')) -> exists e w', run = (Raises e, w').
Proof.
  destruct run as [[a|e] w']; intros H; [now destruct (H a w') | eauto].
Qed.

Lemma int__reads (d : pydict) (k : string) (x : pyval) (record : pyval)
    (target : string) :
  int_ (getitem (PDict d) k) = Returns x ->
  getitem record target = Returns x ->
  reads_int d k record target.
Proof.
  intros H Hrecord s Hs. unfold int_, getitem in H. rewrite Hs in H. simpl in H.
  destruct (int_of_str s) as [z|]; [|discriminate].
  injection H as <-. eauto.
Qed.

Lemma float__reads (d : pydict) (k : string) (default x : pyval) (record : pyval)
    (target : string) :
  float_ (get_default (PDict d) k default) = Returns x ->
  getitem record target = Returns x ->
  reads_float d k record target.
Proof.
  intros H Hrecord s Hs. unfold float_, get_default in H. rewrite Hs in H. simpl in H.
  destruct (float_of_str s) as [f|]; [|discriminate].
  injection H as <-. eauto.
Qed.

Lemma int__default_reads (d : pydict) (k : string) (default x : pyval) (record : pyval)
    (target : string) :
  int_ (get_default (PDict d) k default) = Returns x ->
  getitem record target = Returns x ->
  reads_int d k record target.
Proof.
  intros H Hrecord s Hs. unfold int_, get_default in H. rewrite Hs in H. simpl in H.
  destruct (int_of_str s) as [z|]; [|discriminate].
  injection H as <-. eauto.
Qed.

Lemma float__item_reads (d : pydict) (k : string) (x : pyval) (record : pyval)
    (target : string) :
  float_ (getitem (PDict d) k) = Returns x ->
  getitem record target = Returns x ->
  reads_float d k record target.
Proof.
  intros H Hrecord s Hs. unfold float_, getitem in H. rewrite Hs in H. simpl in H.
  destruct (float_of_str s) as [f|]; [|discriminate].
  injection H as <-. eauto.
Qed.

Lemma embedded_metrics_reads (d : pydict) (metrics : pyval) :
  embedded_metrics (PDict d) = Returns metrics ->
  reads_int d "rxTime" metrics "rx_time" /\
  reads_float d "rxSnr" metrics "rx_snr" /\
  reads_int d "rxRssi" metrics "rx_rssi" /\
  reads_int d "hopLimit" metrics "hop_limit".
Proof.
  intros H.
  apply embedded_metrics_inv in H as (? & ? & ? & ? & H1 & H2 & H3 & H4 & ->).
  split; [|split; [|split]].
  - now apply int__reads with (1 := H1).
  - now apply float__reads with (1 := H2).
  - now apply int__default_reads with (1 := H3).
  - now apply int__default_reads with (1 := H4).
Qed.

Lemma device_metric_present (telemetry : pyval) (dm : pydict) (k : string) (v : pyval) :
  getitem telemetry "deviceMetrics" = Returns (PDict dm) ->
  device_metric telemetry k = Returns v -> dict_get k dm = Some v.
Proof.
  intros Hdm. unfold device_metric. rewrite Hdm. simpl. apply getitem_present.
Qed.

(** C8, as the code has it.  In the records that [_process_textmessage],
    [_process_nodeinfo] and [_process_device_telemetry] return, every
    numeric field of the record itself, of its embedded metrics and of its
    device metrics is [int(...)] or [float(...)] of the packet's value; so
    where the packet holds a text, the text reads as a number and the
    record holds that number, and a sender number that does not read as
    one makes the normaliser raise.  The [metrics] of the device telemetry
    are those of [_extract_metrics], which holds the packet's values as
    they are.  Each normaliser raises when a required field is missing: at
    the top of the packet, inside [decoded], inside [decoded.user] and
    inside [deviceMetrics]; [_extract_metrics] raises without ['rxTime']. *)
Theorem numeric_fields_coerced (d : pydict) (w : world R) :
  (forall record w',
     _process_textmessage (PDict d) w = (Returns record, w') ->
     exists metrics,
       getitem record "from_num" = int_ (getitem (PDict d) "from") /\
       getitem record "to_num" = int_ (getitem (PDict d) "to") /\
       getitem record "metrics" = Returns metrics /\
       getitem metrics "rx_time" = int_ (getitem (PDict d) "rxTime") /\
       getitem metrics "rx_snr" = float_ (get_default (PDict d) "rxSnr" (PInt 0)) /\
       getitem metrics "rx_rssi" = int_ (get_default (PDict d) "rxRssi" (PInt 0)) /\
       getitem metrics "hop_limit" = int_ (get_default (PDict d) "hopLimit" (PInt 3)) /\
       reads_int d "from" record "from_num" /\
       reads_int d "to" record "to_num" /\
       reads_int d "rxTime" metrics "rx_time" /\
       reads_float d "rxSnr" metrics "rx_snr" /\
       reads_int d "rxRssi" metrics "rx_rssi" /\
       reads_int d "hopLimit" metrics "hop_limit") /\
  (forall record w',
     _process_nodeinfo (PDict d) w = (Returns record, w') ->
     exists metrics,
       getitem record "from_num" = int_ (getitem (PDict d) "from") /\
       getitem record "metrics" = Returns metrics /\
       getitem metrics "rx_time" = int_ (getitem (PDict d) "rxTime") /\
       getitem metrics "rx_snr" = float_ (get_default (PDict d) "rxSnr" (PInt 0)) /\
       getitem metrics "rx_rssi" = int_ (get_default (PDict d) "rxRssi" (PInt 0)) /\
       getitem metrics "hop_limit" = int_ (get_default (PDict d) "hopLimit" (PInt 3)) /\
       reads_int d "from" record "from_num" /\
       reads_int d "rxTime" metrics "rx_time" /\
       reads_float d "rxSnr" metrics "rx_snr" /\
       reads_int d "rxRssi" metrics "rx_rssi" /\
       reads_int d "hopLimit" metrics "hop_limit") /\
  (forall record w',
     _process_device_telemetry (PDict d) w = (Returns record, w') ->
     exists telemetry device_metrics,
       telemetry_of (PDict d) = Returns telemetry /\
       getitem record "from_num" = int_ (getitem (PDict d) "from") /\
       getitem record "device_metrics" = Returns device_metrics /\
       getitem device_metrics "battery_level"
         = int_ (device_metric telemetry "batteryLevel") /\
       getitem device_metrics "voltage" = float_ (device_metric telemetry "voltage") /\
       getitem device_metrics "channel_utilization"
         = float_ (let! dm := getitem telemetry "deviceMetrics" in
                   get_default dm "channelUtilization" (PFloat (S754_zero false))) /\
       getitem device_metrics "air_util_tx"
         = float_ (device_metric telemetry "airUtilTx") /\
       getitem device_metrics "uptime_seconds"
         = int_ (device_metric telemetry "uptimeSeconds") /\
       getitem record "metrics" = _extract_metrics (PDict d) /\
       reads_int d "from" record "from_num" /\
       (forall dm, getitem telemetry "deviceMetrics" = Returns (PDict dm) ->
          reads_int dm "batteryLevel" device_metrics "battery_level" /\
          reads_float dm "voltage" device_metrics "voltage" /\
          reads_float dm "channelUtilization" device_metrics "channel_utilization" /\
          reads_float dm "airUtilTx" device_metrics "air_util_tx" /\
          reads_int dm "uptimeSeconds" device_metrics "uptime_seconds")) /\
  (forall s,
     dict_get "from" d = Some (PStr s) -> int_of_str s = None ->
     (exists e w', _process_textmessage (PDict d) w = (Raises e, w')) /\
     (exists e w', _process_nodeinfo (PDict d) w = (Raises e, w')) /\
     (exists e w', _process_device_telemetry (PDict d) w = (Raises e, w'))) /\
  (forall metrics,
     _extract_metrics (PDict d) = Returns metrics ->
     getitem metrics "rx_time" = getitem (PDict d) "rxTime" /\
     getitem metrics "rx_snr" = get (PDict d) "rxSnr" /\
     getitem metrics "rx_rssi" = get (PDict d) "rxRssi" /\
     getitem metrics "hop_limit" = get_default (PDict d) "hopLimit" (PInt 3)) /\
  (dict_get "rxTime" d = None -> exists e, _extract_metrics (PDict d) = Raises e) /\
  (forall k,
     In k ["from"; "fromId"; "to"; "toId"; "decoded"; "rxTime"; "raw"] ->
     dict_get k d = None ->
     exists e w', _process_textmessage (PDict d) w = (Raises e, w')) /\
  (forall decoded,
     dict_get "decoded" d = Some (PDict decoded) ->
     dict_get "text" decoded = None ->
     exists e w', _process_textmessage (PDict d) w = (Raises e, w')) /\
  (forall k,
     In k ["decoded"; "from"; "fromId"; "rxTime"; "raw"] ->
     dict_get k d = None ->
     (exists e w', _process_nodeinfo (PDict d) w = (Raises e, w')) /\
     (exists e w', _process_device_telemetry (PDict d) w = (Raises e, w'))) /\
  (forall decoded,
     dict_get "decoded" d = Some (PDict decoded) ->
     (dict_get "user" decoded = None ->
      exists e w', _process_nodeinfo (PDict d) w = (Raises e, w')) /\
     (dict_get "telemetry" decoded = None ->
      exists e w', _process_device_telemetry (PDict d) w = (Raises e, w'))) /\
  (forall user k,
     user_info_of (PDict d) = Returns (PDict user) ->
     In k ["id"; "longName"; "shortName"; "macaddr"; "hwModel"; "raw"] ->
     dict_get k user = None ->
     exists e w', _process_nodeinfo (PDict d) w = (Raises e, w')) /\
  (forall telemetry,
     telemetry_of (PDict d) = Returns (PDict telemetry) ->
     (dict_get "deviceMetrics" telemetry = None ->
      exists e w', _process_device_telemetry (PDict d) w = (Raises e, w')) /\
     (forall dm k,
        dict_get "deviceMetrics" telemetry = Some (PDict dm) ->
        In k ["batteryLevel"; "voltage"; "airUtilTx"; "uptimeSeconds"] ->
        dict_get k dm = None ->
        exists e w', _process_device_telemetry (PDict d) w = (Raises e, w'))).
Proof.
  assert (Htext : forall record w',
     _process_textmessage (PDict d) w = (Returns record, w') ->
     exists metrics,
       getitem record "from_num" = int_ (getitem (PDict d) "from") /\
       getitem record "to_num" = int_ (getitem (PDict d) "to") /\
       getitem record "metrics" = Returns metrics /\
       getitem metrics "rx_time" = int_ (getitem (PDict d) "rxTime") /\
       getitem metrics "rx_snr" = float_ (get_default (PDict d) "rxSnr" (PInt 0)) /\
       getitem metrics "rx_rssi" = int_ (get_default (PDict d) "rxRssi" (PInt 0)) /\
       getitem metrics "hop_limit" = int_ (get_default (PDict d) "hopLimit" (PInt 3)) /\
       reads_int d "from" record "from_num" /\
       reads_int d "to" record "to_num" /\
       reads_int d "rxTime" metrics "rx_time" /\
       reads_float d "rxSnr" metrics "rx_snr" /\
       reads_int d "rxRssi" metrics "rx_rssi" /\
       reads_int d "hopLimit" metrics "hop_limit").
  { intros record w' H.
    apply _process_textmessage_returns in H as [Hb _].
    apply text_message_of_inv in Hb
      as (? & ? & ? & ? & ? & metrics & ? & Hfrom & _ & Hto & _ & _ & Hm & _ & ->).
    exists metrics.
    pose proof (embedded_metrics_fields _ _ Hm) as (F1 & F2 & F3 & F4).
    pose proof (embedded_metrics_reads _ _ Hm) as (R1 & R2 & R3 & R4).
    repeat split; auto; try (simpl; congruence).
    - now apply int__reads with (1 := Hfrom).
    - now apply int__reads with (1 := Hto). }
  assert (Hnode : forall record w',
     _process_nodeinfo (PDict d) w = (Returns record, w') ->
     exists metrics,
       getitem record "from_num" = int_ (getitem (PDict d) "from") /\
       getitem record "metrics" = Returns metrics /\
       getitem metrics "rx_time" = int_ (getitem (PDict d) "rxTime") /\
       getitem metrics "rx_snr" = float_ (get_default (PDict d) "rxSnr" (PInt 0)) /\
       getitem metrics "rx_rssi" = int_ (get_default (PDict d) "rxRssi" (PInt 0)) /\
       getitem metrics "hop_limit" = int_ (get_default (PDict d) "hopLimit" (PInt 3)) /\
       reads_int d "from" record "from_num" /\
       reads_int d "rxTime" metrics "rx_time" /\
       reads_float d "rxSnr" metrics "rx_snr" /\
       reads_int d "rxRssi" metrics "rx_rssi" /\
       reads_int d "hopLimit" metrics "hop_limit").
  { intros record w' H.
    apply _process_nodeinfo_returns in H as (u & _ & Hb & _).
    apply node_info_of_inv in Hb
      as (? & ? & ? & ? & ? & ? & ? & ? & metrics & ? &
          Hfrom & _ & _ & _ & _ & _ & _ & _ & Hm & _ & ->).
    exists metrics.
    pose proof (embedded_metrics_fields _ _ Hm) as (F1 & F2 & F3 & F4).
    pose proof (embedded_metrics_reads _ _ Hm) as (R1 & R2 & R3 & R4).
    repeat split; auto; try (simpl; congruence).
    now apply int__reads with (1 := Hfrom). }
  assert (Htele : forall record w',
     _process_device_telemetry (PDict d) w = (Returns record, w') ->
     exists telemetry device_metrics,
       telemetry_of (PDict d) = Returns telemetry /\
       getitem record "from_num" = int_ (getitem (PDict d) "from") /\
       getitem record "device_metrics" = Returns device_metrics /\
       getitem device_metrics "battery_level"
         = int_ (device_metric telemetry "batteryLevel") /\
       getitem device_metrics "voltage" = float_ (device_metric telemetry "voltage") /\
       getitem device_metrics "channel_utilization"
         = float_ (let! dm := getitem telemetry "deviceMetrics" in
                   get_default dm "channelUtilization" (PFloat (S754_zero false))) /\
       getitem device_metrics "air_util_tx"
         = float_ (device_metric telemetry "airUtilTx") /\
       getitem device_metrics "uptime_seconds"
         = int_ (device_metric telemetry "uptimeSeconds") /\
       getitem record "metrics" = _extract_metrics (PDict d) /\
       reads_int d "from" record "from_num" /\
       (forall dm, getitem telemetry "deviceMetrics" = Returns (PDict dm) ->
          reads_int dm "batteryLevel" device_metrics "battery_level" /\
          reads_float dm "voltage" device_metrics "voltage" /\
          reads_float dm "channelUtilization" device_metrics "channel_utilization" /\
          reads_float dm "airUtilTx" device_metrics "air_util_tx" /\
          reads_int dm "uptimeSeconds" device_metrics "uptime_seconds")).
  { intros record w' H.
    apply _process_device_telemetry_returns in H as (t & Ht & Hb & _).
    apply device_telemetry_of_inv in Hb
      as (? & ? & ? & ? & ? & ? & ? & ? & ? &
          H1 & _ & H2 & H3 & H4 & H5 & H6 & H7 & _ & ->).
    exists t. eexists.
    split; [exact Ht|]. split; [now rewrite H1|]. split; [reflexivity|].
    split; [now rewrite H2|]. split; [now rewrite H3|].
    split; [now rewrite H4|]. split; [now rewrite H5|].
    split; [now rewrite H6|]. split; [now rewrite H7|].
    split; [now apply int__reads with (1 := H1)|].
    intros dm Hdm. unfold device_metric in H2, H3, H5, H6.
    rewrite Hdm in H2, H3, H4, H5, H6. cbn [obind] in H2, H3, H4, H5, H6.
    split; [now apply int__reads with (1 := H2)|].
    split; [now apply float__item_reads with (1 := H3)|].
    split; [now apply float__reads with (1 := H4)|].
    split; [now apply float__item_reads with (1 := H5)|].
    now apply int__reads with (1 := H6). }
  split; [exact Htext|]. split; [exact Hnode|]. split; [exact Htele|].
  split; [|split; [|split; [|split; [|split; [|split; [|split; [|split]]]]]]].
  - intros s Hs Hnone.
    split; [|split]; apply returns_or_raises; intros record w' H.
    + apply Htext in H as (metrics & H). decompose [and] H.
      match goal with Hr : reads_int d "from" record "from_num" |- _ =>
        destruct (Hr s Hs) as (z & Hz & _) end. congruence.
    + apply Hnode in H as (metrics & H). decompose [and] H.
      match goal with Hr : reads_int d "from" record "from_num" |- _ =>
        destruct (Hr s Hs) as (z & Hz & _) end. congruence.
    + apply Htele in H as (t & dm & H). decompose [and] H.
      match goal with Hr : reads_int d "from" record "from_num" |- _ =>
        destruct (Hr s Hs) as (z & Hz & _) end. congruence.
  - intros metrics H. unfold _extract_metrics in H. repeat inv_step H.
    injection H as <-. repeat split; auto.
  - intros Hnone. unfold _extract_metrics, getitem. rewrite Hnone. simpl. eauto.
  - intros k Hk Hnone. apply returns_or_raises. intros record w' H.
    apply _process_textmessage_returns in H as [Hb _].
    apply text_message_of_inv in Hb
      as (? & ? & ? & ? & ? & metrics & ? & Hfrom & HfromId & Hto & HtoId & Htxt & Hm & Hraw & _).
    apply embedded_metrics_inv in Hm as (? & ? & ? & ? & Hrx & _).
    apply int__present in Hfrom, Hto, Hrx. apply str__present in HfromId, HtoId, Hraw.
    apply str__inv in Htxt as (? & Htxt & _).
    assert (dict_get "decoded" d <> None) as Hdec.
    { now apply obind_present in Htxt. }
    simpl in Hk. intuition (subst; contradiction).
  - intros decoded Hdec Hnone. apply returns_or_raises. intros record w' H.
    apply _process_textmessage_returns in H as [Hb _].
    apply text_message_of_inv in Hb
      as (? & ? & ? & ? & ? & metrics & ? & _ & _ & _ & _ & Htxt & _).
    apply str__inv in Htxt as (? & Htxt & _).
    unfold getitem at 1 in Htxt. rewrite Hdec in Htxt. cbn [obind] in Htxt.
    apply getitem_present in Htxt. congruence.
  - intros k Hk Hnone. split; apply returns_or_raises; intros record w' H.
    + apply _process_nodeinfo_returns in H as (u & Hu & Hb & _).
      apply node_info_of_inv in Hb
        as (? & ? & ? & ? & ? & ? & ? & ? & metrics & ? &
            Hfrom & HfromId & _ & _ & _ & _ & _ & _ & Hm & Hraw & _).
      apply embedded_metrics_inv in Hm as (? & ? & ? & ? & Hrx & _).
      apply int__present in Hfrom, Hrx. apply str__present in HfromId, Hraw.
      assert (dict_get "decoded" d <> None) as Hdec.
      { unfold user_info_of in Hu. now apply obind_present in Hu. }
      simpl in Hk. intuition (subst; contradiction).
    + apply _process_device_telemetry_returns in H as (t & Ht & Hb & _).
      apply device_telemetry_of_inv in Hb
        as (? & ? & ? & ? & ? & ? & ? & metrics & ? &
            Hfrom & HfromId & _ & _ & _ & _ & _ & Hm & Hraw & _).
      apply int__present in Hfrom. apply str__present in HfromId, Hraw.
      assert (dict_get "rxTime" d <> None) as Hrx.
      { unfold _extract_metrics in Hm. now apply obind_present in Hm. }
      assert (dict_get "decoded" d <> None) as Hdec.
      { unfold telemetry_of in Ht. now apply obind_present in Ht. }
      simpl in Hk. intuition (subst; contradiction).
  - intros decoded Hdec. split; intros Hnone; apply returns_or_raises; intros record w' H.
    + apply _process_nodeinfo_returns in H as (u & Hu & _).
      unfold user_info_of, getitem at 1 in Hu. rewrite Hdec in Hu. cbn [obind] in Hu.
      apply obind_present in Hu. contradiction.
    + apply _process_device_telemetry_returns in H as (t & Ht & _).
      unfold telemetry_of, getitem at 1 in Ht. rewrite Hdec in Ht. cbn [obind] in Ht.
      apply getitem_present in Ht. congruence.
  - intros user k Hu Hk Hnone. apply returns_or_raises. intros record w' H.
    apply _process_nodeinfo_returns in H as (u & Hu' & Hb & _).
    rewrite Hu in Hu'. injection Hu' as <-.
    apply node_info_of_inv in Hb
      as (? & ? & ? & ? & ? & ? & ? & ? & metrics & ? &
          _ & _ & H1 & H2 & H3 & H4 & H5 & H6 & _).
    apply str__present in H1, H2, H3, H4, H5, H6.
    simpl in Hk. intuition (subst; contradiction).
  - intros telemetry Ht. split.
    + intros Hnone. apply returns_or_raises. intros record w' H.
      apply _process_device_telemetry_returns in H as (t & Ht' & Hb & _).
      rewrite Ht in Ht'. injection Ht' as <-.
      apply device_telemetry_of_inv in Hb
        as (? & ? & ? & ? & ? & ? & ? & ? & ? & _ & _ & H1 & _).
      apply int__inv in H1 as (v & z & H1 & _).
      unfold device_metric in H1. apply obind_present in H1. contradiction.
    + intros dm k Hdm Hk Hnone. apply returns_or_raises. intros record w' H.
      apply _process_device_telemetry_returns in H as (t & Ht' & Hb & _).
      rewrite Ht in Ht'. injection Ht' as <-.
      assert (Hg : getitem (PDict telemetry) "deviceMetrics" = Returns (PDict dm)).
      { unfold getitem. now rewrite Hdm. }
      apply device_telemetry_of_inv in Hb
        as (? & ? & ? & ? & ? & ? & ? & ? & ? & _ & _ & H1 & H2 & _ & H3 & H4 & _).
      apply int__inv in H1 as (v1 & ? & H1 & _), H4 as (v4 & ? & H4 & _).
      apply float__inv in H2 as (v2 & ? & H2 & _), H3 as (v3 & ? & H3 & _).
      apply (device_metric_present _ _ _ _ Hg) in H1, H2, H3, H4.
      simpl in Hk. intuition (subst; congruence).
Qed.

(* ----------------------------------------------------------------- *)
(** *** The display formatters *)



(** Formatting the items before one on which the formatter raises, all of
    which it returns from, ends in that exception. *)
Lemma format_each_raises (format : string -> M R pyval) (e : exn)
    (pre : list string) (item : string) (post : list string) :
  (forall w, format item w = (Raises e, w)) ->
  (forall i, In i pre -> forall w, exists v w', format i w = (Returns v, w')) ->
  forall formatted w,
    exists w', format_each format (pre ++ item :: post) formatted w = (Raises e, w').
Proof.
  intros Hitem. induction pre as [|i pre IH]; intros Hpre formatted w; simpl.
  - unfold bind. rewrite Hitem. eauto.
  - unfold bind. destruct (Hpre i (or_introl eq_refl) w) as (v & w' & ->).
    apply IH. intros j Hj. apply Hpre. now right.
Qed.

Lemma find_first_missing (keys : list string) (d : pydict) (k : string) :
  first_missing keys d = Some k -> dict_get k d = None.
Proof.
  unfold first_missing. intros H. apply find_some in H as [_ H].
  now destruct (dict_get k d).
Qed.

Lemma format_message_missing (json_str : string) (d : pydict) (k : string) (w : world R) :
  json_loads json_str = Returns (PDict d) ->
  first_missing ["timestamp"; "from_id"; "to_id"; "text"] d = Some k ->
  format_message_for_display json_str w = (Raises (mk_exn KeyError k), w).
Proof.
  intros Hl Hk.
  unfold format_message_for_display, try_except, bind, lift, ret. rewrite Hl.
  unfold first_missing in Hk. simpl in Hk. unfold getitem.
  destruct (dict_get "timestamp" d); [|injection Hk as <-; reflexivity].
  destruct (dict_get "from_id" d); [|injection Hk as <-; reflexivity].
  destruct (dict_get "to_id" d); [|injection Hk as <-; reflexivity].
  destruct (dict_get "text" d); [discriminate|injection Hk as <-; reflexivity].
Qed.

Lemma format_node_missing (json_str : string) (d : pydict) (k : string) (w : world R) :
  json_loads json_str = Returns (PDict d) ->
  node_missing d = Some k ->
  format_node_for_display json_str w = (Raises (mk_exn KeyError k), w).
Proof.
  intros Hl Hk.
  unfold format_node_for_display, try_except, bind, lift, ret. rewrite Hl.
  unfold node_missing, first_missing in Hk. simpl in Hk. unfold getitem.
  destruct (dict_get "timestamp" d); [|injection Hk as <-; reflexivity].
  destruct (dict_get "from_id" d); [|injection Hk as <-; reflexivity].
  destruct (dict_get "user" d) as [user|]; [|injection Hk as <-; reflexivity].
  simpl in *. destruct user; try discriminate.
  destruct (dict_get "long_name" entries); [discriminate|injection Hk as <-; reflexivity].
Qed.

(** C10.  When the text parses to a dictionary that lacks one of the
    fields a formatter looks up, [k] being the first that is missing, the
    formatter raises [KeyError(k)]: its only [except] clause is for
    [JSONDecodeError].  When the collaborator hands over a list in which
    that text comes after items the formatter returns from, the listing
    method ends in the same [KeyError]. *)
Theorem display_missing_field_propagates (json_str : string) (d : pydict)
    (k : string) (w : world R) :
  json_loads json_str = Returns (PDict d) ->
  (first_missing ["timestamp"; "from_id"; "to_id"; "text"] d = Some k ->
   isinstance (mk_exn KeyError k) JSONDecodeError = false /\
   format_message_for_display json_str w = (Raises (mk_exn KeyError k), w) /\
   forall limit pre post r',
     load_messages limit (storage w) = (Returns (pre ++ json_str :: post), r') ->
     (forall i, In i pre ->
        forall w0 : world R, exists v w1, format_message_for_display i w0 = (Returns v, w1)) ->
     exists w', get_formatted_messages limit w = (Raises (mk_exn KeyError k), w')) /\
  (node_missing d = Some k ->
   format_node_for_display json_str w = (Raises (mk_exn KeyError k), w) /\
   forall limit pre post r',
     load_nodes limit (storage w) = (Returns (pre ++ json_str :: post), r') ->
     (forall i, In i pre ->
        forall w0 : world R, exists v w1, format_node_for_display i w0 = (Returns v, w1)) ->
     exists w', get_formatted_nodes limit w = (Raises (mk_exn KeyError k), w')).
Proof.
  intros Hl. split.
  - intros Hk. split; [reflexivity|]. split; [now apply format_message_missing with d|].
    intros limit pre post r' Hload Hpre.
    unfold get_formatted_messages, redis_load_messages, redis_call, bind, logger, emit.
    simpl. rewrite Hload. simpl.
    apply format_each_raises; auto.
    intros w0. now apply format_message_missing with d.
  - intros Hk. split; [now apply format_node_missing with d|].
    intros limit pre post r' Hload Hpre.
    unfold get_formatted_nodes, redis_load_nodes, redis_call, bind, logger, emit.
    simpl. rewrite Hload. simpl.
    apply format_each_raises; auto.
    intros w0. now apply format_node_missing with d.
Qed.


End Runs.

(* ================================================================= *)
(** ** The theorems at work on concrete packets *)

(** The text message, from the radio to the store. *)
Example text_packet_stored :
  @process_packet cpython _ MemoryRedis.handler text_packet "text" world0 =
  (Returns tt,
   mk_world (MemoryRedis.mk_db [] [stored_text]) 1%nat
     [Log DEBUG [Lit "Processing "; Val (PStr "text"); Lit " packet"] false;
      Validate text_record TextMessage (Returns tt);
      Log DEBUG [Lit "Validated text_message structure: "; Val text_record] false;
      StoreMessage stored_text;
      Log INFO [Lit "Stored text message from "; Val (PStr "!12345678")] false;
      Log INFO [Lit "["; Val (PStr "T0"); Lit "] "; Val (PStr "!12345678");
                Lit " -> "; Val (PStr "^all"); Lit ": "; Val (PStr "hello mesh")] false]).
Proof. vm_compute. reflexivity. Qed.

(** The same message when the store is down: logged, not raised. *)
Example text_packet_store_down :
  fst (@process_packet cpython _ MemoryRedis.failing text_packet "text" world0)
    = Returns tt /\
  last (journal (snd (@process_packet cpython _ MemoryRedis.failing text_packet "text"
                        world0)))
       (Log DEBUG [] false)
    = packet_failure "text" (mk_exn (Custom "ConnectionError" Exception) "store_message").
Proof. split; vm_compute; reflexivity. Qed.

(** C1 as stated fails when the task is cancelled at the [await] of the
    write: [CancelledError] is no instance of [Exception], the [except]
    clause does not take it, and [process_packet] raises it, the message
    validated and the write journalled. *)
Lemma process_packet_swallows_counterexample :
  @process_packet cpython _ cancelled text_packet "text" world0 =
  (Raises (mk_exn CancelledError "store_message"),
   mk_world MemoryRedis.empty 1%nat
     [Log DEBUG [Lit "Processing "; Val (PStr "text"); Lit " packet"] false;
      Validate text_record TextMessage (Returns tt);
      Log DEBUG [Lit "Validated text_message structure: "; Val text_record] false;
      StoreMessage stored_text]) /\
  isinstance (mk_exn CancelledError "store_message") Exception = false.
Proof. split; vm_compute; reflexivity. Qed.

Lemma process_packet_swallows_witness :
  (exists w',
     @process_packet cpython _ MemoryRedis.failing text_packet "text" world0
     = (Returns tt,
        journalled w'
          [packet_failure "text"
             (mk_exn (Custom "ConnectionError" Exception) "store_message")])) /\
  isinstance (mk_exn CancelledError "store_message") Exception = false.
Proof.
  split.
  - destruct (@process_packet_swallows cpython _ MemoryRedis.failing text_packet "text"
                world0) as (_ & Hcaught & _).
    eexists. apply Hcaught; vm_compute; reflexivity.
  - destruct (@process_packet_swallows cpython _ cancelled text_packet "text" world0)
      as (_ & _ & Hraised).
    eapply Hraised. vm_compute. reflexivity.
Defined.

Lemma text_packet_run :
  @_process_textmessage cpython _ text_packet world0 =
  (Returns text_record,
   mk_world MemoryRedis.empty 1%nat
     [Validate text_record TextMessage (Returns tt);
      Log DEBUG [Lit "Validated text_message structure: "; Val text_record] false]).
Proof. vm_compute. reflexivity. Qed.

Lemma stored_text_loads : @json_loads cpython stored_text = Returns text_record.
Proof. vm_compute. reflexivity. Qed.

Lemma stored_text_dumps : @json_dumps cpython text_record = Returns stored_text.
Proof. vm_compute. reflexivity. Qed.

Lemma _extract_metrics_defaults_witness :
  _extract_metrics (PDict [("rxSnr", PInt 5)]) = raise KeyError "rxTime" /\
  _extract_metrics (PDict [("rxTime", PInt 7); ("hopLimit", PInt 1)]) =
    Returns (PDict [("rx_time", PInt 7); ("rx_snr", PNone);
                    ("rx_rssi", PNone); ("hop_limit", PInt 1)]).
Proof.
  split.
  - apply (proj1 (proj2 (_extract_metrics_defaults [("rxSnr", PInt 5)]))). reflexivity.
  - apply (proj2 (proj2 (_extract_metrics_defaults
                           [("rxTime", PInt 7); ("hopLimit", PInt 1)])) (PInt 7)).
    reflexivity.
Defined.

Lemma node_packet_run :
  @_process_nodeinfo cpython _ node_packet world0 =
  (Returns node_record,
   mk_world MemoryRedis.empty 1%nat
     [Validate node_record NodeInfo (Returns tt);
      Log DEBUG [Lit "Validated node_info structure: "; Val node_record] false]).
Proof. vm_compute. reflexivity. Qed.

Lemma embedded_metrics_default_to_zero_witness :
  (fst (@_process_textmessage cpython _ text_packet world0) = Returns text_record /\
   exists metrics,
     getitem text_record "metrics" = Returns metrics /\
     getitem metrics "rx_snr" = Returns (PFloat (S754_zero false)) /\
     getitem metrics "rx_rssi" = Returns (PInt 0)) /\
  (fst (@_process_nodeinfo cpython _ node_packet world0) = Returns node_record /\
   exists metrics,
     getitem node_record "metrics" = Returns metrics /\
     getitem metrics "rx_snr" = Returns (PFloat (S754_zero false)) /\
     getitem metrics "rx_rssi" = Returns (PInt 0)).
Proof.
  split.
  - destruct (@embedded_metrics_default_to_zero cpython _ (fields_of text_packet)
                world0 eq_refl eq_refl) as (Hreturns & _ & Hzero & _).
    split.
    + exact (Hreturns (PInt 305419896) (PStr "!12345678") (PInt 4294967295) (PStr "^all")
               (PDict [("portnum", PStr "TEXT_MESSAGE_APP"); ("text", PStr "hello mesh")])
               (PStr "hello mesh") (PInt 1700000000) (PObj "from: 305419896 to: 4294967295")
               305419896 4294967295 1700000000 2
               eq_refl eq_refl eq_refl eq_refl eq_refl eq_refl eq_refl eq_refl eq_refl
               eq_refl eq_refl eq_refl eq_refl).
    + exact (Hzero text_record _ text_packet_run).
  - destruct (@embedded_metrics_default_to_zero cpython _ (fields_of node_packet)
                world0 eq_refl eq_refl) as (_ & Hreturns & _ & Hzero & _).
    split.
    + exact (Hreturns (PInt 305419896) (PStr "!12345678")
               (PDict [("portnum", PStr "NODEINFO_APP");
                       ("user", PDict [("id", PStr "!12345678");
                                       ("longName", PStr "Base Camp");
                                       ("shortName", PStr "BC");
                                       ("macaddr", PStr "qrvM3e7/");
                                       ("hwModel", PStr "TBEAM");
                                       ("raw", PObj "id: !12345678")])])
               (PDict [("id", PStr "!12345678");
                       ("longName", PStr "Base Camp");
                       ("shortName", PStr "BC");
                       ("macaddr", PStr "qrvM3e7/");
                       ("hwModel", PStr "TBEAM");
                       ("raw", PObj "id: !12345678")])
               [("id", PStr "!12345678");
                ("longName", PStr "Base Camp");
                ("shortName", PStr "BC");
                ("macaddr", PStr "qrvM3e7/");
                ("hwModel", PStr "TBEAM");
                ("raw", PObj "id: !12345678")]
               (PStr "!12345678") (PStr "Base Camp") (PStr "BC") (PStr "qrvM3e7/")
               (PStr "TBEAM") (PObj "id: !12345678") (PInt 1700000000)
               (PObj "from: 305419896") 305419896 1700000000 3
               eq_refl eq_refl eq_refl eq_refl eq_refl eq_refl eq_refl eq_refl eq_refl
               eq_refl eq_refl eq_refl eq_refl eq_refl eq_refl eq_refl eq_refl).
    + exact (Hzero node_record _ node_packet_run).
Defined.

Lemma nameless_nodeinfo_not_stored_witness :
  (exists e w', @_process_nodeinfo cpython _ nameless_packet world0 = (Raises e, w')) /\
  exists new,
    fst (@process_packet cpython _ MemoryRedis.handler nameless_packet "node" world0)
      = Returns tt /\
    storage (snd (@process_packet cpython _ MemoryRedis.handler nameless_packet "node" world0))
      = MemoryRedis.empty /\
    journal (snd (@process_packet cpython _ MemoryRedis.handler nameless_packet "node" world0))
      = new /\
    forall payload, ~ In (StoreNode payload) new /\ ~ In (StoreMessage payload) new.
Proof.
  assert (lacks : forall d, user_info_of nameless_packet = Returns (PDict d) ->
                            dict_get "longName" d = None).
  { intros d H. vm_compute in H. injection H as <-. reflexivity. }
  destruct (@nameless_nodeinfo_not_stored cpython _ MemoryRedis.handler
              nameless_packet "node" world0 lacks) as [Hraises Hquiet].
  split; [exact Hraises|].
  destruct (Hquiet (PDict [("portnum", PStr "NODEINFO_APP");
                           ("user", PDict [("id", PStr "!12345678");
                                           ("shortName", PStr "BC");
                                           ("macaddr", PStr "qrvM3e7/");
                                           ("hwModel", PStr "TBEAM");
                                           ("raw", PObj "id: !12345678")])])
              eq_refl eq_refl) as (new & H1 & H2 & H3 & H4).
  exists new. auto.
Defined.

Lemma process_packet_unknown_portnum_witness :
  @process_packet cpython _ MemoryRedis.handler waypoint_packet "waypoint" world0 =
  (Returns tt,
   mk_world MemoryRedis.empty O
     [Log DEBUG [Lit "Processing "; Val (PStr "waypoint"); Lit " packet"] false;
      Log WARNING [Lit "Unknown packet type: "; Val (PStr "WAYPOINT_APP")] false]).
Proof.
  apply (@process_packet_unknown_portnum cpython _ MemoryRedis.handler
           waypoint_packet "waypoint" world0
           (PDict [("portnum", PStr "WAYPOINT_APP")]) (PStr "WAYPOINT_APP"));
    [reflexivity | reflexivity | discriminate | discriminate].
Defined.




Lemma numeric_fields_coerced_witness :
  (exists record w' device_metrics,
     @_process_device_telemetry cpython _ telemetry_packet world0 = (Returns record, w') /\
     getitem record "from_num" = Returns (PInt 305419896) /\
     getitem record "device_metrics" = Returns device_metrics /\
     getitem device_metrics "battery_level" = Returns (PInt 87) /\
     getitem record "metrics" = _extract_metrics telemetry_packet) /\
  (exists e w', @_process_nodeinfo cpython _ unreadable_sender_packet world0
                = (Raises e, w')) /\
  (exists e w', @_process_nodeinfo cpython _ nameless_packet world0 = (Raises e, w')).
Proof.
  split; [|split].
  - destruct (@_process_device_telemetry cpython _ telemetry_packet world0)
      as [[record|e] w'] eqn:E; [|vm_compute in E; discriminate].
    destruct (proj1 (proj2 (proj2 (@numeric_fields_coerced cpython _
                                     (fields_of telemetry_packet) world0))) record w' E)
      as (telemetry & dm & Ht & _ & Hdm & _ & _ & _ & _ & _ & Hm & Hfrom & Hmetrics).
    exists record, w', dm. split; [reflexivity|].
    destruct (Hfrom "305419896" eq_refl) as (z & Hz & Hrecord).
    vm_compute in Hz. injection Hz as <-.
    vm_compute in Ht. injection Ht as <-.
    destruct (Hmetrics _ eq_refl) as (Hbattery & _).
    destruct (Hbattery "87" eq_refl) as (z & Hz & Hlevel).
    vm_compute in Hz. injection Hz as <-.
    auto.
  - destruct (@numeric_fields_coerced cpython _ (fields_of unreadable_sender_packet)
                world0) as (_ & _ & _ & Hunreadable & _).
    apply (Hunreadable "abc" eq_refl eq_refl).
  - destruct (@numeric_fields_coerced cpython _ (fields_of nameless_packet) world0)
      as (_ & _ & _ & _ & _ & _ & _ & _ & _ & _ & Huser & _).
    apply (Huser [("id", PStr "!12345678");
                  ("shortName", PStr "BC");
                  ("macaddr", PStr "qrvM3e7/");
                  ("hwModel", PStr "TBEAM");
                  ("raw", PObj "id: !12345678")] "longName");
      [reflexivity | simpl; auto | reflexivity].
Defined.

(** C8 as stated fails in [_extract_metrics]: a reception time that comes
    as text stays text in the metrics, though [int] would read it. *)
Lemma numeric_fields_coerced_counterexample :
  _extract_metrics (PDict [("rxTime", PStr "100")]) =
    Returns (PDict [("rx_time", PStr "100"); ("rx_snr", PNone);
                    ("rx_rssi", PNone); ("hop_limit", PInt 3)]) /\
  @py_int cpython (PStr "100") = Returns 100 /\
  getitem (PDict [("rx_time", PStr "100"); ("rx_snr", PNone);
                  ("rx_rssi", PNone); ("hop_limit", PInt 3)]) "rx_time"
    <> Returns (PInt 100).
Proof.
  split; [reflexivity|]. split; [reflexivity|]. discriminate.
Qed.



Lemma display_missing_field_propagates_witness :
  (exists w', @get_formatted_messages cpython _ MemoryRedis.handler (-1) world1
              = (Raises (mk_exn KeyError "timestamp"), w')) /\
  (exists w', @get_formatted_nodes cpython _ MemoryRedis.handler (-1) world1
              = (Raises (mk_exn KeyError "timestamp"), w')).
Proof.
  destruct (@display_missing_field_propagates cpython _ MemoryRedis.handler
              "{}" [] "timestamp" world1 eq_refl) as [Hm Hn].
  split.
  - destruct (Hm eq_refl) as (_ & _ & H).
    apply (H (-1) [stored_text] [] (storage world1) eq_refl).
    intros i [<-|[]] w0.
    unfold format_message_for_display, try_except, bind, lift, ret.
    rewrite stored_text_loads. simpl. eauto.
  - destruct (Hn eq_refl) as (_ & H).
    apply (H (-1) [] [] (storage world1) eq_refl).
    intros i [].
Defined.

(* ================================================================= *)
(** * Further properties of the handler *)

Section Extras.
Context {L : PyLib} {R : Type} {RH : RedisHandler R}.

Lemma calls_app (a b : list event) : calls (a ++ b) = calls a ++ calls b.
Proof. apply filter_app. Qed.

Lemma same_calls_refl (w : world R) : same_calls w w.
Proof. repeat split. Qed.

Lemma blind_ret {A : Type} (a : A) : log_blind (R := R) (ret a) (ret a).
Proof. intros w w' H. split; [reflexivity | exact H]. Qed.

Lemma blind_lift {A : Type} (o : outcome A) : log_blind (R := R) (lift o) (lift o).
Proof. intros w w' H. split; [reflexivity | exact H]. Qed.

Lemma blind_reraise {A : Type} (e : exn) :
  log_blind (R := R) (A := A) (reraise e) (reraise e).
Proof. intros w w' H. split; [reflexivity | exact H]. Qed.

Lemma blind_bind {A B : Type} (m m' : M R A) (k k' : A -> M R B) :
  log_blind m m' -> (forall a, log_blind (k a) (k' a)) ->
  log_blind (bind m k) (bind m' k').
Proof.
  intros Hm Hk w w' H. unfold bind.
  destruct (Hm w w' H) as [Ho Hw].
  destruct (m w) as [[a|e] w1], (m' w') as [[a'|e'] w1']; simpl in *; try discriminate.
  - injection Ho as <-. now apply Hk.
  - injection Ho as <-. auto.
Qed.

Lemma blind_logger (lvl lvl' : level) (msg msg' : list piece) (b b' : bool) :
  log_blind (R := R) (logger lvl msg b) (logger lvl' msg' b').
Proof.
  intros w w' (Hs & Hc & Hj). unfold logger, emit, same_calls.
  cbn [fst snd storage clock journal].
  repeat split; auto. now rewrite !calls_app, Hj.
Qed.

Lemma blind_emit (ev : event) : log_blind (R := R) (emit ev) (emit ev).
Proof.
  intros w w' (Hs & Hc & Hj). unfold emit, same_calls.
  cbn [fst snd storage clock journal].
  repeat split; auto. now rewrite !calls_app, Hj.
Qed.

Lemma blind_now : log_blind (R := R) now_isoformat now_isoformat.
Proof.
  intros w w' (Hs & Hc & Hj). unfold now_isoformat. simpl.
  rewrite Hc. repeat split; auto.
Qed.

Lemma blind_validate (record : pyval) (shape : typed_dict) :
  log_blind (R := R) (validate record shape) (validate record shape).
Proof.
  unfold validate. apply blind_bind; [apply blind_emit | intros; apply blind_lift].
Qed.

Lemma blind_redis_call {A : Type} (ev : event) (call : R -> outcome A * R) :
  log_blind (redis_call ev call) (redis_call ev call).
Proof.
  unfold redis_call. apply blind_bind; [apply blind_emit|]. intros _.
  intros w w' (Hs & Hc & Hj). rewrite Hs.
  destruct (call (storage w')) as [res r']. simpl. repeat split; auto.
Qed.

Lemma blind_try {A : Type} (body body' : M R A)
    (clauses clauses' : list (exn_class * (exn -> M R A))) :
  log_blind body body' ->
  Forall2 (fun cl cl' => fst cl = fst cl' /\ forall e, log_blind (snd cl e) (snd cl' e))
          clauses clauses' ->
  log_blind (try_except body clauses) (try_except body' clauses').
Proof.
  intros Hb Hc w w' H. unfold try_except.
  destruct (Hb w w' H) as [Ho Hw].
  destruct (body w) as [[a|e] w1], (body' w') as [[a'|e'] w1']; simpl in *; try discriminate.
  - injection Ho as <-. auto.
  - injection Ho as <-.
    induction Hc as [|[c h] [c' h'] cls cls' [Hcl Hh] _ IH]; simpl in *; auto.
    subst c'. destruct (isinstance e c); [now apply Hh | exact IH].
Qed.

Ltac blind :=
  repeat first
    [ apply blind_ret | apply blind_lift | apply blind_reraise | apply blind_logger
    | apply blind_now | apply blind_validate | apply blind_redis_call
    | apply blind_bind; [|intros ?]
    | apply blind_try;
      [ | repeat (apply Forall2_cons; [split; [reflexivity | intros ?] | ]);
          try apply Forall2_nil ]
    | match goal with |- log_blind (if ?c then _ else _) (if ?c then _ else _) =>
        destruct c end ].

Lemma blind_process_nodeinfo (packet : pyval) :
  log_blind (R := R) (_process_nodeinfo packet) (_process_nodeinfo packet).
Proof. unfold _process_nodeinfo. blind. Qed.

Lemma blind_process_textmessage (packet : pyval) :
  log_blind (R := R) (_process_textmessage packet) (_process_textmessage packet).
Proof. unfold _process_textmessage. blind. Qed.

Lemma blind_process_packet (packet : pyval) (t t' : string) :
  log_blind (process_packet packet t) (process_packet packet t').
Proof.
  unfold process_packet, process_packet_try, redis_store_node, redis_store_message.
  blind; try apply blind_process_nodeinfo; try apply blind_process_textmessage.
Qed.

(** X1.  The hint [packet_type] only reaches the log.  Whatever two hints
    are given for one packet in one world, [process_packet] ends with the
    same storage and the same clock, and with the same calls of the
    validator and of the storage collaborator in the journal, in the same
    order. *)
Theorem process_packet_hint_only_logged (packet : pyval) (t t' : string) (w : world R) :
  fst (process_packet packet t w) = fst (process_packet packet t' w) /\
  storage (snd (process_packet packet t w)) = storage (snd (process_packet packet t' w)) /\
  clock (snd (process_packet packet t w)) = clock (snd (process_packet packet t' w)) /\
  calls (journal (snd (process_packet packet t w)))
    = calls (journal (snd (process_packet packet t' w))).
Proof.
  destruct (blind_process_packet packet t t' w w (same_calls_refl w)) as (Ho & Hs & Hc & Hj).
  auto.
Qed.


Lemma eq_str_true (v : pyval) (s : string) : eq_str v s = true -> v = PStr s.
Proof.
  destruct v; simpl; try discriminate. intros H. apply String.eqb_eq in H. now subst.
Qed.

Lemma caught_calls (failure : exn -> event) (e : exn) :
  (forall e, is_log (failure e) = true) -> calls (caught failure e) = [].
Proof.
  intros Hlog. unfold caught, calls.
  destruct (isinstance e Exception); simpl; auto. now rewrite Hlog.
Qed.

(** The calls that the common tail of the normalisers journals: none when
    the display raised, one call of the validator otherwise. *)
Lemma checked_calls (built : outcome pyval) (shape : typed_dict) (success : string)
    (failure : exn -> event) (w : world R) :
  (forall e, is_log (failure e) = true) ->
  exists new,
    snd (checked built shape success failure w) = journalled w new /\
    match fst (checked built shape success failure w) with
    | Returns record =>
        built = Returns record /\
        calls new = [Validate record shape (Returns tt)]
    | Raises e =>
        (built = Raises e /\ calls new = []) \/
        (exists record, built = Returns record /\
                        calls new = [Validate record shape (Raises e)])
    end.
Proof.
  intros Hlog. unfold checked.
  destruct built as [record|e].
  - destruct (validate_typed_dict record shape) as [[]|e] eqn:V.
    + eexists; split; [reflexivity|]. simpl. auto.
    + eexists; split; [reflexivity|]. simpl. right. exists record.
      fold (calls (caught failure e)). rewrite (caught_calls failure e Hlog). auto.
  - eexists; split; [reflexivity|]. simpl. left.
    rewrite (caught_calls failure e Hlog). auto.
Qed.

Lemma node_failure_log (e : exn) : is_log (node_failure e) = true.
Proof. unfold node_failure. now destruct (isinstance e ValueError). Qed.

Lemma _process_nodeinfo_calls (packet : pyval) (w : world R) :
  exists new,
    storage (snd (_process_nodeinfo packet w)) = storage w /\
    journal (snd (_process_nodeinfo packet w)) = journal w ++ new /\
    match fst (_process_nodeinfo packet w) with
    | Returns record => calls new = [Validate record NodeInfo (Returns tt)]
    | Raises e =>
        calls new = [] \/ exists record, calls new = [Validate record NodeInfo (Raises e)]
    end.
Proof.
  rewrite _process_nodeinfo_run.
  destruct (user_info_of packet) as [u|e].
  - destruct (checked_calls (node_info_of packet u (PStr (isoformat (clock w))))
                NodeInfo "Validated node_info structure: " node_failure (tick w)
                node_failure_log) as (new & Hw & Hc).
    exists new. rewrite Hw. simpl. repeat split; auto.
    destruct (fst (checked _ _ _ _ _)); [tauto|].
    destruct Hc as [[_ ?]|(r & _ & ?)]; eauto.
  - exists (caught node_failure e). simpl. repeat split; auto.
    left. apply caught_calls, node_failure_log.
Qed.

Lemma _process_textmessage_calls (packet : pyval) (w : world R) :
  exists new,
    storage (snd (_process_textmessage packet w)) = storage w /\
    journal (snd (_process_textmessage packet w)) = journal w ++ new /\
    match fst (_process_textmessage packet w) with
    | Returns record => calls new = [Validate record TextMessage (Returns tt)]
    | Raises e =>
        calls new = [] \/
        exists record, calls new = [Validate record TextMessage (Raises e)]
    end.
Proof.
  rewrite _process_textmessage_run.
  destruct (checked_calls (text_message_of packet (PStr (isoformat (clock w))))
              TextMessage "Validated text_message structure: " text_failure (tick w)
              (fun _ => eq_refl)) as (new & Hw & Hc).
  exists new. rewrite Hw. simpl. repeat split; auto.
  destruct (fst (checked _ _ _ _ _)); [tauto|].
  destruct Hc as [[_ ?]|(r & _ & ?)]; eauto.
Qed.

Arguments _process_nodeinfo : simpl never.
Arguments _process_textmessage : simpl never.

Ltac run_step :=
  match goal with
  | |- context [match ?o with Returns _ => _ | Raises _ => _ end] =>
      destruct o eqn:?; simpl
  end.

(** The journal of a leaf of [process_packet]: the debug record, the
    normaliser's events, and what came after. *)
Ltac leaf Hj Hc :=
  try match goal with
      | |- context [isinstance ?e Exception] => destruct (isinstance e Exception)
      end;
  (eexists; split;
   [ simpl; rewrite ?Hj, <- ?app_assoc; reflexivity
   | simpl; rewrite ?calls_app, ?Hc; simpl; eauto 12 ]).

(** X2.  The calls that one [process_packet] makes are of one of five
    shapes: none; one call of the validator, for [NodeInfo] when the
    discriminator is ['NODEINFO_APP'] and for [TextMessage] when it is
    ['TEXT_MESSAGE_APP']; or that call, returned, followed by one
    [store_node], resp. [store_message], of the serialised record.  So a
    packet is validated at most once and written at most once, through the
    method of its discriminator, and the storage is never read. *)
Theorem process_packet_calls (packet : pyval) (packet_type : string) (w : world R) :
  exists new,
    journal (snd (process_packet packet packet_type w)) = journal w ++ new /\
    (calls new = [] \/
     (exists decoded record verdict,
        getitem packet "decoded" = Returns decoded /\
        ((getitem decoded "portnum" = Returns (PStr "NODEINFO_APP") /\
          calls new = [Validate record NodeInfo verdict]) \/
         (getitem decoded "portnum" = Returns (PStr "TEXT_MESSAGE_APP") /\
          calls new = [Validate record TextMessage verdict]))) \/
     (exists decoded record payload,
        getitem packet "decoded" = Returns decoded /\
        json_dumps record = Returns payload /\
        ((getitem decoded "portnum" = Returns (PStr "NODEINFO_APP") /\
          calls new = [Validate record NodeInfo (Returns tt); StoreNode payload]) \/
         (getitem decoded "portnum" = Returns (PStr "TEXT_MESSAGE_APP") /\
          calls new = [Validate record TextMessage (Returns tt); StoreMessage payload])))).
Proof.
  rewrite process_packet_run.
  unfold process_packet_try, redis_store_node, redis_store_message, redis_call,
    bind, lift, logger, emit.
  simpl.
  destruct (getitem packet "decoded") as [decoded|e] eqn:Hd; simpl.
  2: { destruct (isinstance e Exception);
       (eexists; split; [simpl; rewrite <- ?app_assoc; reflexivity|]); auto. }
  destruct (getitem decoded "portnum") as [portnum|e] eqn:Hp; simpl.
  2: { destruct (isinstance e Exception);
       (eexists; split; [simpl; rewrite <- ?app_assoc; reflexivity|]); auto. }
  destruct (eq_str portnum "NODEINFO_APP") eqn:Hn;
    [|destruct (eq_str portnum "TEXT_MESSAGE_APP") eqn:Ht].
  - apply eq_str_true in Hn. subst portnum.
    match goal with |- context [_process_nodeinfo packet ?w0] =>
      destruct (_process_nodeinfo_calls packet w0) as (new & Hs & Hj & Hc);
      destruct (_process_nodeinfo packet w0) as [[r|e] w1] eqn:E end; simpl in *.
    2: { destruct Hc as [Hc|[r Hc]]; leaf Hj Hc. }
    destruct (json_dumps r) as [payload|e] eqn:D; simpl.
    2: { leaf Hj Hc. }
    destruct (store_node payload (storage w1)) as [[[]|e] r'] eqn:S; simpl.
    2: { leaf Hj Hc. }
    repeat (run_step; [ | leaf Hj Hc ]).
    leaf Hj Hc.
  - apply eq_str_true in Ht. subst portnum.
    match goal with |- context [_process_textmessage packet ?w0] =>
      destruct (_process_textmessage_calls packet w0) as (new & Hs & Hj & Hc);
      destruct (_process_textmessage packet w0) as [[r|e] w1] eqn:E end; simpl in *.
    2: { destruct Hc as [Hc|[r Hc]]; leaf Hj Hc. }
    destruct (json_dumps r) as [payload|e] eqn:D; simpl.
    2: { leaf Hj Hc. }
    destruct (store_message payload (storage w1)) as [[[]|e] r'] eqn:S; simpl.
    2: { leaf Hj Hc. }
    repeat (run_step; [ | leaf Hj Hc ]).
    leaf Hj Hc.
  - eexists; split; [simpl; rewrite <- app_assoc; reflexivity|]. auto.
Qed.


(* ----------------------------------------------------------------- *)
(** *** The records *)

(** X3.  The [timestamp] of a returned record is the reading of the clock
    made by the call, whatever the packet holds (a ['timestamp'] of its
    own included), and the normaliser that returns has read the clock
    exactly once. *)
Theorem record_timestamp_is_clock (packet record : pyval) (w w' : world R) :
  (_process_textmessage packet w = (Returns record, w') ->
   getitem record "timestamp" = Returns (PStr (isoformat (clock w))) /\
   clock w' = S (clock w)) /\
  (_process_nodeinfo packet w = (Returns record, w') ->
   getitem record "timestamp" = Returns (PStr (isoformat (clock w))) /\
   clock w' = S (clock w)) /\
  (_process_device_telemetry packet w = (Returns record, w') ->
   getitem record "timestamp" = Returns (PStr (isoformat (clock w))) /\
   clock w' = S (clock w)).
Proof.
  split; [|split]; intros H.
  - assert (Hc : clock w' = S (clock w)).
    { rewrite _process_textmessage_run in H. unfold checked in H.
      destruct (text_message_of _ _); [|discriminate].
      destruct (validate_typed_dict _ _); [|discriminate].
      injection H as _ <-. reflexivity. }
    apply _process_textmessage_returns in H as [Hb _].
    apply text_message_of_inv in Hb
      as (? & ? & ? & ? & ? & ? & ? & _ & _ & _ & _ & _ & _ & _ & ->).
    split; [reflexivity | exact Hc].
  - assert (Hc : clock w' = S (clock w)).
    { rewrite _process_nodeinfo_run in H. unfold checked in H.
      destruct (user_info_of _); [|discriminate].
      destruct (node_info_of _ _ _); [|discriminate].
      destruct (validate_typed_dict _ _); [|discriminate].
      injection H as _ <-. reflexivity. }
    apply _process_nodeinfo_returns in H as (u & _ & Hb & _).
    apply node_info_of_inv in Hb
      as (? & ? & ? & ? & ? & ? & ? & ? & ? & ? &
          _ & _ & _ & _ & _ & _ & _ & _ & _ & _ & ->).
    split; [reflexivity | exact Hc].
  - assert (Hc : clock w' = S (clock w)).
    { rewrite _process_device_telemetry_run in H. unfold checked in H.
      destruct (telemetry_of _); [|discriminate].
      destruct (device_telemetry_of _ _ _); [|discriminate].
      destruct (validate_typed_dict _ _); [|discriminate].
      injection H as _ <-. reflexivity. }
    apply _process_device_telemetry_returns in H as (u & _ & Hb & _).
    apply device_telemetry_of_inv in Hb
      as (? & ? & ? & ? & ? & ? & ? & ? & ? &
          _ & _ & _ & _ & _ & _ & _ & _ & _ & ->).
    split; [reflexivity | exact Hc].
Qed.

(** Two displays of one packet differ in their timestamp only. *)
Lemma text_message_of_restamped (packet ts ts' record record' : pyval) :
  text_message_of packet ts = Returns record ->
  text_message_of packet ts' = Returns record' ->
  record' = with_field "timestamp" ts' record.
Proof.
  intros H H'.
  apply text_message_of_inv in H
    as (? & ? & ? & ? & ? & ? & ? & E1 & E2 & E3 & E4 & E5 & E6 & E7 & ->).
  apply text_message_of_inv in H'
    as (? & ? & ? & ? & ? & ? & ? & F1 & F2 & F3 & F4 & F5 & F6 & F7 & ->).
  rewrite E1 in F1. rewrite E2 in F2. rewrite E3 in F3. rewrite E4 in F4.
  rewrite E5 in F5. rewrite E6 in F6. rewrite E7 in F7.
  injection F1 as <-. injection F2 as <-. injection F3 as <-. injection F4 as <-.
  injection F5 as <-. injection F6 as <-. injection F7 as <-. reflexivity.
Qed.

Lemma node_info_of_restamped (packet user_info ts ts' record record' : pyval) :
  node_info_of packet user_info ts = Returns record ->
  node_info_of packet user_info ts' = Returns record' ->
  record' = with_field "timestamp" ts' record.
Proof.
  intros H H'.
  apply node_info_of_inv in H
    as (? & ? & ? & ? & ? & ? & ? & ? & ? & ? &
        E1 & E2 & E3 & E4 & E5 & E6 & E7 & E8 & E9 & E10 & ->).
  apply node_info_of_inv in H'
    as (? & ? & ? & ? & ? & ? & ? & ? & ? & ? &
        F1 & F2 & F3 & F4 & F5 & F6 & F7 & F8 & F9 & F10 & ->).
  rewrite E1 in F1. rewrite E2 in F2. rewrite E3 in F3. rewrite E4 in F4.
  rewrite E5 in F5. rewrite E6 in F6. rewrite E7 in F7. rewrite E8 in F8.
  rewrite E9 in F9. rewrite E10 in F10.
  injection F1 as <-. injection F2 as <-. injection F3 as <-. injection F4 as <-.
  injection F5 as <-. injection F6 as <-. injection F7 as <-. injection F8 as <-.
  injection F9 as <-. injection F10 as <-. reflexivity.
Qed.

Lemma device_telemetry_of_restamped (packet telemetry ts ts' record record' : pyval) :
  device_telemetry_of packet telemetry ts = Returns record ->
  device_telemetry_of packet telemetry ts' = Returns record' ->
  record' = with_field "timestamp" ts' record.
Proof.
  intros H H'.
  apply device_telemetry_of_inv in H
    as (? & ? & ? & ? & ? & ? & ? & ? & ? &
        E1 & E2 & E3 & E4 & E5 & E6 & E7 & E8 & E9 & ->).
  apply device_telemetry_of_inv in H'
    as (? & ? & ? & ? & ? & ? & ? & ? & ? &
        F1 & F2 & F3 & F4 & F5 & F6 & F7 & F8 & F9 & ->).
  rewrite E1 in F1. rewrite E2 in F2. rewrite E3 in F3. rewrite E4 in F4.
  rewrite E5 in F5. rewrite E6 in F6. rewrite E7 in F7. rewrite E8 in F8.
  rewrite E9 in F9.
  injection F1 as <-. injection F2 as <-. injection F3 as <-. injection F4 as <-.
  injection F5 as <-. injection F6 as <-. injection F7 as <-. injection F8 as <-.
  injection F9 as <-. reflexivity.
Qed.

(** X4.  Normalising one packet twice, at whatever times, gives two
    records that differ in their [timestamp] only: the second is the first
    with the second clock reading as its timestamp. *)
Theorem normalised_twice (packet record1 record2 : pyval) (w1 w1' w2 w2' : world R) :
  (_process_textmessage packet w1 = (Returns record1, w1') ->
   _process_textmessage packet w2 = (Returns record2, w2') ->
   record2 = with_field "timestamp" (PStr (isoformat (clock w2))) record1) /\
  (_process_nodeinfo packet w1 = (Returns record1, w1') ->
   _process_nodeinfo packet w2 = (Returns record2, w2') ->
   record2 = with_field "timestamp" (PStr (isoformat (clock w2))) record1) /\
  (_process_device_telemetry packet w1 = (Returns record1, w1') ->
   _process_device_telemetry packet w2 = (Returns record2, w2') ->
   record2 = with_field "timestamp" (PStr (isoformat (clock w2))) record1).
Proof.
  split; [|split]; intros H1 H2.
  - apply _process_textmessage_returns in H1 as [B1 _].
    apply _process_textmessage_returns in H2 as [B2 _].
    exact (text_message_of_restamped _ _ _ _ _ B1 B2).
  - apply _process_nodeinfo_returns in H1 as (u1 & U1 & B1 & _).
    apply _process_nodeinfo_returns in H2 as (u2 & U2 & B2 & _).
    rewrite U1 in U2. injection U2 as <-.
    exact (node_info_of_restamped _ _ _ _ _ _ B1 B2).
  - apply _process_device_telemetry_returns in H1 as (u1 & U1 & B1 & _).
    apply _process_device_telemetry_returns in H2 as (u2 & U2 & B2 & _).
    rewrite U1 in U2. injection U2 as <-.
    exact (device_telemetry_of_restamped _ _ _ _ _ _ B1 B2).
Qed.

Lemma int__typed (o : outcome pyval) (x : pyval) : int_ o = Returns x -> is_int x = true.
Proof. intros H. apply int__inv in H as (? & ? & _ & _ & ->). reflexivity. Qed.

Lemma float__typed (o : outcome pyval) (x : pyval) :
  float_ o = Returns x -> is_float x = true.
Proof. intros H. apply float__inv in H as (? & ? & _ & _ & ->). reflexivity. Qed.

Lemma str__typed (o : outcome pyval) (x : pyval) : str_ o = Returns x -> is_str x = true.
Proof. intros H. apply str__inv in H as (? & _ & ->). reflexivity. Qed.

Ltac typed :=
  eexists; split; [reflexivity|];
  first [ reflexivity
        | eapply int__typed; eassumption
        | eapply float__typed; eassumption
        | eapply str__typed; eassumption ].

Lemma embedded_metrics_typed (packet metrics : pyval) :
  embedded_metrics packet = Returns metrics ->
  has_type metrics "rx_time" is_int /\
  has_type metrics "rx_snr" is_float /\
  has_type metrics "rx_rssi" is_int /\
  has_type metrics "hop_limit" is_int.
Proof.
  intros H. apply embedded_metrics_inv in H as (? & ? & ? & ? & ? & ? & ? & ? & ->).
  repeat split; typed.
Qed.

(** X5.  Whatever the values in the packet, the fields of a returned
    record have the types that [int], [float] and [str] give them: in a
    text message and in a node record every number is an [int] ([rx_snr]
    a [float]) and every other field a [str]; in a device telemetry the
    record's own fields and its [device_metrics] are, while its [metrics]
    are what [_extract_metrics] returns, as they come. *)
Theorem records_typed (packet record : pyval) (w w' : world R) :
  (_process_textmessage packet w = (Returns record, w') ->
   getitem record "type" = Returns (PStr "text") /\
   has_type record "timestamp" is_str /\
   has_type record "from_num" is_int /\
   has_type record "from_id" is_str /\
   has_type record "to_num" is_int /\
   has_type record "to_id" is_str /\
   has_type record "text" is_str /\
   has_type record "raw" is_str /\
   exists metrics,
     getitem record "metrics" = Returns metrics /\
     has_type metrics "rx_time" is_int /\
     has_type metrics "rx_snr" is_float /\
     has_type metrics "rx_rssi" is_int /\
     has_type metrics "hop_limit" is_int) /\
  (_process_nodeinfo packet w = (Returns record, w') ->
   getitem record "type" = Returns (PStr "nodeinfo") /\
   has_type record "timestamp" is_str /\
   has_type record "from_num" is_int /\
   has_type record "from_id" is_str /\
   has_type record "raw" is_str /\
   (exists user,
      getitem record "user" = Returns user /\
      has_type user "id" is_str /\
      has_type user "long_name" is_str /\
      has_type user "short_name" is_str /\
      has_type user "macaddr" is_str /\
      has_type user "hw_model" is_str /\
      has_type user "raw" is_str) /\
   exists metrics,
     getitem record "metrics" = Returns metrics /\
     has_type metrics "rx_time" is_int /\
     has_type metrics "rx_snr" is_float /\
     has_type metrics "rx_rssi" is_int /\
     has_type metrics "hop_limit" is_int) /\
  (_process_device_telemetry packet w = (Returns record, w') ->
   getitem record "type" = Returns (PStr "device_telemetry") /\
   has_type record "timestamp" is_str /\
   has_type record "from_num" is_int /\
   has_type record "from_id" is_str /\
   has_type record "raw" is_str /\
   getitem record "metrics" = _extract_metrics packet /\
   exists device_metrics,
     getitem record "device_metrics" = Returns device_metrics /\
     has_type device_metrics "battery_level" is_int /\
     has_type device_metrics "voltage" is_float /\
     has_type device_metrics "channel_utilization" is_float /\
     has_type device_metrics "air_util_tx" is_float /\
     has_type device_metrics "uptime_seconds" is_int).
Proof.
  split; [|split]; intros H.
  3: { apply _process_device_telemetry_returns in H as (t & _ & Hb & _).
       apply device_telemetry_of_inv in Hb
         as (? & ? & ? & ? & ? & ? & ? & ? & ? &
             ? & ? & ? & ? & ? & ? & ? & Hm & ? & ->).
       split; [reflexivity|]. repeat (split; [typed|]).
       split; [now rewrite Hm|].
       eexists. split; [reflexivity|]. repeat split; typed. }
  - apply _process_textmessage_returns in H as [Hb _].
    apply text_message_of_inv in Hb
      as (? & ? & ? & ? & ? & metrics & ? & ? & ? & ? & ? & ? & Hm & ? & ->).
    split; [reflexivity|]. repeat (split; [typed|]).
    exists metrics. split; [reflexivity|]. now apply embedded_metrics_typed with packet.
  - apply _process_nodeinfo_returns in H as (u & _ & Hb & _).
    apply node_info_of_inv in Hb
      as (? & ? & ? & ? & ? & ? & ? & ? & metrics & ? &
          ? & ? & ? & ? & ? & ? & ? & ? & Hm & ? & ->).
    split; [reflexivity|]. repeat (split; [typed|]). split.
    + eexists. split; [reflexivity|]. repeat split; typed.
    + exists metrics. split; [reflexivity|]. now apply embedded_metrics_typed with packet.
Qed.


(* ----------------------------------------------------------------- *)
(** *** The paths of the dispatcher *)

Lemma journalled_same_calls (w : world R) (lvl : level) (msg : list piece) (b : bool) :
  same_calls (journalled w [Log lvl msg b]) w.
Proof.
  unfold same_calls, journalled. cbn [storage clock journal].
  repeat split. rewrite calls_app. unfold calls at 2. simpl. now rewrite app_nil_r.
Qed.

(** What a normaliser that raises leaves in the journal: at most the call
    of the validator that raised, then its error record, if a clause took
    the exception. *)
Lemma checked_raises (built : outcome pyval) (shape : typed_dict) (success : string)
    (failure : exn -> event) (w : world R) (e : exn) :
  fst (checked built shape success failure w) = Raises e ->
  exists middle,
    snd (checked built shape success failure w)
      = journalled w (middle ++ caught failure e) /\
    (middle = [] \/ exists record, middle = [Validate record shape (Raises e)]).
Proof.
  unfold checked. destruct built as [record|e0].
  - destruct (validate_typed_dict record shape) as [[]|e0] eqn:V; simpl; [discriminate|].
    intros [= ->]. exists [Validate record shape (Raises e)]. split; eauto.
  - simpl. intros [= ->]. exists []. split; auto.
Qed.

Lemma fst_checked (built : outcome pyval) (shape : typed_dict) (success : string)
    (failure : exn -> event) (w w' : world R) :
  fst (checked built shape success failure w)
    = fst (checked built shape success failure w').
Proof.
  unfold checked. destruct built as [record|e]; [|reflexivity].
  now destruct (validate_typed_dict record shape).
Qed.

Lemma _process_nodeinfo_raises (packet : pyval) (w : world R) (e : exn) :
  fst (_process_nodeinfo packet w) = Raises e ->
  exists middle,
    storage (snd (_process_nodeinfo packet w)) = storage w /\
    journal (snd (_process_nodeinfo packet w))
      = journal w ++ middle ++ caught node_failure e /\
    (middle = [] \/ exists record, middle = [Validate record NodeInfo (Raises e)]).
Proof.
  rewrite _process_nodeinfo_run.
  destruct (user_info_of packet) as [u|e0].
  - intros H. apply checked_raises in H as (middle & -> & Hm).
    exists middle. simpl. auto.
  - simpl. intros [= ->]. exists []. simpl. auto.
Qed.

Lemma _process_textmessage_raises (packet : pyval) (w : world R) (e : exn) :
  fst (_process_textmessage packet w) = Raises e ->
  exists middle,
    storage (snd (_process_textmessage packet w)) = storage w /\
    journal (snd (_process_textmessage packet w))
      = journal w ++ middle ++ caught text_failure e /\
    (middle = [] \/ exists record, middle = [Validate record TextMessage (Raises e)]).
Proof.
  rewrite _process_textmessage_run.
  intros H. apply checked_raises in H as (middle & -> & Hm).
  exists middle. simpl. auto.
Qed.

(** The outcome of a normaliser does not depend on the journal. *)
Lemma _process_nodeinfo_outcome (packet : pyval) (w : world R) (evs : list event) :
  fst (_process_nodeinfo packet (journalled w evs)) = fst (_process_nodeinfo packet w).
Proof.
  rewrite !_process_nodeinfo_run. simpl.
  destruct (user_info_of packet); [apply fst_checked | reflexivity].
Qed.

Lemma _process_textmessage_outcome (packet : pyval) (w : world R) (evs : list event) :
  fst (_process_textmessage packet (journalled w evs))
    = fst (_process_textmessage packet w).
Proof.
  rewrite !_process_textmessage_run. simpl. apply fst_checked.
Qed.

(** X6.  A packet whose normaliser raises is reported twice.  With
    discriminator ['NODEINFO_APP'] or ['TEXT_MESSAGE_APP'], when the
    normaliser raises an instance [e] of [Exception], [process_packet]
    returns with the storage as it was, and what it journalled ends with
    the normaliser's error record for [e] and then the dispatcher's error
    record for the same [e]; before them there is, after the first debug
    record, at most the call of the validator that raised [e].  When [e]
    is not an instance of [Exception] (which only the validator can
    raise), neither record is made and [process_packet] raises [e]. *)
Theorem failed_normalisation_logged_twice (packet decoded : pyval)
    (packet_type : string) (w : world R) (e : exn) :
  getitem packet "decoded" = Returns decoded ->
  (getitem decoded "portnum" = Returns (PStr "NODEINFO_APP") ->
   fst (_process_nodeinfo packet w) = Raises e ->
   exists w' middle,
     process_packet packet packet_type w
       = (if isinstance e Exception then Returns tt else Raises e, w') /\
     storage w' = storage w /\
     journal w' =
       journal w ++
       Log DEBUG [Lit "Processing "; Val (PStr packet_type); Lit " packet"] false
       :: middle ++ (if isinstance e Exception
                     then [node_failure e; packet_failure packet_type e]
                     else []) /\
     (middle = [] \/ exists record, middle = [Validate record NodeInfo (Raises e)])) /\
  (getitem decoded "portnum" = Returns (PStr "TEXT_MESSAGE_APP") ->
   fst (_process_textmessage packet w) = Raises e ->
   exists w' middle,
     process_packet packet packet_type w
       = (if isinstance e Exception then Returns tt else Raises e, w') /\
     storage w' = storage w /\
     journal w' =
       journal w ++
       Log DEBUG [Lit "Processing "; Val (PStr packet_type); Lit " packet"] false
       :: middle ++ (if isinstance e Exception
                     then [text_failure e; packet_failure packet_type e]
                     else []) /\
     (middle = [] \/ exists record, middle = [Validate record TextMessage (Raises e)])).
Proof.
  intros Hd. split; intros Hp He.
  - rewrite <- (_process_nodeinfo_outcome packet w
                  [Log DEBUG [Lit "Processing "; Val (PStr packet_type); Lit " packet"]
                     false]) in He.
    destruct (_process_nodeinfo_raises _ _ _ He) as (middle & Hs & Hj & Hm).
    rewrite process_packet_run.
    unfold process_packet_try, bind, lift, logger, emit. simpl.
    rewrite Hd. simpl. rewrite Hp. simpl.
    unfold journalled, caught in He, Hs, Hj. simpl in He, Hs, Hj.
    destruct (_process_nodeinfo packet _) as [o w1]. simpl in *. subst o.
    destruct (isinstance e Exception);
      (eexists; exists middle; split; [reflexivity|]; simpl; split; [exact Hs|];
       split; [|exact Hm]; rewrite Hj, <- !app_assoc; reflexivity).
  - rewrite <- (_process_textmessage_outcome packet w
                  [Log DEBUG [Lit "Processing "; Val (PStr packet_type); Lit " packet"]
                     false]) in He.
    destruct (_process_textmessage_raises _ _ _ He) as (middle & Hs & Hj & Hm).
    rewrite process_packet_run.
    unfold process_packet_try, bind, lift, logger, emit. simpl.
    rewrite Hd. simpl. rewrite Hp. simpl.
    unfold journalled, caught in He, Hs, Hj. simpl in He, Hs, Hj.
    destruct (_process_textmessage packet _) as [o w1]. simpl in *. subst o.
    destruct (isinstance e Exception);
      (eexists; exists middle; split; [reflexivity|]; simpl; split; [exact Hs|];
       split; [|exact Hm]; rewrite Hj, <- !app_assoc; reflexivity).
Qed.


Lemma checked_returns (built : outcome pyval) (shape : typed_dict) (success : string)
    (failure : exn -> event) (w : world R) (record : pyval) :
  fst (checked built shape success failure w) = Returns record ->
  checked built shape success failure w =
  (Returns record,
   journalled w [Validate record shape (Returns tt);
                 Log DEBUG [Lit success; Val record] false]).
Proof.
  unfold checked. destruct built as [r|e]; [|discriminate].
  destruct (validate_typed_dict r shape) as [[]|e] eqn:V; [|discriminate].
  simpl. intros [= ->]. reflexivity.
Qed.

Lemma _process_nodeinfo_world (packet record : pyval) (w : world R) :
  fst (_process_nodeinfo packet w) = Returns record ->
  _process_nodeinfo packet w =
  (Returns record,
   journalled (tick w)
     [Validate record NodeInfo (Returns tt);
      Log DEBUG [Lit "Validated node_info structure: "; Val record] false]).
Proof.
  rewrite _process_nodeinfo_run.
  destruct (user_info_of packet); [apply checked_returns | discriminate].
Qed.

Lemma _process_textmessage_world (packet record : pyval) (w : world R) :
  fst (_process_textmessage packet w) = Returns record ->
  _process_textmessage packet w =
  (Returns record,
   journalled (tick w)
     [Validate record TextMessage (Returns tt);
      Log DEBUG [Lit "Validated text_message structure: "; Val record] false]).
Proof.
  rewrite _process_textmessage_run. apply checked_returns.
Qed.

(** X7.  A node packet that is normalised and serialised is written with
    one [store_node] of the serialisation.  If the write returns, the
    storage is what the collaborator left and the journal ends with the
    two information records made of the record's [from_id], [timestamp]
    and [user.long_name], which a returned record always has.  If the
    write raises, nothing is reported as stored: when the exception is an
    instance of [Exception] the journal ends with the dispatcher's error
    record instead, and the method returns; when it is not (a task
    cancelled at the [await]), nothing more is journalled and the method
    raises it. *)
Theorem node_packet_written (packet decoded record : pyval)
    (packet_type payload : string) (w : world R) (res : outcome unit) (r' : R) :
  getitem packet "decoded" = Returns decoded ->
  getitem decoded "portnum" = Returns (PStr "NODEINFO_APP") ->
  fst (_process_nodeinfo packet w) = Returns record ->
  json_dumps record = Returns payload ->
  store_node payload (storage w) = (res, r') ->
  exists timestamp from_id long_name,
    getitem record "timestamp" = Returns timestamp /\
    getitem record "from_id" = Returns from_id /\
    (let! user := getitem record "user" in getitem user "long_name")
      = Returns long_name /\
    process_packet packet packet_type w =
    (match res with
     | Returns _ => Returns tt
     | Raises e => if isinstance e Exception then Returns tt else Raises e
     end,
     mk_world r' (S (clock w))
       (journal w ++
        [Log DEBUG [Lit "Processing "; Val (PStr packet_type); Lit " packet"] false;
         Validate record NodeInfo (Returns tt);
         Log DEBUG [Lit "Validated node_info structure: "; Val record] false;
         StoreNode payload] ++
        match res with
        | Returns _ =>
            [Log INFO [Lit "Stored node info for "; Val from_id] false;
             Log INFO [Lit "["; Val timestamp; Lit "] Node "; Val from_id;
                       Lit ": "; Val long_name] false]
        | Raises e =>
            if isinstance e Exception then [packet_failure packet_type e] else []
        end)).
Proof.
  intros Hd Hp Hr D Hstore.
  pose proof Hr as Hb.
  rewrite <- (_process_nodeinfo_outcome packet w
                [Log DEBUG [Lit "Processing "; Val (PStr packet_type); Lit " packet"]
                   false]) in Hr.
  apply _process_nodeinfo_world in Hr.
  destruct (_process_nodeinfo packet w) as [o w1] eqn:E. simpl in Hb. subst o.
  apply _process_nodeinfo_returns in E as (u & _ & E & _).
  apply node_info_of_inv in E
    as (? & from_id & ? & long_name & ? & ? & ? & ? & ? & ? &
        _ & _ & _ & _ & _ & _ & _ & _ & _ & _ & ->).
  exists (PStr (isoformat (clock w))), from_id, long_name.
  repeat (split; [reflexivity|]).
  rewrite process_packet_run.
  unfold process_packet_try, redis_store_node, redis_call, bind, lift, logger, emit.
  simpl. rewrite Hd. simpl. rewrite Hp. simpl.
  unfold journalled in Hr. simpl in Hr. rewrite Hr. rewrite D. simpl. rewrite Hstore.
  destruct res as [[]|e]; [|destruct (isinstance e Exception)];
    unfold journalled; simpl; rewrite <- ?app_assoc; reflexivity.
Qed.

(** X8.  The same for a text message and [store_message], the second
    information record being made of [timestamp], [from_id], [to_id] and
    [text]. *)
Theorem text_packet_written (packet decoded record : pyval)
    (packet_type payload : string) (w : world R) (res : outcome unit) (r' : R) :
  getitem packet "decoded" = Returns decoded ->
  getitem decoded "portnum" = Returns (PStr "TEXT_MESSAGE_APP") ->
  fst (_process_textmessage packet w) = Returns record ->
  json_dumps record = Returns payload ->
  store_message payload (storage w) = (res, r') ->
  exists timestamp from_id to_id text,
    getitem record "timestamp" = Returns timestamp /\
    getitem record "from_id" = Returns from_id /\
    getitem record "to_id" = Returns to_id /\
    getitem record "text" = Returns text /\
    process_packet packet packet_type w =
    (match res with
     | Returns _ => Returns tt
     | Raises e => if isinstance e Exception then Returns tt else Raises e
     end,
     mk_world r' (S (clock w))
       (journal w ++
        [Log DEBUG [Lit "Processing "; Val (PStr packet_type); Lit " packet"] false;
         Validate record TextMessage (Returns tt);
         Log DEBUG [Lit "Validated text_message structure: "; Val record] false;
         StoreMessage payload] ++
        match res with
        | Returns _ =>
            [Log INFO [Lit "Stored text message from "; Val from_id] false;
             Log INFO [Lit "["; Val timestamp; Lit "] "; Val from_id;
                       Lit " -> "; Val to_id; Lit ": "; Val text] false]
        | Raises e =>
            if isinstance e Exception then [packet_failure packet_type e] else []
        end)).
Proof.
  intros Hd Hp Hr D Hstore.
  pose proof Hr as Hb.
  rewrite <- (_process_textmessage_outcome packet w
                [Log DEBUG [Lit "Processing "; Val (PStr packet_type); Lit " packet"]
                   false]) in Hr.
  apply _process_textmessage_world in Hr.
  destruct (_process_textmessage packet w) as [o w1] eqn:E. simpl in Hb. subst o.
  apply _process_textmessage_returns in E as (E & _).
  apply text_message_of_inv in E
    as (? & from_id & ? & to_id & text & ? & ? & _ & _ & _ & _ & _ & _ & _ & ->).
  exists (PStr (isoformat (clock w))), from_id, to_id, text.
  repeat (split; [reflexivity|]).
  rewrite process_packet_run.
  unfold process_packet_try, redis_store_message, redis_call, bind, lift, logger, emit.
  simpl. rewrite Hd. simpl. rewrite Hp. simpl.
  unfold journalled in Hr. simpl in Hr. rewrite Hr. rewrite D. simpl. rewrite Hstore.
  destruct res as [[]|e]; [|destruct (isinstance e Exception)];
    unfold journalled; simpl; rewrite <- ?app_assoc; reflexivity.
Qed.

(** X9.  A packet whose discriminator cannot be read is an error, not a
    packet of unknown type: [process_packet] journals the debug record and
    the error record of the failed lookup and returns; the clock is not
    read, nothing is validated and nothing is written.  Without
    ['decoded'] the lookup raises [KeyError('decoded')], without
    ['portnum'] in it [KeyError('portnum')]. *)
Theorem packet_without_discriminator (packet : pyval) (packet_type : string)
    (w : world R) :
  (forall e,
     (let! decoded := getitem packet "decoded" in getitem decoded "portnum") = Raises e ->
     process_packet packet packet_type w =
     (Returns tt,
      journalled w
        [Log DEBUG [Lit "Processing "; Val (PStr packet_type); Lit " packet"] false;
         packet_failure packet_type e])) /\
  (forall d, packet = PDict d -> dict_get "decoded" d = None ->
     (let! decoded := getitem packet "decoded" in getitem decoded "portnum")
       = raise KeyError "decoded") /\
  (forall d decoded, packet = PDict d ->
     dict_get "decoded" d = Some (PDict decoded) ->
     dict_get "portnum" decoded = None ->
     (let! decoded := getitem packet "decoded" in getitem decoded "portnum")
       = raise KeyError "portnum").
Proof.
  split; [|split].
  - intros e He. rewrite process_packet_run.
    unfold process_packet_try, bind, lift, logger, emit. simpl.
    rewrite He. rewrite (raises_errors_nested _ _ _ e He).
    unfold journalled. simpl. now rewrite <- app_assoc.
  - intros d -> H. simpl. now rewrite H.
  - intros d decoded -> H H'. simpl. rewrite H. simpl. now rewrite H'.
Qed.


(* ----------------------------------------------------------------- *)
(** *** Optional fields *)

Lemma embedded_metrics_null (d : pydict) (metrics : pyval) :
  dict_get "rxSnr" d = Some PNone \/ dict_get "rxRssi" d = Some PNone ->
  embedded_metrics (PDict d) <> Returns metrics.
Proof.
  intros Hnull H.
  apply embedded_metrics_inv in H as (? & ? & ? & ? & _ & Hf & Hi & _).
  unfold get_default in Hf, Hi.
  destruct Hnull as [Hn|Hn]; rewrite Hn in *; discriminate.
Qed.

(** X10.  The defaults of the embedded metrics are for a missing key only.
    A packet that has ['rxSnr'] or ['rxRssi'] with the value [None] is
    rejected by [_process_textmessage] and by [_process_nodeinfo]
    ([float(None)] is a [TypeError]), while [_extract_metrics] returns for
    it as soon as ['rxTime'] is there. *)
Theorem null_signal_rejected (d : pydict) (w : world R) :
  dict_get "rxSnr" d = Some PNone \/ dict_get "rxRssi" d = Some PNone ->
  (exists e w', _process_textmessage (PDict d) w = (Raises e, w')) /\
  (exists e w', _process_nodeinfo (PDict d) w = (Raises e, w')) /\
  (forall rx_time,
     int_ (getitem (PDict d) "rxTime") = Returns rx_time ->
     dict_get "rxSnr" d = Some PNone ->
     embedded_metrics (PDict d) = raise TypeError "float() argument") /\
  (forall rx_time,
     dict_get "rxTime" d = Some rx_time ->
     exists metrics, _extract_metrics (PDict d) = Returns metrics).
Proof.
  intros Hnull. split; [|split; [|split]].
  - apply returns_or_raises. intros record w' H.
    apply _process_textmessage_returns in H as [Hb _].
    apply text_message_of_inv in Hb
      as (? & ? & ? & ? & ? & metrics & ? & _ & _ & _ & _ & _ & Hm & _).
    now apply embedded_metrics_null in Hm.
  - apply returns_or_raises. intros record w' H.
    apply _process_nodeinfo_returns in H as (u & _ & Hb & _).
    apply node_info_of_inv in Hb
      as (? & ? & ? & ? & ? & ? & ? & ? & metrics & ? &
          _ & _ & _ & _ & _ & _ & _ & _ & Hm & _).
    now apply embedded_metrics_null in Hm.
  - intros rx_time Hrx Hn. unfold embedded_metrics, get_default.
    rewrite Hrx, Hn. reflexivity.
  - intros rx_time Hrx. unfold _extract_metrics, get, get_default, getitem.
    rewrite Hrx. simpl.
    destruct (dict_get "rxSnr" d), (dict_get "rxRssi" d), (dict_get "hopLimit" d);
      simpl; eauto.
Qed.

(** X11.  The other two defaults.  Without ['hopLimit'] the embedded
    metrics of a returned text message or node record have [hop_limit] 3;
    without ['channelUtilization'] among the device metrics a returned
    device telemetry has [channel_utilization] [0.0]. *)
Theorem remaining_defaults (d : pydict) (w : world R) :
  (dict_get "hopLimit" d = None ->
   forall record w',
     _process_textmessage (PDict d) w = (Returns record, w') \/
     _process_nodeinfo (PDict d) w = (Returns record, w') ->
     exists metrics,
       getitem record "metrics" = Returns metrics /\
       getitem metrics "hop_limit" = Returns (PInt 3)) /\
  (forall telemetry dm record w',
     telemetry_of (PDict d) = Returns telemetry ->
     getitem telemetry "deviceMetrics" = Returns (PDict dm) ->
     dict_get "channelUtilization" dm = None ->
     _process_device_telemetry (PDict d) w = (Returns record, w') ->
     exists device_metrics,
       getitem record "device_metrics" = Returns device_metrics /\
       getitem device_metrics "channel_utilization"
         = Returns (PFloat (S754_zero false))).
Proof.
  split.
  - intros Hhop record w' H.
    assert (Hm : forall metrics, embedded_metrics (PDict d) = Returns metrics ->
                 getitem metrics "hop_limit" = Returns (PInt 3)).
    { intros metrics Hm.
      apply embedded_metrics_inv in Hm as (? & ? & ? & ? & _ & _ & _ & Hh & ->).
      unfold get_default in Hh. rewrite Hhop in Hh. cbv in Hh.
      injection Hh as <-. reflexivity. }
    destruct H as [H|H].
    + apply _process_textmessage_returns in H as [Hb _].
      apply text_message_of_inv in Hb
        as (? & ? & ? & ? & ? & metrics & ? & _ & _ & _ & _ & _ & Hb & _ & ->).
      exists metrics. split; [reflexivity | auto].
    + apply _process_nodeinfo_returns in H as (u & _ & Hb & _).
      apply node_info_of_inv in Hb
        as (? & ? & ? & ? & ? & ? & ? & ? & metrics & ? &
            _ & _ & _ & _ & _ & _ & _ & _ & Hb & _ & ->).
      exists metrics. split; [reflexivity | auto].
  - intros telemetry dm record w' Ht Hdm Hcu H.
    apply _process_device_telemetry_returns in H as (t & Ht' & Hb & _).
    rewrite Ht in Ht'. injection Ht' as <-.
    apply device_telemetry_of_inv in Hb
      as (? & ? & ? & ? & cu & ? & ? & ? & ? &
          _ & _ & _ & _ & Hc & _ & _ & _ & _ & ->).
    rewrite Hdm in Hc. simpl in Hc. rewrite Hcu in Hc. cbv in Hc.
    injection Hc as <-. eexists. split; reflexivity.
Qed.

(** X12.  The two [except] clauses of [_process_nodeinfo].  A ['from'] that
    is text [int] cannot read ends in a [ValueError], which the first
    clause takes: the error record says that the validation failed, though
    the validator was not called, and has no traceback.  A failure that is
    not a [ValueError], such as a missing ['from'], is recorded by the
    second clause, with its traceback.  Both are raised again. *)
Theorem nodeinfo_failure_records (packet user_info : pyval) (w : world R) :
  user_info_of packet = Returns user_info ->
  (forall s,
     getitem packet "from" = Returns (PStr s) ->
     int_of_str s = None ->
     _process_nodeinfo packet w =
     (Raises (mk_exn ValueError "invalid literal for int()"),
      journalled (tick w)
        [Log ERROR [Lit "Node info validation failed: ";
                    Exc (mk_exn ValueError "invalid literal for int()")] false])) /\
  (forall e,
     getitem packet "from" = Raises e ->
     isinstance e ValueError = false ->
     _process_nodeinfo packet w =
     (Raises e,
      journalled (tick w)
        [Log ERROR [Lit "Error processing node info: "; Exc e] true])).
Proof.
  intros Hu. split.
  - intros s Hfrom Hint. rewrite _process_nodeinfo_run, Hu.
    unfold node_info_of, int_. rewrite Hfrom. simpl. rewrite Hint. reflexivity.
  - intros e Hfrom He. rewrite _process_nodeinfo_run, Hu.
    unfold node_info_of, int_. rewrite Hfrom. simpl.
    unfold caught, node_failure.
    rewrite (raises_errors_getitem _ _ e Hfrom), He. reflexivity.
Qed.


(* ----------------------------------------------------------------- *)
(** *** Display *)

Lemma format_message_shown (item : string) (v : pyval) (w : world R) :
  shown_message item = Some v -> format_message_for_display item w = (Returns v, w).
Proof.
  unfold shown_message, format_message_for_display, try_except, bind, lift, ret.
  destruct (json_loads item) as [[]|]; try discriminate. unfold getitem.
  destruct (dict_get "timestamp" entries); [|discriminate].
  destruct (dict_get "from_id" entries); [|discriminate].
  destruct (dict_get "to_id" entries); [|discriminate].
  destruct (dict_get "text" entries); [|discriminate].
  now intros [= <-].
Qed.

Lemma format_node_shown (item : string) (v : pyval) (w : world R) :
  shown_node item = Some v -> format_node_for_display item w = (Returns v, w).
Proof.
  unfold shown_node, format_node_for_display, try_except, bind, lift, ret.
  destruct (json_loads item) as [[]|]; try discriminate. unfold getitem.
  destruct (dict_get "timestamp" entries); [|discriminate].
  destruct (dict_get "from_id" entries); [|discriminate].
  destruct (dict_get "user" entries) as [[]|]; try discriminate. simpl.
  destruct (dict_get "long_name" entries0); [|discriminate].
  now intros [= <-].
Qed.

Lemma format_message_returned (item : string) (v : pyval) (w w' : world R) :
  format_message_for_display item w = (Returns v, w') ->
  (v = PNone /\ malformed item) \/ (shown_message item = Some v /\ w' = w).
Proof.
  unfold shown_message, malformed, format_message_for_display, try_except, bind, lift, ret.
  destruct (json_loads item) as [data|e].
  - destruct data; simpl; try discriminate. unfold getitem.
    destruct (dict_get "timestamp" entries); [|discriminate].
    destruct (dict_get "from_id" entries); [|discriminate].
    destruct (dict_get "to_id" entries); [|discriminate].
    destruct (dict_get "text" entries); [|discriminate].
    intros [= <- <-]. auto.
  - simpl. destruct (isinstance e JSONDecodeError) eqn:He; [|discriminate].
    unfold logger, emit. intros [= <- _]. left. eauto.
Qed.

Lemma format_node_returned (item : string) (v : pyval) (w w' : world R) :
  format_node_for_display item w = (Returns v, w') ->
  (v = PNone /\ malformed item) \/ (shown_node item = Some v /\ w' = w).
Proof.
  unfold shown_node, malformed, format_node_for_display, try_except, bind, lift, ret.
  destruct (json_loads item) as [data|e].
  - destruct data; simpl; try discriminate. unfold getitem.
    destruct (dict_get "timestamp" entries); [|discriminate].
    destruct (dict_get "from_id" entries); [|discriminate].
    destruct (dict_get "user" entries) as [user|]; [|discriminate].
    destruct user; simpl; try discriminate.
    destruct (dict_get "long_name" entries0); [|discriminate].
    intros [= <- <-]. auto.
  - simpl. destruct (isinstance e JSONDecodeError) eqn:He; [|discriminate].
    unfold logger, emit. intros [= <- _]. left. eauto.
Qed.

(** A formatter calls nothing: it leaves the storage, the clock and the
    calls of the journal as they were. *)
Lemma format_message_quiet (item : string) (w : world R) :
  same_calls (snd (format_message_for_display item w)) w.
Proof.
  unfold format_message_for_display, try_except, bind, lift, ret.
  destruct (json_loads item) as [data|e]; simpl;
    repeat (match goal with
            | |- context [match ?o with Returns _ => _ | Raises _ => _ end] =>
                destruct o; simpl
            end);
    try apply same_calls_refl;
    match goal with
    | |- context [isinstance ?e JSONDecodeError] =>
        destruct (isinstance e JSONDecodeError);
        [apply (journalled_same_calls w ERROR) | apply same_calls_refl]
    end.
Qed.

Lemma format_node_quiet (item : string) (w : world R) :
  same_calls (snd (format_node_for_display item w)) w.
Proof.
  unfold format_node_for_display, try_except, bind, lift, ret.
  destruct (json_loads item) as [data|e]; simpl;
    repeat (match goal with
            | |- context [match ?o with Returns _ => _ | Raises _ => _ end] =>
                destruct o; simpl
            end);
    try apply same_calls_refl;
    match goal with
    | |- context [isinstance ?e JSONDecodeError] =>
        destruct (isinstance e JSONDecodeError);
        [apply (journalled_same_calls w ERROR) | apply same_calls_refl]
    end.
Qed.

(** X13.  What the formatters return.  An item that parses to an object
    with the fields looked up is shown: the formatter returns the
    projection and leaves the world as it is.  Conversely a formatter
    returns in two cases only: [None] for an item that [json.loads]
    rejects with a [JSONDecodeError], the projection for an item that is
    shown.  In every case a formatter calls nothing and leaves the storage
    and the clock alone. *)
Theorem formatters_show_or_skip (item : string) (w : world R) :
  (forall v, shown_message item = Some v ->
     format_message_for_display item w = (Returns v, w)) /\
  (forall v, shown_node item = Some v ->
     format_node_for_display item w = (Returns v, w)) /\
  (forall v w', format_message_for_display item w = (Returns v, w') ->
     (v = PNone /\ malformed item) \/ (shown_message item = Some v /\ w' = w)) /\
  (forall v w', format_node_for_display item w = (Returns v, w') ->
     (v = PNone /\ malformed item) \/ (shown_node item = Some v /\ w' = w)) /\
  same_calls (snd (format_message_for_display item w)) w /\
  same_calls (snd (format_node_for_display item w)) w.
Proof.
  repeat split.
  - intros v. apply format_message_shown.
  - intros v. apply format_node_shown.
  - intros v w'. apply format_message_returned.
  - intros v w'. apply format_node_returned.
  - apply format_message_quiet.
  - apply format_message_quiet.
  - apply format_message_quiet.
  - apply format_node_quiet.
  - apply format_node_quiet.
  - apply format_node_quiet.
Qed.

(** X14.  A formatter catches nothing but [JSONDecodeError].  Another
    exception of [json.loads] goes on to the caller, and so does the
    [TypeError] of subscripting a document that is valid JSON but not an
    object, or a ['user'] that is not an object; in these cases nothing is
    logged. *)
Theorem formatters_catch_nothing_else (item : string) (w : world R) :
  (forall e,
     json_loads item = Raises e ->
     isinstance e JSONDecodeError = false ->
     format_message_for_display item w = (Raises e, w) /\
     format_node_for_display item w = (Raises e, w)) /\
  (forall data,
     json_loads item = Returns data ->
     (forall d, data <> PDict d) ->
     format_message_for_display item w = (Raises (mk_exn TypeError "timestamp"), w) /\
     format_node_for_display item w = (Raises (mk_exn TypeError "timestamp"), w)) /\
  (forall d user,
     json_loads item = Returns (PDict d) ->
     dict_get "timestamp" d <> None -> dict_get "from_id" d <> None ->
     dict_get "user" d = Some user ->
     (forall u, user <> PDict u) ->
     format_node_for_display item w = (Raises (mk_exn TypeError "long_name"), w)).
Proof.
  split; [|split].
  - intros e Hl He.
    unfold format_message_for_display, format_node_for_display, try_except, bind, lift.
    rewrite Hl. simpl. rewrite He. split; reflexivity.
  - intros data Hl Hnot.
    unfold format_message_for_display, format_node_for_display, try_except, bind, lift.
    rewrite Hl. destruct data; try (split; reflexivity). now destruct (Hnot entries).
  - intros d user Hl Hts Hfrom Huser Hnot.
    unfold format_node_for_display, try_except, bind, lift.
    rewrite Hl. unfold getitem.
    destruct (dict_get "timestamp" d); [|congruence].
    destruct (dict_get "from_id" d); [|congruence].
    rewrite Huser. simpl.
    destruct user; try reflexivity. now destruct (Hnot entries).
Qed.


(* ----------------------------------------------------------------- *)
(** *** Listings *)

Lemma same_calls_trans (a b c : world R) :
  same_calls a b -> same_calls b c -> same_calls a c.
Proof.
  intros (? & ? & ?) (? & ? & ?). repeat split; congruence.
Qed.

Lemma format_each_quiet (format : string -> M R pyval) :
  (forall item w, same_calls (snd (format item w)) w) ->
  forall items formatted w, same_calls (snd (format_each format items formatted w)) w.
Proof.
  intros Hq. induction items as [|item items IH]; intros formatted w; simpl.
  - apply same_calls_refl.
  - unfold bind. pose proof (Hq item w) as H.
    destruct (format item w) as [[v|e] w1]; simpl in *; [|exact H].
    eapply same_calls_trans; [apply IH | exact H].
Qed.

Lemma format_message_malformed (item : string) (w : world R) :
  malformed item -> exists w', format_message_for_display item w = (Returns PNone, w').
Proof.
  intros (e & Hl & He).
  unfold format_message_for_display, try_except, bind, lift. rewrite Hl. simpl.
  rewrite He. eexists. reflexivity.
Qed.

Lemma format_node_malformed (item : string) (w : world R) :
  malformed item -> exists w', format_node_for_display item w = (Returns PNone, w').
Proof.
  intros (e & Hl & He).
  unfold format_node_for_display, try_except, bind, lift. rewrite Hl. simpl.
  rewrite He. eexists. reflexivity.
Qed.

Lemma malformed_not_shown_message (item : string) :
  malformed item -> shown_message item = None.
Proof. intros (e & Hl & _). unfold shown_message. now rewrite Hl. Qed.

Lemma malformed_not_shown_node (item : string) :
  malformed item -> shown_node item = None.
Proof. intros (e & Hl & _). unfold shown_node. now rewrite Hl. Qed.

Lemma shown_message_truthy (item : string) (v : pyval) :
  shown_message item = Some v -> truthy v = true.
Proof.
  unfold shown_message. destruct (json_loads item) as [[]|]; try discriminate.
  destruct (dict_get "timestamp" entries), (dict_get "from_id" entries),
    (dict_get "to_id" entries), (dict_get "text" entries); try discriminate.
  now intros [= <-].
Qed.

Lemma shown_node_truthy (item : string) (v : pyval) :
  shown_node item = Some v -> truthy v = true.
Proof.
  unfold shown_node. destruct (json_loads item) as [[]|]; try discriminate.
  destruct (dict_get "timestamp" entries), (dict_get "from_id" entries),
    (dict_get "user" entries) as [[]|]; try discriminate.
  destruct (dict_get "long_name" entries0); try discriminate.
  now intros [= <-].
Qed.

(** The loop keeps what is shown and drops what is malformed. *)
Lemma format_each_shows (format : string -> M R pyval) (shown : string -> option pyval) :
  (forall item v w, shown item = Some v -> format item w = (Returns v, w)) ->
  (forall item v, shown item = Some v -> truthy v = true) ->
  (forall item w, malformed item ->
     shown item = None /\ exists w', format item w = (Returns PNone, w')) ->
  forall items formatted w,
    (forall item, In item items -> shown item <> None \/ malformed item) ->
    fst (format_each format items formatted w)
      = Returns (formatted ++ shown_items shown items).
Proof.
  intros Hshown Htrue Hmal.
  induction items as [|item items IH]; intros formatted w Hitems; simpl.
  - now rewrite app_nil_r.
  - unfold bind.
    assert (Hrest : forall i, In i items -> shown i <> None \/ malformed i)
      by (intros i Hi; apply Hitems; now right).
    destruct (shown item) as [v|] eqn:Hs.
    + rewrite (Hshown item v w Hs), (Htrue item v Hs).
      rewrite IH by exact Hrest. now rewrite <- app_assoc.
    + destruct (Hitems item (or_introl eq_refl)) as [H|H]; [congruence|].
      destruct (Hmal item w H) as (_ & w' & ->). simpl.
      now rewrite IH by exact Hrest.
Qed.

(** X15.  When every item the collaborator hands over is either shown or
    malformed, a listing method returns the projections of the items that
    are shown, in the order of the items; the malformed ones are
    skipped. *)
Theorem listings_show_in_order (limit : Z) (items : list string) (w : world R) (r' : R) :
  (load_messages limit (storage w) = (Returns items, r') ->
   (forall item, In item items -> shown_message item <> None \/ malformed item) ->
   fst (get_formatted_messages limit w) = Returns (shown_items shown_message items)) /\
  (load_nodes limit (storage w) = (Returns items, r') ->
   (forall item, In item items -> shown_node item <> None \/ malformed item) ->
   fst (get_formatted_nodes limit w) = Returns (shown_items shown_node items)).
Proof.
  split; intros Hload Hitems.
  - unfold get_formatted_messages, redis_load_messages, redis_call, bind, logger, emit.
    simpl. rewrite Hload. simpl.
    refine (format_each_shows format_message_for_display shown_message
              _ shown_message_truthy _ items [] _ Hitems).
    + intros. now apply format_message_shown.
    + intros item w0 H. split; [now apply malformed_not_shown_message|].
      now apply format_message_malformed.
  - unfold get_formatted_nodes, redis_load_nodes, redis_call, bind, logger, emit.
    simpl. rewrite Hload. simpl.
    refine (format_each_shows format_node_for_display shown_node
              _ shown_node_truthy _ items [] _ Hitems).
    + intros. now apply format_node_shown.
    + intros item w0 H. split; [now apply malformed_not_shown_node|].
      now apply format_node_malformed.
Qed.

(** X16.  A listing method reads once and writes nothing: whatever the
    items are and however the run ends, the only call it adds to the
    journal is the one [load_messages], resp. [load_nodes], with the limit
    it was given; the storage is what that call left, the clock is not
    read; and when the read raises, the method raises the same
    exception. *)
Theorem listings_only_read (limit : Z) (w : world R) :
  (storage (snd (get_formatted_messages limit w)) = snd (load_messages limit (storage w)) /\
   clock (snd (get_formatted_messages limit w)) = clock w /\
   calls (journal (snd (get_formatted_messages limit w)))
     = calls (journal w) ++ [LoadMessages limit] /\
   forall e, fst (load_messages limit (storage w)) = Raises e ->
             fst (get_formatted_messages limit w) = Raises e) /\
  (storage (snd (get_formatted_nodes limit w)) = snd (load_nodes limit (storage w)) /\
   clock (snd (get_formatted_nodes limit w)) = clock w /\
   calls (journal (snd (get_formatted_nodes limit w)))
     = calls (journal w) ++ [LoadNodes limit] /\
   forall e, fst (load_nodes limit (storage w)) = Raises e ->
             fst (get_formatted_nodes limit w) = Raises e).
Proof.
  split.
  - unfold get_formatted_messages, redis_load_messages, redis_call, bind, logger, emit.
    simpl. destruct (load_messages limit (storage w)) as [[items|e] r'] eqn:Hload; simpl.
    + match goal with |- context [format_each ?f ?l ?a ?w0] =>
        destruct (format_each_quiet f format_message_quiet l a w0) as (Hs & Hc & Hj)
      end.
      simpl in Hs, Hc, Hj. rewrite Hs, Hc, Hj.
      repeat split; try discriminate.
      rewrite !calls_app. unfold calls. simpl. rewrite ?app_nil_r. reflexivity.
    + repeat split.
      * rewrite !calls_app. unfold calls. simpl. rewrite ?app_nil_r. reflexivity.
      * now intros e0 [= ->].
  - unfold get_formatted_nodes, redis_load_nodes, redis_call, bind, logger, emit.
    simpl. destruct (load_nodes limit (storage w)) as [[items|e] r'] eqn:Hload; simpl.
    + match goal with |- context [format_each ?f ?l ?a ?w0] =>
        destruct (format_each_quiet f format_node_quiet l a w0) as (Hs & Hc & Hj)
      end.
      simpl in Hs, Hc, Hj. rewrite Hs, Hc, Hj.
      repeat split; try discriminate.
      rewrite !calls_app. unfold calls. simpl. rewrite ?app_nil_r. reflexivity.
    + repeat split.
      * rewrite !calls_app. unfold calls. simpl. rewrite ?app_nil_r. reflexivity.
      * now intros e0 [= ->].
Qed.

(** X17.  The round trip of a node record.  When [_process_nodeinfo]
    returns a record and [json.loads] gives that record back from its
    serialisation, [format_node_for_display] returns, from the
    serialisation, the record's timestamp with [str(packet['fromId'])] as
    [id] and [str] of the user's ['longName'] as [name]. *)
Theorem node_display_round_trip (packet record : pyval) (json_str : string)
    (w w1 w2 : world R) :
  _process_nodeinfo packet w = (Returns record, w1) ->
  json_dumps record = Returns json_str ->
  json_loads json_str = Returns record ->
  exists timestamp from_id user_info long_name,
    getitem record "timestamp" = Returns timestamp /\
    getitem packet "fromId" = Returns from_id /\
    user_info_of packet = Returns user_info /\
    getitem user_info "longName" = Returns long_name /\
    format_node_for_display json_str w2 =
      (Returns (PDict [("timestamp", timestamp);
                       ("id", PStr (py_str from_id));
                       ("name", PStr (py_str long_name))]), w2).
Proof.
  intros Hrun _ Hloads.
  apply _process_nodeinfo_returns in Hrun as (u & Hu & Hb & _).
  apply node_info_of_inv in Hb
    as (? & from_id & ? & long_name & ? & ? & ? & ? & ? & ? &
        _ & Hfrom & _ & Hname & _ & _ & _ & _ & _ & _ & ->).
  apply str__inv in Hfrom as (vfrom & Hfrom & ->).
  apply str__inv in Hname as (vname & Hname & ->).
  exists (PStr (isoformat (clock w))), vfrom, u, vname.
  repeat split; auto.
  unfold format_node_for_display, try_except, bind, lift, ret.
  rewrite Hloads. reflexivity.
Qed.


(* ----------------------------------------------------------------- *)
(** *** What the normalisers touch *)

Lemma _process_device_telemetry_calls (packet : pyval) (w : world R) :
  exists new,
    storage (snd (_process_device_telemetry packet w)) = storage w /\
    journal (snd (_process_device_telemetry packet w)) = journal w ++ new /\
    match fst (_process_device_telemetry packet w) with
    | Returns record => calls new = [Validate record DeviceTelemetry (Returns tt)]
    | Raises e =>
        calls new = [] \/
        exists record, calls new = [Validate record DeviceTelemetry (Raises e)]
    end.
Proof.
  rewrite _process_device_telemetry_run.
  destruct (telemetry_of packet) as [t|e].
  - destruct (checked_calls (device_telemetry_of packet t (PStr (isoformat (clock w))))
                DeviceTelemetry "Validated device telemetry structure: "
                telemetry_failure (tick w) (fun _ => eq_refl)) as (new & Hw & Hc).
    exists new. rewrite Hw. simpl. repeat split; auto.
    destruct (fst (checked _ _ _ _ _)); [tauto|].
    destruct Hc as [[_ ?]|(r & _ & ?)]; eauto.
  - exists (caught telemetry_failure e). simpl. repeat split; auto.
    left. now apply caught_calls.
Qed.

Lemma checked_clock (built : outcome pyval) (shape : typed_dict) (success : string)
    (failure : exn -> event) (w : world R) :
  clock (snd (checked built shape success failure w)) = clock w.
Proof.
  unfold checked. destruct built as [record|e]; [|reflexivity].
  now destruct (validate_typed_dict record shape).
Qed.

(** X18.  The normalisers touch nothing but the clock, the log and the
    validator.  Each leaves the storage as it was and calls the validator
    at most once, under its own shape; [_process_textmessage] reads the
    clock once on every run, the other two once unless the first lookup
    ([decoded.user], [decoded.telemetry]) fails, in which case not at
    all. *)
Theorem normalisers_only_validate (packet : pyval) (w : world R) :
  (exists new,
     storage (snd (_process_textmessage packet w)) = storage w /\
     clock (snd (_process_textmessage packet w)) = S (clock w) /\
     journal (snd (_process_textmessage packet w)) = journal w ++ new /\
     (calls new = [] \/
      exists record verdict, calls new = [Validate record TextMessage verdict])) /\
  (exists new,
     storage (snd (_process_nodeinfo packet w)) = storage w /\
     clock (snd (_process_nodeinfo packet w))
       = match user_info_of packet with
         | Returns _ => S (clock w)
         | Raises _ => clock w
         end /\
     journal (snd (_process_nodeinfo packet w)) = journal w ++ new /\
     (calls new = [] \/
      exists record verdict, calls new = [Validate record NodeInfo verdict])) /\
  (exists new,
     storage (snd (_process_device_telemetry packet w)) = storage w /\
     clock (snd (_process_device_telemetry packet w))
       = match telemetry_of packet with
         | Returns _ => S (clock w)
         | Raises _ => clock w
         end /\
     journal (snd (_process_device_telemetry packet w)) = journal w ++ new /\
     (calls new = [] \/
      exists record verdict, calls new = [Validate record DeviceTelemetry verdict])).
Proof.
  split; [|split].
  - destruct (_process_textmessage_calls packet w) as (new & Hs & Hj & Hc).
    exists new. split; [exact Hs|]. split.
    + rewrite _process_textmessage_run. apply checked_clock.
    + split; [exact Hj|].
      destruct (fst (_process_textmessage packet w)); [eauto|].
      destruct Hc as [?|[r ?]]; eauto.
  - destruct (_process_nodeinfo_calls packet w) as (new & Hs & Hj & Hc).
    exists new. split; [exact Hs|]. split.
    + rewrite _process_nodeinfo_run.
      destruct (user_info_of packet); [apply checked_clock | reflexivity].
    + split; [exact Hj|].
      destruct (fst (_process_nodeinfo packet w)); [eauto|].
      destruct Hc as [?|[r ?]]; eauto.
  - destruct (_process_device_telemetry_calls packet w) as (new & Hs & Hj & Hc).
    exists new. split; [exact Hs|]. split.
    + rewrite _process_device_telemetry_run.
      destruct (telemetry_of packet); [apply checked_clock | reflexivity].
    + split; [exact Hj|].
      destruct (fst (_process_device_telemetry packet w)); [eauto|].
      destruct Hc as [?|[r ?]]; eauto.
Qed.

End Extras.

(* ================================================================= *)
(** ** The further properties at work on concrete packets *)

Lemma stored_node_loads : @json_loads cpython stored_node = Returns node_record.
Proof. vm_compute. reflexivity. Qed.

Lemma stored_node_dumps : @json_dumps cpython node_record = Returns stored_node.
Proof. vm_compute. reflexivity. Qed.

Lemma stored_text_shown :
  @shown_message cpython stored_text =
  Some (PDict [("timestamp", PStr "T0"); ("from", PStr "!12345678");
               ("to", PStr "^all"); ("text", PStr "hello mesh")]).
Proof. vm_compute. reflexivity. Qed.

Lemma stored_node_shown :
  @shown_node cpython stored_node =
  Some (PDict [("timestamp", PStr "T0"); ("id", PStr "!12345678");
               ("name", PStr "Base Camp")]).
Proof. vm_compute. reflexivity. Qed.

Lemma not_json_malformed : @malformed cpython "{not json".
Proof. eexists. split; vm_compute; reflexivity. Qed.

Lemma record_timestamp_is_clock_witness :
  getitem text_record "timestamp" = Returns (PStr "T0") /\ 1%nat = 1%nat.
Proof.
  exact (proj1 (record_timestamp_is_clock (L := cpython) text_packet text_record
                  world0 _) text_packet_run).
Defined.

Lemma normalised_twice_witness :
  exists record2 w2',
    @_process_textmessage cpython _ text_packet (mk_world MemoryRedis.empty 5%nat [])
      = (Returns record2, w2') /\
    record2 = with_field "timestamp" (PStr "T5") text_record.
Proof.
  destruct (@_process_textmessage cpython _ text_packet
              (mk_world MemoryRedis.empty 5%nat [])) as [[record2|e] w2'] eqn:E;
    [|vm_compute in E; discriminate].
  exists record2, w2'. split; [reflexivity|].
  exact (proj1 (normalised_twice (L := cpython) text_packet text_record record2
                  world0 _ (mk_world MemoryRedis.empty 5%nat []) w2')
           text_packet_run E).
Defined.

Lemma records_typed_witness :
  has_type text_record "from_num" is_int /\
  has_type text_record "text" is_str /\
  has_type node_record "from_id" is_str.
Proof.
  destruct (proj1 (records_typed (L := cpython) text_packet text_record world0 _)
              text_packet_run) as (_ & _ & Hnum & _ & _ & _ & Htext & _).
  destruct (proj1 (proj2 (records_typed (L := cpython) node_packet node_record world0 _))
              node_packet_run) as (_ & _ & _ & Hid & _).
  auto.
Defined.

Lemma failed_normalisation_logged_twice_witness :
  exists w' middle,
    @process_packet cpython _ MemoryRedis.handler nameless_packet "node" world0
      = (Returns tt, w') /\
    storage w' = MemoryRedis.empty /\
    journal w' =
      Log DEBUG [Lit "Processing "; Val (PStr "node"); Lit " packet"] false
      :: middle ++ [@node_failure (mk_exn KeyError "longName");
                    packet_failure "node" (mk_exn KeyError "longName")] /\
    (middle = [] \/
     exists record, middle = [Validate record NodeInfo (Raises (mk_exn KeyError "longName"))]).
Proof.
  exact (proj1 (failed_normalisation_logged_twice (L := cpython)
                  (RH := MemoryRedis.handler) nameless_packet _ "node" world0
                  (mk_exn KeyError "longName") eq_refl)
           eq_refl eq_refl).
Defined.

Lemma node_packet_written_witness :
  @process_packet cpython _ MemoryRedis.handler node_packet "node" world0 =
  (Returns tt,
   mk_world (MemoryRedis.mk_db [stored_node] []) 1%nat
     [Log DEBUG [Lit "Processing "; Val (PStr "node"); Lit " packet"] false;
      Validate node_record NodeInfo (Returns tt);
      Log DEBUG [Lit "Validated node_info structure: "; Val node_record] false;
      StoreNode stored_node;
      Log INFO [Lit "Stored node info for "; Val (PStr "!12345678")] false;
      Log INFO [Lit "["; Val (PStr "T0"); Lit "] Node "; Val (PStr "!12345678");
                Lit ": "; Val (PStr "Base Camp")] false]).
Proof.
  destruct (node_packet_written (L := cpython) (RH := MemoryRedis.handler)
              node_packet _ node_record "node" stored_node world0
              (Returns tt) (MemoryRedis.mk_db [stored_node] [])
              eq_refl eq_refl (f_equal fst node_packet_run) stored_node_dumps eq_refl)
    as (timestamp & from_id & long_name & Hts & Hfrom & Hname & H).
  injection Hts as <-. injection Hfrom as <-. injection Hname as <-.
  exact H.
Defined.

Lemma text_packet_written_witness :
  @process_packet cpython _ MemoryRedis.failing text_packet "text" world0 =
  (Returns tt,
   mk_world MemoryRedis.empty 1%nat
     [Log DEBUG [Lit "Processing "; Val (PStr "text"); Lit " packet"] false;
      Validate text_record TextMessage (Returns tt);
      Log DEBUG [Lit "Validated text_message structure: "; Val text_record] false;
      StoreMessage stored_text;
      packet_failure "text"
        (mk_exn (Custom "ConnectionError" Exception) "store_message")]).
Proof.
  destruct (text_packet_written (L := cpython) (RH := MemoryRedis.failing)
              text_packet _ text_record "text" stored_text world0
              (raise (Custom "ConnectionError" Exception) "store_message")
              MemoryRedis.empty
              eq_refl eq_refl (f_equal fst text_packet_run) stored_text_dumps eq_refl)
    as (timestamp & from_id & to_id & text & _ & _ & _ & _ & H).
  exact H.
Defined.

Lemma packet_without_discriminator_witness :
  @process_packet cpython _ MemoryRedis.handler undecoded_packet "text" world0 =
  (Returns tt,
   mk_world MemoryRedis.empty O
     [Log DEBUG [Lit "Processing "; Val (PStr "text"); Lit " packet"] false;
      packet_failure "text" (mk_exn KeyError "decoded")]).
Proof.
  destruct (packet_without_discriminator (L := cpython) (RH := MemoryRedis.handler)
              undecoded_packet "text" world0) as (Hrun & Hdecoded & _).
  exact (Hrun _ (Hdecoded _ eq_refl eq_refl)).
Defined.

Lemma null_signal_rejected_witness :
  (exists e w', @_process_textmessage cpython _ null_signal_packet world0 = (Raises e, w')) /\
  (exists metrics, _extract_metrics null_signal_packet = Returns metrics).
Proof.
  destruct (null_signal_rejected (L := cpython) (fields_of null_signal_packet) world0
              (or_introl eq_refl)) as (Htext & _ & _ & Hextract).
  split; [exact Htext|]. exact (Hextract (PInt 1700000000) eq_refl).
Defined.

Lemma remaining_defaults_witness :
  exists metrics,
    getitem node_record "metrics" = Returns metrics /\
    getitem metrics "hop_limit" = Returns (PInt 3).
Proof.
  exact (proj1 (remaining_defaults (L := cpython) (fields_of node_packet) world0)
           eq_refl node_record _ (or_intror node_packet_run)).
Defined.

Lemma nodeinfo_failure_records_witness :
  @_process_nodeinfo cpython _ unreadable_sender_packet world0 =
    (Raises (mk_exn ValueError "invalid literal for int()"),
     mk_world MemoryRedis.empty 1%nat
       [Log ERROR [Lit "Node info validation failed: ";
                   Exc (mk_exn ValueError "invalid literal for int()")] false]) /\
  @_process_nodeinfo cpython _ senderless_packet world0 =
    (Raises (mk_exn KeyError "from"),
     mk_world MemoryRedis.empty 1%nat
       [Log ERROR [Lit "Error processing node info: ";
                   Exc (mk_exn KeyError "from")] true]).
Proof.
  split.
  - exact (proj1 (nodeinfo_failure_records (L := cpython) unreadable_sender_packet _
                    world0 eq_refl) "abc" eq_refl eq_refl).
  - exact (proj2 (nodeinfo_failure_records (L := cpython) senderless_packet _
                    world0 eq_refl) (mk_exn KeyError "from") eq_refl eq_refl).
Defined.

Lemma formatters_show_or_skip_witness :
  @format_message_for_display cpython _ stored_text world0 =
    (Returns (PDict [("timestamp", PStr "T0"); ("from", PStr "!12345678");
                     ("to", PStr "^all"); ("text", PStr "hello mesh")]), world0) /\
  @format_node_for_display cpython _ stored_node world0 =
    (Returns (PDict [("timestamp", PStr "T0"); ("id", PStr "!12345678");
                     ("name", PStr "Base Camp")]), world0).
Proof.
  destruct (formatters_show_or_skip (L := cpython) stored_text world0)
    as (Hmessage & _).
  destruct (formatters_show_or_skip (L := cpython) stored_node world0)
    as (_ & Hnode & _).
  split; [exact (Hmessage _ stored_text_shown) | exact (Hnode _ stored_node_shown)].
Defined.

Lemma formatters_catch_nothing_else_witness :
  @format_message_for_display cpython _ beyond_item world0 =
    (Raises (mk_exn (Custom "BeyondLatin1" Exception) "character from code point 256 on"),
     world0) /\
  @format_node_for_display cpython _ "[]" world0 =
    (Raises (mk_exn TypeError "timestamp"), world0).
Proof.
  split.
  - exact (proj1 (proj1 (formatters_catch_nothing_else (L := cpython) beyond_item world0)
                    _ eq_refl eq_refl)).
  - refine (proj2 (proj1 (proj2 (formatters_catch_nothing_else (L := cpython) "[]" world0))
                     (PList []) eq_refl _)).
    discriminate.
Defined.

Lemma listings_show_in_order_witness :
  fst (@get_formatted_messages cpython _ MemoryRedis.handler (-1) world2) =
    Returns [PDict [("timestamp", PStr "T0"); ("from", PStr "!12345678");
                    ("to", PStr "^all"); ("text", PStr "hello mesh")];
             PDict [("timestamp", PStr "T0"); ("from", PStr "!12345678");
                    ("to", PStr "^all"); ("text", PStr "hello mesh")]] /\
  fst (@get_formatted_nodes cpython _ MemoryRedis.handler 1 world2) =
    Returns [PDict [("timestamp", PStr "T0"); ("id", PStr "!12345678");
                    ("name", PStr "Base Camp")]].
Proof.
  split.
  - rewrite (proj1 (listings_show_in_order (L := cpython) (RH := MemoryRedis.handler)
                      (-1) [stored_text; "{not json"; stored_text] world2
                      (storage world2)) eq_refl).
    + unfold shown_items. cbn [flat_map].
      rewrite stored_text_shown, (malformed_not_shown_message _ not_json_malformed).
      reflexivity.
    + intros item [<-|[<-|[<-|[]]]].
      * left. rewrite stored_text_shown. discriminate.
      * right. exact not_json_malformed.
      * left. rewrite stored_text_shown. discriminate.
  - rewrite (proj2 (listings_show_in_order (L := cpython) (RH := MemoryRedis.handler)
                      1 [stored_node] world2 (storage world2)) eq_refl).
    + unfold shown_items. cbn [flat_map]. rewrite stored_node_shown. reflexivity.
    + intros item [<-|[]]. left. rewrite stored_node_shown. discriminate.
Defined.

Lemma listings_only_read_witness :
  fst (@get_formatted_messages cpython _ unreadable 10 world0) =
    Raises (mk_exn (Custom "ConnectionError" Exception) "load_messages") /\
  calls (journal (snd (@get_formatted_messages cpython _ unreadable 10 world0)))
    = [LoadMessages 10].
Proof.
  destruct (proj1 (listings_only_read (L := cpython) (RH := unreadable) 10 world0))
    as (_ & _ & Hcalls & Hraise).
  split; [exact (Hraise _ eq_refl) | exact Hcalls].
Defined.

Lemma node_display_round_trip_witness :
  exists timestamp from_id user_info long_name,
    getitem node_record "timestamp" = Returns timestamp /\
    getitem node_packet "fromId" = Returns from_id /\
    user_info_of node_packet = Returns user_info /\
    getitem user_info "longName" = Returns long_name /\
    @format_node_for_display cpython _ stored_node world0 =
      (Returns (PDict [("timestamp", timestamp);
                       ("id", PStr (@py_str cpython from_id));
                       ("name", PStr (@py_str cpython long_name))]), world0).
Proof.
  exact (node_display_round_trip (L := cpython) node_packet node_record stored_node
           world0 _ world0 node_packet_run stored_node_dumps stored_node_loads).
Defined.
